(** * create-android-ndk.py: a shallow embedding and its verified properties

    The script downloads an Android NDK archive, unpacks it, deletes every
    component that one build configuration does not need and packs the rest.
    This development embeds the script in Rocq:

    - the file system is a finite map from paths (lists of components) to
      nodes (a plain file with its bytes, or a directory);
    - every statement with an effect (file system, standard output, network,
      subprocess) is a computation in a state-and-failure monad whose failures
      are [sys.exit] and uncaught Python exceptions;
    - what the script only calls (SHA-1, the HTTP server, [unzip], the
      self-extracting installer, [tarfile]) is a variable of the section.

    Modelling conventions.  A path is the list of its components and
    [os.path.join(p, x)] is [p ++ [x]]: selectors are taken to be single path
    components.  Nodes are plain files or directories (no symbolic links, no
    permission bits).  [str.format] is rendered for the strings the script
    computes with (file and archive names, printed sizes); a printed or exit
    message is a template together with its arguments. *)

From Stdlib Require Import ZArith NArith String Ascii List Lia DecimalString.
From stdpp Require Import base gmap strings list fin_maps.

Local Open Scope string_scope.
Local Open Scope N_scope.
Local Open Scope list_scope.
Local Open Scope stdpp_scope.

(** ** Python strings *)

Module Py.

(** [s.startswith(p)], returning what follows the prefix. *)
Fixpoint strip (p s : string) : option string :=
  match p, s with
  | EmptyString, _ => Some s
  | String a p', String b s' => if decide (a = b) then strip p' s' else None
  | String _ _, EmptyString => None
  end.

Definition startswith (s p : string) : bool := bool_decide (is_Some (strip p s)).

(** [s.endswith(p)]. *)
Definition endswith (s p : string) : bool :=
  startswith (String.rev s) (String.rev p).

(** [s.replace(old, new)] for a non-empty [old]: the occurrences of [old] are
    found from the left and do not overlap.  [skip] counts the characters of
    an occurrence already replaced that are still to be passed over. *)
Fixpoint replace_go (old new : string) (skip : nat) (s : string) : string :=
  match s with
  | EmptyString => EmptyString
  | String c s' =>
      match skip with
      | S k => replace_go old new k s'
      | O =>
          if startswith s old
          then new +:+ replace_go old new (Nat.pred (String.length old)) s'
          else String c (replace_go old new 0 s')
      end
  end.

(** With an empty [old], Python puts [new] before every character and at the
    end. *)
Fixpoint intersperse (new s : string) : string :=
  match s with
  | EmptyString => new
  | String c s' => new +:+ String c (intersperse new s')
  end.

Definition replace (s old new : string) : string :=
  match old with
  | EmptyString => intersperse new s
  | String _ _ => replace_go old new 0 s
  end.

(** [str(n)] of a non-negative integer. *)
Definition str_N (n : N) : string := NilZero.string_of_uint (N.to_uint n).

(** [str(x)] of an optional string: [None] prints as its name. *)
Definition str_opt (o : option string) : string :=
  match o with Some s => s | None => "None" end.

(** Truthiness of an optional string: [None] and [''] are false. *)
Definition truthy (o : option string) : bool :=
  match o with Some (String _ _) => true | _ => false end.

(** Occurrence of [pat] somewhere in [s]. *)
Fixpoint occurs (pat s : string) : bool :=
  startswith s pat ||
  match s with
  | EmptyString => false
  | String _ s' => occurs pat s'
  end.

End Py.

(** ** Sizes for display (lines 31-45) *)

(** A Python number as [human_readable_size] returns it: the integer [size]
    itself, or the float [size / unit].  The units are powers of two, so the
    quotient of an integer below 2^53 is the exact dyadic [num / 2^shift]; a
    larger integer is first rounded to 53 significant bits, as the division
    rounds. *)
Inductive pynum :=
| PyInt (n : N)
| PyFloat (num : N) (shift : N).

(** Rounding of [a / b] to the nearest integer, ties to the even one. *)
Definition div_half_even (a b : N) : N :=
  let q := a / b in
  let r := a mod b in
  if 2 * r <? b then q
  else if b <? 2 * r then q + 1
  else if N.even q then q else q + 1.

(** The 53-bit significand of a double nearest to [n], scaled back. *)
Definition round53 (n : N) : N :=
  let bits := N.size n in
  if bits <=? 53 then n
  else let e := bits - 53 in div_half_even n (2 ^ e) * 2 ^ e.

(** [size / 2^shift] in floating point. *)
Definition truediv_pow2 (size shift : N) : pynum := PyFloat (round53 size) shift.

Definition human_readable_size (size : N) : pynum * string :=
  let kb := 1024 in
  let mb := 1024 * kb in
  let gb := 1024 * mb in
  if size <? kb then (PyInt size, "B")
  else if size <? mb then (truediv_pow2 size 10, "KB")
  else if size <? gb then (truediv_pow2 size 20, "MB")
  else (truediv_pow2 size 30, "GB").

(** The hundredths that ['{:.2f}'] prints: the value times 100, rounded half
    to even (an integer is converted to a float first). *)
Definition hundredths (x : pynum) : N :=
  match x with
  | PyInt n => 100 * round53 n
  | PyFloat num shift => div_half_even (100 * num) (2 ^ shift)
  end.

Definition two_digits (n : N) : string :=
  Py.str_N (n / 10) +:+ Py.str_N (n mod 10).

(** ['{:.2f}'.format(x)] *)
Definition format_2f (x : pynum) : string :=
  let h := hundredths x in
  Py.str_N (h / 100) +:+ "." +:+ two_digits (h mod 100).

(** Lines 44-45, from the size that [get_object_size] returned. *)
Definition printable_size (bytes : N) : string :=
  let '(size, suffix) := human_readable_size bytes in
  format_2f size +:+ " " +:+ suffix.

(** ** The world the script runs in *)

Abbreviation path := (list string) (only parsing).

Inductive node :=
| File (data : string)
| Dir.

Global Instance node_eq_dec : EqDecision node.
Proof. solve_decision. Defined.

(** Uncaught Python exceptions, with the path or the call they are about. *)
Inductive exn :=
| FileNotFoundError (p : path)
| NotADirectoryError (p : path)
| IsADirectoryError (p : path)
| FileExistsError (p : path)
| AttributeError
| AssertionError
| ConnectionError (url : string)
| DownloadingFailed (url : string)
| CalledProcessError (argv : list path).

(** An argument of [str.format] in a message that is only displayed. *)
Inductive fmt_arg :=
| FStr (s : string)
| FOpt (o : option string)
| FPath (p : path)
| FList (l : list string)
| FNat (n : nat)
| FExn (e : exn).

(** [template.format(args...)] *)
Record message := Msg { msg_template : string; msg_args : list fmt_arg }.

(** External programs and archive libraries the script calls. *)
Inductive tool :=
| TarExtract (archive dest : path)
| Unzip (archive : path)
| SelfExtract (archive : path).

Inductive event :=
| Print (m : message)
| HttpGet (url : string)
| Sleep (seconds : nat)
| Chmod (p : path)
| Ran (t : tool).

(** What [requests.get(url, stream=True)] and the iteration over the body
    give: the chunks received, and whether the stream broke after them. *)
Inductive response :=
| Unreachable
| NotOk
| Body (chunks : list string) (broken : bool).

Record world := World {
  w_fs : gmap path node;
  w_cwd : path;
  w_trace : list event
}.

Definition requests_of (t : list event) : list string :=
  omap (λ e, match e with HttpGet u => Some u | _ => None end) t.

(** ** Computations: state, [sys.exit] and exceptions *)

Inductive outcome (A : Type) :=
| Ret (a : A)
| Exit (m : message)
| Raise (e : exn).
Arguments Ret {A} a.
Arguments Exit {A} m.
Arguments Raise {A} e.

Definition M (A : Type) : Type := world → outcome A * world.

Definition ret {A} (a : A) : M A := λ w, (Ret a, w).

Definition bind {A B} (c : M A) (k : A → M B) : M B :=
  λ w, match c w with
       | (Ret a, w') => k a w'
       | (Exit m, w') => (Exit m, w')
       | (Raise e, w') => (Raise e, w')
       end.

Notation "'let*' x := c 'in' k" := (bind c (λ x, k))
  (at level 10, x name, c at level 100, k at level 200,
   format "'[v' 'let*'  x  :=  c  'in' '/' k ']'").
Notation "'let*' ' p := c 'in' k" := (bind c (λ x, let 'p := x in k))
  (at level 10, p pattern, c at level 100, k at level 200).
Notation "c >> k" := (bind c (λ _, k))
  (at level 100, k at level 200, right associativity).

Definition sys_exit {A} (template : string) (args : list fmt_arg) : M A :=
  λ w, (Exit (Msg template args), w).

Definition raise {A} (e : exn) : M A := λ w, (Raise e, w).

Definition emit (e : event) : M unit :=
  λ w, (Ret tt, World (w_fs w) (w_cwd w) (w_trace w ++ [e])).

Definition print (template : string) (args : list fmt_arg) : M unit :=
  emit (Print (Msg template args)).

Definition get_fs : M (gmap path node) := λ w, (Ret (w_fs w), w).

Definition put_fs (fs : gmap path node) : M unit :=
  λ w, (Ret tt, World fs (w_cwd w) (w_trace w)).

Definition when (b : bool) (c : M unit) : M unit := if b then c else ret tt.

(** [try: c  except Exception as exc: h(exc)]; [SystemExit] is not an
    [Exception] and passes through. *)
Definition try_except {A} (c : M A) (h : exn → M A) : M A :=
  λ w, match c w with
       | (Raise e, w') => h e w'
       | r => r
       end.

(** [for x in xs: s = body(x, s)] *)
Fixpoint for_each {A S} (body : A → S → M S) (xs : list A) (s : S) : M S :=
  match xs with
  | [] => ret s
  | x :: xs' => let* s' := body x s in for_each body xs' s'
  end.

(** ** The file system *)

Module FS.

(** The rest of [q] after the prefix [p]. *)
Fixpoint strip (p q : path) : option path :=
  match p, q with
  | [], _ => Some q
  | a :: p', b :: q' => if decide (a = b) then strip p' q' else None
  | _ :: _, [] => None
  end.

(** The name of [q] when it is an entry of the directory [p]. *)
Definition child (p q : path) : option string :=
  match strip p q with
  | Some [x] => Some x
  | _ => None
  end.

Definition names (fs : gmap path node) (p : path) : list string :=
  omap (λ kv, child p kv.1) (map_to_list fs).

Definition parent (p : path) : path := removelast p.

(** The entries strictly below [p]. *)
Definition below (fs : gmap path node) (p : path) : gmap path node :=
  filter (λ kv, p `prefix_of` kv.1 ∧ kv.1 ≠ p) fs.

(** [fs] without [p] and everything below it. *)
Definition without (fs : gmap path node) (p : path) : gmap path node :=
  filter (λ kv, ¬ p `prefix_of` kv.1) fs.

Definition file_size (n : node) : N :=
  match n with
  | File data => N.of_nat (String.length data)
  | Dir => 0
  end.

Definition total_size (fs : gmap path node) : N :=
  foldr (λ kv acc, file_size kv.2 + acc) 0 (map_to_list fs).

End FS.

(** ** [os], [os.path] and [shutil] *)

Definition os_getcwd : M path := λ w, (Ret (w_cwd w), w).

Definition os_path_exists (p : path) : M bool :=
  let* fs := get_fs in ret (bool_decide (is_Some (fs !! p))).

Definition os_path_isdir (p : path) : M bool :=
  let* fs := get_fs in ret (bool_decide (fs !! p = Some Dir)).

Definition os_path_isfile (p : path) : M bool :=
  let* fs := get_fs in
  ret (match fs !! p with Some (File _) => true | _ => false end).

Definition os_path_getsize (p : path) : M N :=
  let* fs := get_fs in
  match fs !! p with
  | Some n => ret (FS.file_size n)
  | None => raise (FileNotFoundError p)
  end.

Definition os_listdir (p : path) : M (list string) :=
  let* fs := get_fs in
  match fs !! p with
  | Some Dir => ret (FS.names fs p)
  | Some (File _) => raise (NotADirectoryError p)
  | None => raise (FileNotFoundError p)
  end.

Definition os_chdir (p : path) : M unit :=
  λ w, match w_fs w !! p with
       | Some Dir => (Ret tt, World (w_fs w) p (w_trace w))
       | Some (File _) => (Raise (NotADirectoryError p), w)
       | None => (Raise (FileNotFoundError p), w)
       end.

Definition os_mkdir (p : path) : M unit :=
  let* fs := get_fs in
  match fs !! p with
  | Some _ => raise (FileExistsError p)
  | None =>
      match fs !! FS.parent p with
      | Some Dir => put_fs (<[p := Dir]> fs)
      | Some (File _) => raise (NotADirectoryError p)
      | None => raise (FileNotFoundError p)
      end
  end.

Definition shutil_rmtree (p : path) : M unit :=
  let* fs := get_fs in
  match fs !! p with
  | Some Dir => put_fs (FS.without fs p)
  | Some (File _) => raise (NotADirectoryError p)
  | None => raise (FileNotFoundError p)
  end.

Definition os_remove (p : path) : M unit :=
  let* fs := get_fs in
  match fs !! p with
  | Some (File _) => put_fs (delete p fs)
  | Some Dir => raise (IsADirectoryError p)
  | None => raise (FileNotFoundError p)
  end.

(** [open(p, 'rb').read()] *)
Definition read_bytes (p : path) : M string :=
  let* fs := get_fs in
  match fs !! p with
  | Some (File data) => ret data
  | Some Dir => raise (IsADirectoryError p)
  | None => raise (FileNotFoundError p)
  end.

(** [open(p, 'wb')] followed by writing [data]. *)
Definition write_bytes (p : path) (data : string) : M unit :=
  let* fs := get_fs in
  match fs !! p with
  | Some Dir => raise (IsADirectoryError p)
  | _ =>
      match fs !! FS.parent p with
      | Some Dir => put_fs (<[p := File data]> fs)
      | Some (File _) => raise (NotADirectoryError p)
      | None => raise (FileNotFoundError p)
      end
  end.

(** Lines 16-29. [os.walk] of something that is not a directory yields
    nothing. *)
Definition get_directory_size (dir_path : path) : M N :=
  let* fs := get_fs in
  match fs !! dir_path with
  | Some Dir => ret (FS.total_size (FS.below fs dir_path))
  | _ => ret 0
  end.

Definition get_object_size (obj_path : path) : M N :=
  let* isfile := os_path_isfile obj_path in
  if isfile then os_path_getsize obj_path
  else get_directory_size obj_path.

Definition object_printable_size (obj_path : path) : M string :=
  let* bytes := get_object_size obj_path in
  ret (printable_size bytes).

(** Pure code that may call [sys.exit], run inside a computation. *)
Definition lift {A} (o : outcome A) : M A := λ w, (o, w).

(** ['{}-{}'.format(a, b)] *)
Definition dash (a b : string) : string := a +:+ "-" +:+ b.

(** ** Selector resolution (lines 124-135) *)

Definition stl_suffix_by_name (stl_name : string) : outcome string :=
  if bool_decide (stl_name = "system") || bool_decide (stl_name = "system_re")
  then Ret "system"
  else if bool_decide (stl_name = "gabi++_shared")
          || bool_decide (stl_name = "gabi++_static")
  then Ret "gabi++"
  else if bool_decide (stl_name = "stlport_shared")
          || bool_decide (stl_name = "stlport_static")
  then Ret "stlport"
  else if bool_decide (stl_name = "gnustl_shared")
          || bool_decide (stl_name = "gnustl_static")
  then Ret "gnu-libstdc++"
  else if bool_decide (stl_name = "c++_static")
          || bool_decide (stl_name = "c++_shared")
  then Ret "llvm-libc++"
  else Exit (Msg "Unexpected --stl: {}" [FStr stl_name]).

(** The ten names of the table. *)
Definition stl_names : list string :=
  ["system"; "system_re"; "gabi++_shared"; "gabi++_static";
   "stlport_shared"; "stlport_static"; "gnustl_shared"; "gnustl_static";
   "c++_static"; "c++_shared"].

(** ** Command line (lines 137-164) *)

(** The parsed arguments.  A required flag that was not given is [None] in
    Python; it fails the same test as the empty string at lines 154-164,
    before any other use, and is the empty string here. *)
Record args := Args {
  toolchain : string;
  stl : string;
  compiler_version : option string;
  abi_name : option string;
  api_level : string;
  arch_name : string;
  ndk_version : option string
}.

Definition ndk_choices : list string := ["r10e"; "r11c"; "r15c"; "r16b"].

(** [parser.parse_args()]: a value of [--ndk-version] outside the choices is
    refused; the flag may be absent. *)
Definition parse_args (a : args) : M unit :=
  match ndk_version a with
  | Some v =>
      when (negb (bool_decide (v ∈ ndk_choices)))
        (sys_exit "argument --ndk-version: invalid choice: {} (choose from {})"
           [FStr v; FList ndk_choices])
  | None => ret tt
  end.

Definition nonempty (s : string) : bool :=
  match s with EmptyString => false | String _ _ => true end.

Definition check_required (a : args) : M unit :=
  when (negb (nonempty (toolchain a))) (sys_exit "--toolchain is required" []) >>
  when (negb (nonempty (stl a))) (sys_exit "--stl is required" []) >>
  when (negb (nonempty (api_level a))) (sys_exit "--api-level is required" []) >>
  when (negb (nonempty (arch_name a))) (sys_exit "--arch-name is required" []).

(** ** Directories and names (lines 166-197) *)

Record layout := Layout {
  top_dir : path;
  downloads_dir : path;
  unpack_dir : path;
  pruned_dir : path;
  android_archive_local : path;
  android_unpacked_ndk : path;
  android_toolchains_dir : path;
  android_stl_dir : path;
  android_platforms_dir : path
}.

Definition archive_suffix (ndk_version : option string) : string :=
  if bool_decide (ndk_version = Some "r10e") then "bin" else "zip".

Definition ndk_dir_name (ndk_version : option string) : string :=
  "android-ndk-" +:+ Py.str_opt ndk_version.

Definition layout_of (top : path) (ndk_version : option string) : layout :=
  let downloads := top ++ ["_downloads"] in
  let unpack := top ++ ["_unpacked"] in
  let unpacked_ndk := unpack ++ [ndk_dir_name ndk_version] in
  {| top_dir := top;
     downloads_dir := downloads;
     unpack_dir := unpack;
     pruned_dir := top ++ ["_pruned"];
     android_archive_local :=
       downloads ++ [ndk_dir_name ndk_version +:+ "." +:+ archive_suffix ndk_version];
     android_unpacked_ndk := unpacked_ndk;
     android_toolchains_dir := unpacked_ndk ++ ["toolchains"];
     android_stl_dir := unpacked_ndk ++ ["sources"; "cxx-stl"];
     android_platforms_dir := unpacked_ndk ++ ["platforms"] |}.

Definition prepare_dirs (L : layout) : M unit :=
  let* e := os_path_exists (downloads_dir L) in
  when (negb e)
    (print "Creating new directory: {}" [FPath (downloads_dir L)] >>
     os_mkdir (downloads_dir L)) >>
  let* e := os_path_exists (unpack_dir L) in
  when e
    (print "Cleanup directory: {}" [FPath (unpack_dir L)] >>
     shutil_rmtree (unpack_dir L)) >>
  os_mkdir (unpack_dir L) >>
  let* e := os_path_exists (pruned_dir L) in
  when (negb e) (os_mkdir (pruned_dir L)).

(** ** Download locations (lines 199-239) *)

Definition get_darwin_info (ndk_version : option string) : outcome (string * string) :=
  if bool_decide (ndk_version = Some "r10e") then
    Ret ("http://dl.google.com/android/ndk/android-ndk-r10e-darwin-x86_64.bin",
         "b57c2b9213251180dcab794352bfc9a241bf2557")
  else if bool_decide (ndk_version = Some "r11c") then
    Ret ("http://dl.google.com/android/repository/android-ndk-r11c-darwin-x86_64.zip",
         "4ce8e7ed8dfe08c5fe58aedf7f46be2a97564696")
  else if bool_decide (ndk_version = Some "r15c") then
    Ret ("https://dl.google.com/android/repository/android-ndk-r15c-darwin-x86_64.zip",
         "ea4b5d76475db84745aa8828000d009625fc1f98")
  else Exit (Msg "Unknown NDK version" []).

Definition get_linux_info (ndk_version : option string) : outcome (string * string) :=
  if bool_decide (ndk_version = Some "r10e") then
    Ret ("http://dl.google.com/android/ndk/android-ndk-r10e-linux-x86_64.bin",
         "c685e5f106f8daa9b5449d0a4f21ee8c0afcb2f6")
  else if bool_decide (ndk_version = Some "r11c") then
    Ret ("http://dl.google.com/android/repository/android-ndk-r11c-linux-x86_64.zip",
         "de5ce9bddeee16fb6af2b9117e9566352aa7e279")
  else if bool_decide (ndk_version = Some "r15c") then
    Ret ("https://dl.google.com/android/repository/android-ndk-r15c-linux-x86_64.zip",
         "0bf02d4e8b85fd770fd7b9b2cdec57f9441f27a2")
  else if bool_decide (ndk_version = Some "r16b") then
    Ret ("https://dl.google.com/android/repository/android-ndk-r16b-linux-x86_64.zip",
         "42aa43aae89a50d1c66c3f9fdecd676936da6128")
  else Exit (Msg "Unknown NDK version" []).

(** Lines 255-257. *)
Definition selected_toolchain (a : args) : string :=
  if bool_decide (compiler_version a = Some "clang")
  then Py.replace (toolchain a) "-clang" "-4.9"
  else toolchain a.

(** ** Existence and listing checks *)

(** Lines 259-266. *)
Definition check_toolchain (android_toolchains_dir : path) (toolchain : string)
  : M (list string) :=
  let toolchain_dir := android_toolchains_dir ++ [toolchain] in
  let* e := os_path_exists toolchain_dir in
  when (negb e)
    (print "Toolchain not exists: {} (set by --toolchain)" [FPath toolchain_dir]) >>
  let* toolchains_list := os_listdir android_toolchains_dir in
  when (negb (bool_decide (toolchain ∈ toolchains_list)))
    (sys_exit "Toolchain `{}` is not in list: {}"
       [FStr toolchain; FList toolchains_list]) >>
  ret toolchains_list.

(** Lines 270-276. *)
Definition check_stl (android_stl_dir : path) (stl_suffix : string)
  : M (list string) :=
  let stl_dir := android_stl_dir ++ [stl_suffix] in
  let* e := os_path_exists stl_dir in
  when (negb e) (print "STL not exists: {} (set by --stl)" [FPath stl_dir]) >>
  let* stl_list := os_listdir android_stl_dir in
  when (negb (bool_decide (stl_suffix ∈ stl_list)))
    (sys_exit "STL `{}` is not in list: {}" [FStr stl_suffix; FList stl_list]) >>
  ret stl_list.

(** Lines 330-335. *)
Definition check_version (stl_dir : path) (gcc_version : string)
  : M (list string) :=
  let gcc_version_dir := stl_dir ++ [gcc_version] in
  let* e := os_path_exists gcc_version_dir in
  when (negb e)
    (sys_exit "Directory not exists: {} (--compiler-version)"
       [FPath gcc_version_dir]) >>
  let* versions_list := os_listdir stl_dir in
  when (negb (bool_decide (gcc_version ∈ versions_list)))
    (sys_exit "{} not found in {}" [FStr gcc_version; FList versions_list]) >>
  ret versions_list.

(** Lines 357-363. *)
Definition check_abi (libs_dir : path) (abi : string) : M (list string) :=
  let abi_dir := libs_dir ++ [abi] in
  let* e := os_path_exists abi_dir in
  when (negb e)
    (sys_exit "Directory not exists: {} (--abi-name)" [FPath abi_dir]) >>
  let* abi_list := os_listdir libs_dir in
  when (negb (bool_decide (abi ∈ abi_list)))
    (sys_exit "{} not found in {}" [FStr abi; FList abi_list]) >>
  ret abi_list.

(** Lines 381-386. *)
Definition check_api (android_platforms_dir : path) (android_api : string)
  : M (list string) :=
  let android_api_dir := android_platforms_dir ++ [android_api] in
  let* e := os_path_exists android_api_dir in
  when (negb e)
    (sys_exit "Directory not found: {} (--api-level)" [FPath android_api_dir]) >>
  let* api_list := os_listdir android_platforms_dir in
  when (negb (bool_decide (android_api ∈ api_list)))
    (sys_exit "{} not found in {}" [FStr android_api; FList api_list]) >>
  ret api_list.

(** Lines 407-413. *)
Definition check_arch (android_api_dir : path) (android_arch : string)
  : M (list string) :=
  let android_arch_dir := android_api_dir ++ [android_arch] in
  let* e := os_path_exists android_arch_dir in
  when (negb e)
    (sys_exit "Directory not found: {} (--arch-name)" [FPath android_arch_dir]) >>
  let* arch_list := os_listdir android_api_dir in
  when (negb (bool_decide (android_arch ∈ arch_list)))
    (sys_exit "{} not found in {}" [FStr android_arch; FList arch_list]) >>
  ret arch_list.

(** ** The pruning loops *)

(** Each loop body takes the entry [x] and the flag set so far and returns
    the flag; [continue] is the end of the body. *)

(** Lines 281-295. *)
Definition toolchain_step (compiler_version : option string)
    (android_toolchains_dir : path) (toolchain x : string)
    (toolchain_found : bool) : M bool :=
  let set_toolchain_found := bool_decide (x = toolchain) in
  let remove_dir := negb set_toolchain_found in
  let remove_dir :=
    if bool_decide (compiler_version = Some "clang") && bool_decide (x = "llvm")
    then false else remove_dir in
  when remove_dir
    (let toremove := android_toolchains_dir ++ [x] in
     print "  - {}" [FPath toremove] >>
     shutil_rmtree toremove) >>
  if set_toolchain_found then
    if toolchain_found then sys_exit "Already found" [] else ret true
  else ret toolchain_found.

(** Lines 278-298. *)
Definition prune_toolchains (compiler_version : option string)
    (android_toolchains_dir : path) (toolchain : string)
    (toolchains_list : list string) : M unit :=
  print "Removing unused toolchains:" [] >>
  let* toolchain_found :=
    for_each (toolchain_step compiler_version android_toolchains_dir toolchain)
      toolchains_list false in
  when (negb toolchain_found) (sys_exit "Toolchain not found" []).

(** Lines 305-319. *)
Definition stl_step (android_stl_dir : path) (stl_suffix x : string)
    (stl_found : bool) : M bool :=
  let set_stl_found := bool_decide (x = stl_suffix) in
  let remove_dir := negb set_stl_found in
  let remove_dir :=
    if bool_decide (stl_suffix = "llvm-libc++") && bool_decide (x = "llvm-libc++abi")
    then false else remove_dir in
  when remove_dir
    (let toremove := android_stl_dir ++ [x] in
     print "  - {}" [FPath toremove] >>
     shutil_rmtree toremove) >>
  if set_stl_found then
    if stl_found then sys_exit "Already found" [] else ret true
  else ret stl_found.

(** Lines 302-322. *)
Definition prune_stl (android_stl_dir : path) (stl_suffix : string)
    (stl_list : list string) : M unit :=
  print "Removing unused STL:" [] >>
  let* stl_found := for_each (stl_step android_stl_dir stl_suffix) stl_list false in
  when (negb stl_found) (sys_exit "STL not found" []).

(** Lines 339-349. *)
Definition version_step (stl_dir : path) (gcc_version x : string) (found : bool)
  : M bool :=
  let x_path := stl_dir ++ [x] in
  if bool_decide (x = gcc_version) then
    if found then sys_exit "Already found" [] else ret true
  else
    let* isdir := os_path_isdir x_path in
    if negb isdir then ret found
    else
      print "  - {}" [FPath x_path] >>
      shutil_rmtree x_path >>
      ret found.

(** Lines 336-351. *)
Definition prune_versions (stl_dir : path) (gcc_version : string)
    (versions_list : list string) : M unit :=
  print "Removing unused compilers versions:" [] >>
  let* found := for_each (version_step stl_dir gcc_version) versions_list false in
  when (negb found) (sys_exit "Not found" []).

(** Lines 367-375. *)
Definition abi_step (libs_dir : path) (abi x : string) (found : bool) : M bool :=
  if bool_decide (x = abi) then
    if found then sys_exit "Already found" [] else ret true
  else
    let toremove := libs_dir ++ [x] in
    print "  - {}" [FPath toremove] >>
    shutil_rmtree toremove >>
    ret found.

(** Lines 364-377. *)
Definition prune_abi (libs_dir : path) (abi : string) (abi_list : list string)
  : M unit :=
  print "Removing unused ABI:" [] >>
  let* found := for_each (abi_step libs_dir abi) abi_list false in
  when (negb found) (sys_exit "Not found" []).

(** Lines 390-400. *)
Definition api_step (android_platforms_dir : path) (android_api x : string)
    (found : bool) : M bool :=
  let toremove := android_platforms_dir ++ [x] in
  let* isdir := os_path_isdir toremove in
  if negb isdir then ret found
  else if bool_decide (x = android_api) then
    if found then sys_exit "Already found" [] else ret true
  else
    print "  - {}" [FPath toremove] >>
    shutil_rmtree toremove >>
    ret found.

(** Lines 387-402. *)
Definition prune_api (android_platforms_dir : path) (android_api : string)
    (api_list : list string) : M unit :=
  print "Removing unused API:" [] >>
  let* found := for_each (api_step android_platforms_dir android_api) api_list false in
  when (negb found) (sys_exit "API not found" []).

(** Lines 418-428. *)
Definition arch_step (android_api_dir : path) (android_arch x : string)
    (found : bool) : M bool :=
  if bool_decide (x = android_arch) then
    if found then sys_exit "Already found" [] else ret true
  else
    let toremove := android_api_dir ++ [x] in
    print "  - {}" [FPath toremove] >>
    let* isdir := os_path_isdir toremove in
    (if isdir then shutil_rmtree toremove else os_remove toremove) >>
    ret found.

(** Lines 415-430. *)
Definition prune_arch (android_api_dir : path) (android_arch : string)
    (arch_list : list string) : M unit :=
  print "Removing unused architectures:" [] >>
  let* found := for_each (arch_step android_api_dir android_arch) arch_list false in
  when (negb found) (sys_exit "Not found" []).

(** Lines 326-378: the sub-prune of the GNU standard library; returns the
    archive name with the two selections appended. *)
Definition prune_gnu (a : args) (stl_dir : path) (android_pruned_name : string)
  : M string :=
  match compiler_version a with
  | Some (String _ _ as gcc_version) =>
      let gcc_version_dir := stl_dir ++ [gcc_version] in
      let* versions_list := check_version stl_dir gcc_version in
      prune_versions stl_dir gcc_version versions_list >>
      let android_pruned_name := dash android_pruned_name gcc_version in
      match abi_name a with
      | Some (String _ _ as abi) =>
          let libs_dir := gcc_version_dir ++ ["libs"] in
          let* abi_list := check_abi libs_dir abi in
          prune_abi libs_dir abi abi_list >>
          ret (dash android_pruned_name abi)
      | _ => sys_exit "Expected --abi-name" []
      end
  | _ => sys_exit "Expected --compiler-version" []
  end.

(** ** The script against its environment *)

Section Script.

(** [hashlib.sha1(data).hexdigest()] *)
Variable sha1_hexdigest : string → string.

(** The answer of the server to the [n]-th request of the run. *)
Variable http_get : string → nat → response.

(** What an extraction leaves in the file system, run from a working
    directory; [None] when it fails. *)
Variable run_tool : tool → path → gmap path node → option (gmap path node).

(** The bytes of the compressed archive of a tree added under a root name. *)
Variable tar_gz : string → gmap path node → string.

(** [platform.system()] *)
Variable platform_system : string.

(** *** class FileToDownload (lines 47-122) *)

(** Lines 65-78. *)
Definition hash_match (sha1 : string) (local_path : path) : M bool :=
  let* e := os_path_exists local_path in
  if negb e then
    print "File not exists: {}" [FPath local_path] >>
    ret false
  else
    print "Calculating hash of {}" [FPath local_path] >>
    let* data := read_bytes local_path in
    let sha1_of_file := sha1_hexdigest data in
    let ok := bool_decide (sha1_of_file = sha1) in
    if ok then ret true
    else
      print "SHA1 mismatch for file {}:" [FPath local_path] >>
      print "  {} (real)" [FStr sha1_of_file] >>
      print "  {} (expected)" [FStr sha1] >>
      ret false.

Definition requests_get (url : string) : M response :=
  λ w, let n := length (requests_of (w_trace w)) in
       let w' := World (w_fs w) (w_cwd w) (w_trace w ++ [HttpGet url]) in
       match http_get url n with
       | Unreachable => (Raise (ConnectionError url), w')
       | r => (Ret r, w')
       end.

(** [f.write(chunk)] on the file opened at [p]. *)
Definition append_bytes (p : path) (chunk : string) : M unit :=
  let* data := read_bytes p in write_bytes p (data +:+ chunk).

(** Lines 93-101. *)
Definition real_file_download_once (url : string) (local_path : path) : M unit :=
  print "Downloading:
  {}
  -> {}" [FStr url; FPath local_path] >>
  let* r := requests_get url in
  match r with
  | Body chunks broken =>
      write_bytes local_path "" >>
      for_each (λ chunk _, when (nonempty chunk) (append_bytes local_path chunk))
        chunks tt >>
      when broken (raise (ConnectionError url))
  | _ => raise (DownloadingFailed url)
  end.

(** Lines 80-90: attempt [i] of [max_retry], with [left] attempts to go. *)
Fixpoint real_file_download_from (max_retry i left : nat) (url : string)
    (local_path : path) : M unit :=
  match left with
  | O => sys_exit "Download failed" []
  | S left' =>
      try_except
        (real_file_download_once url local_path >> print "Done" [])
        (λ exc,
           print "Exception catched ({}), retry... ({} of {})"
             [FExn exc; FNat (i + 1); FNat max_retry] >>
           emit (Sleep 60) >>
           real_file_download_from max_retry (S i) left' url local_path)
  end.

Definition real_file_download (url : string) (local_path : path) : M unit :=
  let max_retry := 3%nat in
  real_file_download_from max_retry 0 max_retry url local_path.

(** Lines 57-63. *)
Definition download (url sha1 : string) (local_path : path) : M unit :=
  let* ok := hash_match sha1 local_path in
  if ok then print "File already downloaded: {}" [FPath local_path]
  else
    real_file_download url local_path >>
    let* again := hash_match sha1 local_path in
    when (negb again) (raise AssertionError).

Definition run (t : tool) (argv : list path) : M unit :=
  emit (Ran t) >>
  λ w, match run_tool t (w_cwd w) (w_fs w) with
       | Some fs' => (Ret tt, World fs' (w_cwd w) (w_trace w))
       | None => (Raise (CalledProcessError argv), w)
       end.

(** [os.chmod(p, os.stat(p).st_mode | stat.S_IEXEC)] *)
Definition make_executable (p : path) : M unit :=
  let* e := os_path_exists p in
  if e then emit (Chmod p) else raise (FileNotFoundError p).

(** Lines 103-122.  The installer is started through the global
    [android_archive_local]. *)
Definition unpack (url : string) (local_path unpack_dir : path)
    (android_archive_local : path) : M unit :=
  print "Unpacking {}" [FPath local_path] >>
  let* last_cwd := os_getcwd in
  os_chdir unpack_dir >>
  (if Py.endswith url ".tar.gz" then
     run (TarExtract local_path unpack_dir) [local_path]
   else if Py.endswith url ".zip" then
     run (Unzip local_path) [["unzip"]; local_path]
   else if Py.endswith url ".bin" then
     make_executable local_path >>
     run (SelfExtract android_archive_local) [android_archive_local]
   else sys_exit "Unknown archive format" []) >>
  os_chdir last_cwd.

(** Lines 48-55. *)
Definition FileToDownload (url sha1 : string) (local_path unpack_dir : path)
    (android_archive_local : path) : M unit :=
  download url sha1 local_path >>
  unpack url local_path unpack_dir android_archive_local.

(** *** The top level *)

(** Lines 241-248. *)
Definition fetch (a : args) (L : layout) : M unit :=
  if bool_decide (platform_system = "Darwin") then
    let* '(url, sha1) := lift (get_darwin_info (ndk_version a)) in
    FileToDownload url sha1 (android_archive_local L) (unpack_dir L)
      (android_archive_local L)
  else if bool_decide (platform_system = "Linux") then
    let* '(url, sha1) := lift (get_linux_info (ndk_version a)) in
    FileToDownload url sha1 (android_archive_local L) (unpack_dir L)
      (android_archive_local L)
  else sys_exit "Android supported only for Linux and OSX" [].

(** Lines 250-253 and 444-447. *)
Definition sizes_info (template : string) (archive unpacked : path) : M message :=
  let* s1 := object_printable_size archive in
  let* s2 := object_printable_size unpacked in
  ret (Msg template [FStr s1; FStr s2]).

(** Lines 440-442. *)
Definition pack (archive src : path) (arcname : string) : M unit :=
  write_bytes archive "" >>
  let* fs := get_fs in
  match fs !! src with
  | Some _ => write_bytes archive (tar_gz arcname (filter (λ kv, src `prefix_of` kv.1) fs))
  | None => raise (FileNotFoundError src)
  end.

(** Lines 255-452, after the download: returns the name and the path of the
    pruned archive. *)
Definition prune_and_pack (a : args) (L : layout) : M (string * path) :=
  let android_pruned_name := ndk_dir_name (ndk_version a) in
  let* original_info :=
    sizes_info "Original sizes: archive {}, unpacked {}"
      (android_archive_local L) (android_unpacked_ndk L) in
  let toolchain := selected_toolchain a in
  let* toolchains_list := check_toolchain (android_toolchains_dir L) toolchain in
  let* stl_suffix := lift (stl_suffix_by_name (stl a)) in
  let stl_dir := android_stl_dir L ++ [stl_suffix] in
  let* stl_list := check_stl (android_stl_dir L) stl_suffix in
  prune_toolchains (compiler_version a) (android_toolchains_dir L) toolchain
    toolchains_list >>
  let android_pruned_name := dash android_pruned_name toolchain in
  prune_stl (android_stl_dir L) stl_suffix stl_list >>
  let android_pruned_name := dash android_pruned_name stl_suffix in
  let* android_pruned_name :=
    if bool_decide (stl_suffix = "gnu-libstdc++")
    then prune_gnu a stl_dir android_pruned_name
    else ret android_pruned_name in
  let android_api := "android-" +:+ api_level a in
  let android_api_dir := android_platforms_dir L ++ [android_api] in
  let* api_list := check_api (android_platforms_dir L) android_api in
  prune_api (android_platforms_dir L) android_api api_list >>
  let android_pruned_name := dash android_pruned_name android_api in
  let android_arch := "arch-" +:+ arch_name a in
  let* arch_list := check_arch android_api_dir android_arch in
  prune_arch android_api_dir android_arch arch_list >>
  let android_pruned_name := dash android_pruned_name android_arch in
  let android_pruned_name := dash android_pruned_name platform_system in
  let android_pruned_name := android_pruned_name +:+ ".tar.gz" in
  let android_pruned_archive := pruned_dir L ++ [android_pruned_name] in
  print "Creating archive" [] >>
  pack android_pruned_archive (android_unpacked_ndk L)
    (ndk_dir_name (ndk_version a)) >>
  let* pruned_info :=
    sizes_info "Pruned sizes: archive {}, unpacked {}"
      android_pruned_archive (android_unpacked_ndk L) in
  emit (Print original_info) >>
  emit (Print pruned_info) >>
  print "Pruned archive ready: {}" [FPath android_pruned_archive] >>
  ret (android_pruned_name, android_pruned_archive).

(** The whole script. *)
Definition main (a : args) : M (string * path) :=
  parse_args a >>
  check_required a >>
  let* top_dir := os_getcwd in
  let L := layout_of top_dir (ndk_version a) in
  prepare_dirs L >>
  fetch a L >>
  prune_and_pack a L.

End Script.

(** ** The common shape of the six loop bodies *)

(** What a loop body does with an entry that is not the kept one. *)
Inductive action := Skip | Rmtree | Remove.

(** A loop body in terms of the node [v] found at the entry: the kept entry
    is counted when [observed v]; another entry is treated as [act x v]
    says.  Each loop body above is an instance (lemmas [*_step_shape]). *)
Definition entry_step (keep : string) (observed : option node → bool)
    (act : string → option node → action) (dir : path) (x : string)
    (found : bool) : M bool :=
  λ w,
    let v := w_fs w !! (dir ++ [x]) in
    if bool_decide (x = keep) then
      if observed v then
        (if found then sys_exit "Already found" [] else ret true) w
      else ret found w
    else
      match act x v with
      | Skip => ret found w
      | Rmtree =>
          (print "  - {}" [FPath (dir ++ [x])] >>
           shutil_rmtree (dir ++ [x]) >> ret found) w
      | Remove =>
          (print "  - {}" [FPath (dir ++ [x])] >>
           os_remove (dir ++ [x]) >> ret found) w
      end.

Definition always (v : option node) : bool := true.
Definition is_dir (v : option node) : bool := bool_decide (v = Some Dir).

Definition toolchain_act (compiler_version : option string) (x : string)
    (v : option node) : action :=
  if bool_decide (compiler_version = Some "clang") && bool_decide (x = "llvm")
  then Skip else Rmtree.

Definition stl_act (stl_suffix : string) (x : string) (v : option node) : action :=
  if bool_decide (stl_suffix = "llvm-libc++") && bool_decide (x = "llvm-libc++abi")
  then Skip else Rmtree.

Definition dirs_only_act (x : string) (v : option node) : action :=
  if is_dir v then Rmtree else Skip.

Definition abi_act (x : string) (v : option node) : action := Rmtree.

Definition arch_act (x : string) (v : option node) : action :=
  if is_dir v then Rmtree else Remove.

(** The number of times [keep] is in a listing. *)
Definition occurrences (keep : string) (xs : list string) : nat :=
  length (filter (λ x, x = keep) xs).

(** The entries of a listing other than [keep]. *)
Definition others (keep : string) (xs : list string) : list string :=
  filter (λ x, x ≠ keep) xs.

(** The archive name as the specification describes it: the selections in
    the fixed order of the dimensions, joined by dashes. *)
Definition pruned_name_spec (version toolchain stl_suffix : string)
    (gnu : list string) (api arch platform : string) : string :=
  String.concat "-"
    (["android-ndk"; version; toolchain; stl_suffix] ++ gnu ++
     ["android-" +:+ api; "arch-" +:+ arch; platform]) +:+ ".tar.gz".

(** A pruning loop with its heading and its final check, in the common
    shape. *)
Definition entry_prune (keep : string) (observed : option node → bool)
    (act : string → option node → action) (dir : path)
    (heading not_found : string) (xs : list string) : M unit :=
  print heading [] >>
  let* found := for_each (entry_step keep observed act dir) xs false in
  when (negb found) (sys_exit not_found []).

(** The deletion that [act] asks for can be done on the node [v]. *)
Definition act_ok (act : string → option node → action) (x : string)
    (v : option node) : Prop :=
  match act x v with
  | Skip => True
  | Rmtree => v = Some Dir
  | Remove => ∃ data, v = Some (File data)
  end.

(** The times a loop counts the kept entry: its occurrences in the listing
    when its node is one the loop observes. *)
Definition observations (keep : string) (observed : option node → bool)
    (dir : path) (xs : list string) (w : world) : nat :=
  if observed (w_fs w !! (dir ++ [keep])) then occurrences keep xs else 0%nat.

(** ** The pruning dimensions *)

(** The six loops of the script: the five dimensions and the ABI sub-prune
    that follows the compiler version. *)
Inductive dimension :=
| Toolchains (compiler_version : option string)
| Stl
| Versions
| Abi
| Api
| Arch.

(** The prune of a dimension over the listing [xs] of [dir]. *)
Definition prune (d : dimension) (dir : path) (keep : string)
    (xs : list string) : M unit :=
  match d with
  | Toolchains cv => prune_toolchains cv dir keep xs
  | Stl => prune_stl dir keep xs
  | Versions => prune_versions dir keep xs
  | Abi => prune_abi dir keep xs
  | Api => prune_api dir keep xs
  | Arch => prune_arch dir keep xs
  end.

(** The entries, other than the kept one, that a dimension leaves alone:
    the driver directory next to a clang toolchain, the ABI support library
    next to libc++, and whatever is not a directory where the loop only
    looks at directories. *)
Definition spared (d : dimension) (keep x : string) (v : option node) : bool :=
  match d with
  | Toolchains cv => bool_decide (cv = Some "clang") && bool_decide (x = "llvm")
  | Stl => bool_decide (keep = "llvm-libc++") && bool_decide (x = "llvm-libc++abi")
  | Versions | Api => negb (is_dir v)
  | Abi | Arch => false
  end.

(** The nodes at which a dimension counts the kept entry. *)
Definition counted (d : dimension) (v : option node) : bool :=
  match d with
  | Api => is_dir v
  | _ => true
  end.

(** The message of the final check of a dimension. *)
Definition not_found (d : dimension) : string :=
  match d with
  | Toolchains _ => "Toolchain not found"
  | Stl => "STL not found"
  | Versions | Abi | Arch => "Not found"
  | Api => "API not found"
  end.

Definition heading (d : dimension) : string :=
  match d with
  | Toolchains _ => "Removing unused toolchains:"
  | Stl => "Removing unused STL:"
  | Versions => "Removing unused compilers versions:"
  | Abi => "Removing unused ABI:"
  | Api => "Removing unused API:"
  | Arch => "Removing unused architectures:"
  end.

Definition dimension_act (d : dimension) (keep : string)
  : string → option node → action :=
  match d with
  | Toolchains cv => toolchain_act cv
  | Stl => stl_act keep
  | Versions | Api => dirs_only_act
  | Abi => abi_act
  | Arch => arch_act
  end.

(** The entries other than the kept one can be deleted the way the loop of
    the dimension deletes: [shutil.rmtree] needs a directory, the
    architecture loop takes whatever exists, and the loops that test
    [os.path.isdir] first ask for nothing. *)
Definition deletions_fit (d : dimension) (dir : path) (keep : string)
    (xs : list string) (fs : gmap path node) : Prop :=
  match d with
  | Versions | Api => True
  | Toolchains _ | Stl | Abi =>
      NoDup (others keep xs) ∧
      ∀ x, x ∈ xs → x ≠ keep →
        spared d keep x (fs !! (dir ++ [x])) = true ∨ fs !! (dir ++ [x]) = Some Dir
  | Arch =>
      NoDup (others keep xs) ∧
      ∀ x, x ∈ xs → x ≠ keep → is_Some (fs !! (dir ++ [x]))
  end.

(** The world in which the loop of a prune starts: the heading is printed. *)
Definition after_heading (heading : string) (w : world) : world :=
  World (w_fs w) (w_cwd w) (w_trace w ++ [Print (Msg heading [])]).

(** A computation that sends no request, whatever its outcome. *)
Definition silent {A} (c : M A) : Prop :=
  ∀ w, requests_of (w_trace (c w).2) = requests_of (w_trace w).

(** ** A small kit to run the script on *)

Module Scenario.

(** The tree that unpacking leaves under the unpack directory. *)
Definition ndk : list (path * node) :=
  let root := ["android-ndk-r16b"] in
  map (λ q, (root ++ q, Dir))
    [ []; ["toolchains"]; ["toolchains"; "llvm"];
      ["toolchains"; "llvm"; "prebuilt"];
      ["toolchains"; "arm-linux-androideabi-4.9"]; ["toolchains"; "x86-4.9"];
      ["sources"]; ["sources"; "cxx-stl"];
      ["sources"; "cxx-stl"; "gnu-libstdc++"];
      ["sources"; "cxx-stl"; "gnu-libstdc++"; "4.8"];
      ["sources"; "cxx-stl"; "gnu-libstdc++"; "4.9"];
      ["sources"; "cxx-stl"; "gnu-libstdc++"; "4.9"; "libs"];
      ["sources"; "cxx-stl"; "gnu-libstdc++"; "4.9"; "libs"; "armeabi-v7a"];
      ["sources"; "cxx-stl"; "gnu-libstdc++"; "4.9"; "libs"; "x86"];
      ["sources"; "cxx-stl"; "llvm-libc++"];
      ["sources"; "cxx-stl"; "llvm-libc++abi"];
      ["sources"; "cxx-stl"; "llvm-libc++abi"; "include"];
      ["sources"; "cxx-stl"; "system"];
      ["platforms"]; ["platforms"; "android-9"]; ["platforms"; "android-21"];
      ["platforms"; "android-21"; "arch-arm"];
      ["platforms"; "android-21"; "arch-x86"] ]
  ++ [ (root ++ ["sources"; "cxx-stl"; "gnu-libstdc++"; "Android.mk"],
        File "LOCAL_PATH := $(call my-dir)");
       (root ++ ["platforms"; "android-21"; "arch-arm"; "libc.so"], File "ELF") ].

(** A checksum that every file has, a server that answers, an extraction
    that succeeds and an archiver. *)
Definition sha1 (data : string) : string :=
  "42aa43aae89a50d1c66c3f9fdecd676936da6128".

Definition http (url : string) (n : nat) : response := Body ["PK"; ""; "zip"] false.

Definition tools (t : tool) (cwd : path) (fs : gmap path node)
  : option (gmap path node) :=
  Some (list_to_map (map (λ kv, (cwd ++ kv.1, kv.2)) ndk) ∪ fs).

Definition targz (arcname : string) (tree : gmap path node) : string :=
  "gz:" +:+ arcname.

(** The world at the start: an empty working directory. *)
Definition start : world := World {[ ["w"] := Dir ]} ["w"] [].

(** The world after the download and the extraction. *)
Definition unpacked : world :=
  World
    (list_to_map (map (λ kv, (["w"; "_unpacked"] ++ kv.1, kv.2)) ndk) ∪
     list_to_map
       [ (["w"], Dir); (["w"; "_unpacked"], Dir); (["w"; "_pruned"], Dir);
         (["w"; "_downloads"], Dir);
         (["w"; "_downloads"; "android-ndk-r16b.zip"], File "PKzip") ])
    ["w"] [].

(** The world before the download, when the cache directory is there. *)
Definition fresh : world :=
  World (list_to_map [ (["w"], Dir); (["w"; "_downloads"], Dir) ]) ["w"] [].

Definition zip : path := ["w"; "_downloads"; "android-ndk-r16b.zip"].

Definition zip_url : string :=
  "https://dl.google.com/android/repository/android-ndk-r16b-linux-x86_64.zip".

Definition root : path := ["w"; "_unpacked"; "android-ndk-r16b"].
Definition toolchains_dir : path := root ++ ["toolchains"].
Definition stl_dir : path := root ++ ["sources"; "cxx-stl"].
Definition gnu_dir : path := stl_dir ++ ["gnu-libstdc++"].
Definition platforms_dir : path := root ++ ["platforms"].
Definition api_dir : path := platforms_dir ++ ["android-21"].

(** A clang build against libc++ and a GCC build against the GNU library. *)
Definition clang_args : args :=
  Args "arm-linux-androideabi-clang" "c++_static" (Some "clang") None "21" "arm"
    (Some "r16b").

Definition gcc_args : args :=
  Args "arm-linux-androideabi-4.9" "gnustl_static" (Some "4.9")
    (Some "armeabi-v7a") "21" "arm" (Some "r16b").

(** A clang build for a toolchain that the kit does not have. *)
Definition mips_args : args :=
  Args "mips-clang" "c++_static" (Some "clang") None "21" "arm" (Some "r16b").

(** A kit in which the API level is a plain file and a plain file lies
    among the toolchains. *)
Definition odd : world :=
  World
    (list_to_map
       [ (["ndk"], Dir); (["ndk"; "platforms"], Dir);
         (["ndk"; "platforms"; "android-21"], File "");
         (["ndk"; "toolchains"], Dir);
         (["ndk"; "toolchains"; "x86-4.9"], Dir);
         (["ndk"; "toolchains"; "NOTICE"], File "notice") ])
    ["w"] [].

End Scenario.

(** ** Vocabulary for further properties *)

(** The extractions run and the pauses made, as a trace records them. *)
Definition tools_of (t : list event) : list tool :=
  omap (λ e, match e with Ran t => Some t | _ => None end) t.

Definition sleeps_of (t : list event) : list nat :=
  omap (λ e, match e with Sleep n => Some n | _ => None end) t.

(** The bytes of a body received in chunks. *)
Definition joined (chunks : list string) : string := foldr String.append "" chunks.

(** A computation that only adds events of one kind to the trace. *)
Definition emits {A} (P : event → Prop) (c : M A) : Prop :=
  ∀ w, ∃ t, w_trace (c w).2 = w_trace w ++ t ∧ Forall P t.

Definition is_print (e : event) : Prop :=
  match e with Print _ => True | _ => False end.

Definition no_tool (e : event) : Prop :=
  match e with Ran _ | Chmod _ => False | _ => True end.

(** A computation that leaves alone every path that is not in [P]. *)
Definition keeps_outside {A} (P : path → Prop) (c : M A) : Prop :=
  ∀ w q, ¬ P q → w_fs (c w).2 !! q = w_fs w !! q.

(** A file-system map is a tree: whatever has an entry lies in a directory. *)
Definition tree (fs : gmap path node) : Prop :=
  ∀ q x, is_Some (fs !! (q ++ [x])) → fs !! q = Some Dir.

(** A world whose file system has its root directory. *)
Definition rooted (w : world) : world :=
  World (<[ [] := Dir ]> (w_fs w)) (w_cwd w) (w_trace w).

(** * Properties *)

(** ** Paths and the file-system map *)

Lemma strip_app (p r : path) : FS.strip p (p ++ r) = Some r.
Proof. induction p as [|a p IH]; simpl; [done|]. by rewrite decide_True. Qed.

Lemma strip_Some (p q r : path) : FS.strip p q = Some r → q = p ++ r.
Proof.
  revert q. induction p as [|a p IH]; intros [|b q]; simpl; try congruence.
  case_decide as Hab; [|done]. intros Hs. apply IH in Hs. by subst.
Qed.

Lemma child_Some (p q : path) (x : string) : FS.child p q = Some x ↔ q = p ++ [x].
Proof.
  unfold FS.child. split.
  - destruct (FS.strip p q) as [[|y [|]]|] eqn:E; try done.
    intros [= ->]. by apply strip_Some.
  - intros ->. by rewrite strip_app.
Qed.

Lemma elem_of_names (fs : gmap path node) (p : path) (x : string) :
  x ∈ FS.names fs p ↔ is_Some (fs !! (p ++ [x])).
Proof.
  unfold FS.names. rewrite list_elem_of_omap. split.
  - intros [[q v] [Hin Hc]]. apply child_Some in Hc. simpl in Hc. subst q.
    apply elem_of_map_to_list in Hin. eauto.
  - intros [v Hv]. exists (p ++ [x], v). split.
    + by apply elem_of_map_to_list.
    + by apply child_Some.
Qed.

Lemma lookup_without (fs : gmap path node) (p q : path) :
  FS.without fs p !! q = if decide (p `prefix_of` q) then None else fs !! q.
Proof.
  unfold FS.without. case_decide as Hp.
  - apply map_lookup_filter_None. right. intros v _ Hn. by apply Hn.
  - destruct (fs !! q) as [v|] eqn:E.
    + apply map_lookup_filter_Some. done.
    + apply map_lookup_filter_None. by left.
Qed.

Lemma prefix_snoc_inv (dir q : path) (x y : string) :
  dir ++ [x] `prefix_of` q → dir ++ [y] `prefix_of` q → x = y.
Proof.
  intros [r1 ->] [r2 H]. rewrite <- !app_assoc in H.
  apply app_inv_head in H. simpl in H. congruence.
Qed.

(** ** The loop bodies have the common shape *)

Ltac run :=
  unfold entry_step, when, print, emit, shutil_rmtree, os_remove, os_path_isdir,
    os_path_exists, os_listdir, get_fs, put_fs, sys_exit, raise, ret, bind,
    always, is_dir;
  simpl.

Lemma toolchain_step_shape cv dir keep x found w :
  toolchain_step cv dir keep x found w =
  entry_step keep always (toolchain_act cv) dir x found w.
Proof.
  unfold toolchain_step, toolchain_act. run.
  repeat (case_bool_decide; simpl); subst; try done;
    destruct (w_fs w !! _) as [[]|]; simpl; try done; by destruct found.
Qed.

Lemma stl_step_shape dir keep x found w :
  stl_step dir keep x found w = entry_step keep always (stl_act keep) dir x found w.
Proof.
  unfold stl_step, stl_act. run.
  repeat (case_bool_decide; simpl); subst; try done;
    destruct (w_fs w !! _) as [[]|]; simpl; try done; by destruct found.
Qed.

Lemma version_step_shape dir keep x found w :
  version_step dir keep x found w = entry_step keep always dirs_only_act dir x found w.
Proof.
  unfold version_step, dirs_only_act. run.
  repeat (case_bool_decide; simpl); subst; try done;
    destruct (w_fs w !! _) as [[]|]; simpl; try done; by destruct found.
Qed.

Lemma abi_step_shape dir keep x found w :
  abi_step dir keep x found w = entry_step keep always abi_act dir x found w.
Proof.
  unfold abi_step, abi_act. run.
  repeat (case_bool_decide; simpl); subst; try done;
    destruct (w_fs w !! _) as [[]|]; simpl; try done; by destruct found.
Qed.

Lemma api_step_shape dir keep x found w :
  api_step dir keep x found w = entry_step keep is_dir dirs_only_act dir x found w.
Proof.
  unfold api_step, dirs_only_act. run.
  repeat (case_bool_decide; simpl); subst; try done;
    destruct (w_fs w !! _) as [[]|]; simpl; try done; by destruct found.
Qed.

Lemma arch_step_shape dir keep x found w :
  arch_step dir keep x found w = entry_step keep always arch_act dir x found w.
Proof.
  unfold arch_step, arch_act. run.
  repeat (case_bool_decide; simpl); subst; try done;
    destruct (w_fs w !! _) as [[]|]; simpl; try done; by destruct found.
Qed.

Lemma for_each_ext {A S} (f g : A → S → M S) (xs : list A) (s : S) (w : world) :
  (∀ x s w, f x s w = g x s w) → for_each f xs s w = for_each g xs s w.
Proof.
  intros Hfg. revert s w. induction xs as [|x xs IH]; intros s w; simpl; [done|].
  unfold bind. rewrite Hfg. destruct (g x s w) as [[s'| |] w']; auto.
Qed.

Lemma prune_toolchains_shape cv dir keep xs w :
  prune_toolchains cv dir keep xs w =
  entry_prune keep always (toolchain_act cv) dir
    "Removing unused toolchains:" "Toolchain not found" xs w.
Proof.
  unfold prune_toolchains, entry_prune, bind. simpl.
  by rewrite (for_each_ext _ _ _ _ _ (toolchain_step_shape cv dir keep)).
Qed.

Lemma prune_stl_shape dir keep xs w :
  prune_stl dir keep xs w =
  entry_prune keep always (stl_act keep) dir
    "Removing unused STL:" "STL not found" xs w.
Proof.
  unfold prune_stl, entry_prune, bind. simpl.
  by rewrite (for_each_ext _ _ _ _ _ (stl_step_shape dir keep)).
Qed.

Lemma prune_versions_shape dir keep xs w :
  prune_versions dir keep xs w =
  entry_prune keep always dirs_only_act dir
    "Removing unused compilers versions:" "Not found" xs w.
Proof.
  unfold prune_versions, entry_prune, bind. simpl.
  by rewrite (for_each_ext _ _ _ _ _ (version_step_shape dir keep)).
Qed.

Lemma prune_abi_shape dir keep xs w :
  prune_abi dir keep xs w =
  entry_prune keep always abi_act dir "Removing unused ABI:" "Not found" xs w.
Proof.
  unfold prune_abi, entry_prune, bind. simpl.
  by rewrite (for_each_ext _ _ _ _ _ (abi_step_shape dir keep)).
Qed.

Lemma prune_api_shape dir keep xs w :
  prune_api dir keep xs w =
  entry_prune keep is_dir dirs_only_act dir
    "Removing unused API:" "API not found" xs w.
Proof.
  unfold prune_api, entry_prune, bind. simpl.
  by rewrite (for_each_ext _ _ _ _ _ (api_step_shape dir keep)).
Qed.

Lemma prune_arch_shape dir keep xs w :
  prune_arch dir keep xs w =
  entry_prune keep always arch_act dir
    "Removing unused architectures:" "Not found" xs w.
Proof.
  unfold prune_arch, entry_prune, bind. simpl.
  by rewrite (for_each_ext _ _ _ _ _ (arch_step_shape dir keep)).
Qed.

(** ** One step of a loop *)

Section Loop.

Variable keep : string.
Variable observed : option node → bool.
Variable act : string → option node → action.
Variable dir : path.

Local Abbreviation step := (entry_step keep observed act dir).

(** What a step can do: leave the file system alone, or delete the entry
    after printing it. *)
Lemma step_cases x found w :
  (w_fs (step x found w).2 = w_fs w ∧
   ((x = keep ∧ observed (w_fs w !! (dir ++ [x])) = true ∧ found = true ∧
       (step x found w).1 = Exit (Msg "Already found" [])) ∨
    (x = keep ∧ observed (w_fs w !! (dir ++ [x])) = true ∧ found = false ∧
       (step x found w).1 = Ret true) ∨
    (x = keep ∧ observed (w_fs w !! (dir ++ [x])) = false ∧
       (step x found w).1 = Ret found) ∨
    (x ≠ keep ∧ act x (w_fs w !! (dir ++ [x])) = Skip ∧
       (step x found w).1 = Ret found) ∨
    (x ≠ keep ∧ ¬ act_ok act x (w_fs w !! (dir ++ [x])) ∧
       ∃ e, (step x found w).1 = Raise e))) ∨
  (x ≠ keep ∧ act_ok act x (w_fs w !! (dir ++ [x])) ∧
   act x (w_fs w !! (dir ++ [x])) ≠ Skip ∧ (step x found w).1 = Ret found ∧
   w_fs (step x found w).2 !! (dir ++ [x]) = None ∧
   ∀ q, w_fs (step x found w).2 !! q = w_fs w !! q ∨
        (w_fs (step x found w).2 !! q = None ∧ dir ++ [x] `prefix_of` q)).
Proof.
  unfold act_ok. run. case_bool_decide as Hx.
  - left. split; [by repeat case_match|].
    destruct (observed _) eqn:Ho; [destruct found|]; simpl; eauto 10.
  - destruct (act x _) eqn:Ha; simpl.
    + left. eauto 10.
    + destruct (w_fs w !! (dir ++ [x])) as [[d|]|] eqn:Hv; simpl.
      * left. split; [done|]. do 4 right. split_and!; [done|congruence|eauto].
      * right. split_and!; try done.
        -- rewrite lookup_without. by rewrite decide_True.
        -- intros q. rewrite lookup_without. case_decide; auto.
      * left. split; [done|]. do 4 right. split_and!; [done|congruence|eauto].
    + destruct (w_fs w !! (dir ++ [x])) as [[d|]|] eqn:Hv; simpl.
      * right. split_and!; eauto.
        -- apply lookup_delete_eq.
        -- intros q. destruct (decide (q = dir ++ [x])) as [->|Hq].
           ++ right. split; [apply lookup_delete_eq|done].
           ++ left. by rewrite lookup_delete_ne.
      * left. split; [done|]. do 4 right. split_and!; [done| |eauto].
        intros [? ?]; congruence.
      * left. split; [done|]. do 4 right. split_and!; [done| |eauto].
        intros [? ?]; congruence.
Qed.

(** ** A whole loop *)

Local Abbreviation loop := (for_each (entry_step keep observed act dir)).
Local Abbreviation observations := (observations keep observed dir).

Lemma loop_cons x xs found w :
  loop (x :: xs) found w =
  match step x found w with
  | (Ret s, w1) => loop xs s w1
  | (Exit m, w1) => (Exit m, w1)
  | (Raise e, w1) => (Raise e, w1)
  end.
Proof. reflexivity. Qed.

Lemma act_ok_None x : act x None ≠ Skip → ¬ act_ok act x None.
Proof.
  unfold act_ok. destruct (act x None); [done| |]; intros _ H; [done|].
  by destruct H.
Qed.

(** Whatever the outcome, a path keeps its node or loses it, and it loses it
    only below an entry that the loop deleted. *)
Lemma loop_lookup xs found w o w' q :
  loop xs found w = (o, w') →
  w_fs w' !! q = w_fs w !! q ∨
  (w_fs w' !! q = None ∧
   ∃ x, x ∈ xs ∧ x ≠ keep ∧ dir ++ [x] `prefix_of` q ∧
        act x (w_fs w !! (dir ++ [x])) ≠ Skip ∧
        act_ok act x (w_fs w !! (dir ++ [x]))).
Proof.
  revert found w. induction xs as [|x xs IH]; intros found w Hrun.
  { injection Hrun as <- <-. by left. }
  rewrite loop_cons in Hrun.
  destruct (step_cases x found w) as [[Hfs Hc]|(Hx & Hok & Hact & Ho & Hgone & Heff)].
  - destruct (step x found w) as [[s| |] w1] eqn:Hs; simpl in *.
    + apply IH in Hrun. rewrite Hfs in Hrun.
      destruct Hrun as [?|(? & y & ? & ?)]; [by left|right].
      split; [done|]. exists y. split; [by right|done].
    + injection Hrun as <- <-. left. by rewrite Hfs.
    + injection Hrun as <- <-. left. by rewrite Hfs.
  - destruct (step x found w) as [[s| |] w1] eqn:Hs; simpl in *; try done.
    apply IH in Hrun.
    destruct Hrun as [Heq|(Hn & y & Hy & Hyk & Hp & Hya & Hyok)].
    + destruct (Heff q) as [?|[? ?]]; [left; congruence|right].
      split; [congruence|]. exists x. split; [by left|done].
    + right. split; [done|]. exists y. split; [by right|].
      destruct (Heff (dir ++ [y])) as [Hsame|[Hnone _]].
      * by rewrite <- Hsame.
      * rewrite Hnone in Hya, Hyok. by apply act_ok_None in Hya.
Qed.

(** After a loop that ran to its end, an entry of the listing other than the
    kept one is gone, unless the loop skips it. *)
Lemma loop_removed xs found w found' w' x :
  loop xs found w = (Ret found', w') → x ∈ xs → x ≠ keep →
  w_fs w' !! (dir ++ [x]) = None ∨ act x (w_fs w' !! (dir ++ [x])) = Skip.
Proof.
  revert found w. induction xs as [|y xs IH]; intros found w Hrun Hin Hx.
  { by apply elem_of_nil in Hin. }
  rewrite loop_cons in Hrun.
  destruct (step y found w) as [[s| |] w1] eqn:Hs; try done.
  destruct (decide (x ∈ xs)) as [Hxs|Hxs]; [by eapply IH|].
  apply elem_of_cons in Hin as [->|?]; [|done].
  assert (w_fs w1 !! (dir ++ [y]) = None ∨ act y (w_fs w1 !! (dir ++ [y])) = Skip)
    as Hnow.
  { destruct (step_cases y found w) as [[Hfs Hc]|(_ & _ & _ & _ & Hgone & _)];
      rewrite Hs in *; simpl in *; [|by left].
    right. rewrite Hfs.
    destruct Hc as [(?&_)|[(?&_)|[(?&_)|[(_&?&_)|(_&_&e&?)]]]]; done. }
  destruct (loop_lookup _ _ _ _ _ (dir ++ [y]) Hrun) as [->|[-> _]]; auto.
Qed.

(** The node of the kept entry is never changed. *)
Lemma loop_keep_node xs found w o w' :
  loop xs found w = (o, w') → w_fs w' !! (dir ++ [keep]) = w_fs w !! (dir ++ [keep]).
Proof.
  intros Hrun.
  destruct (loop_lookup _ _ _ _ _ (dir ++ [keep]) Hrun)
    as [?|(_ & x & _ & Hx & Hp & _)]; [done|].
  destruct Hp as [r Hp]. rewrite <- app_assoc in Hp.
  apply app_inv_head in Hp. simpl in Hp. congruence.
Qed.

Lemma occurrences_cons_eq xs : occurrences keep (keep :: xs) = S (occurrences keep xs).
Proof. unfold occurrences. by rewrite filter_cons_True. Qed.

Lemma occurrences_cons_ne x xs :
  x ≠ keep → occurrences keep (x :: xs) = occurrences keep xs.
Proof. intros. unfold occurrences. by rewrite filter_cons_False. Qed.

(** How a loop ends, by the number of observations. *)
Lemma loop_count xs found w o w' :
  loop xs found w = (o, w') →
  let n := (observations xs w + (if found then 1 else 0))%nat in
  match o with
  | Ret found' => (n = 0%nat ∧ found' = false) ∨ (n = 1%nat ∧ found' = true)
  | Exit m => m = Msg "Already found" [] ∧ (2 ≤ n)%nat
  | Raise _ => True
  end.
Proof.
  revert found w. induction xs as [|x xs IH]; intros found w Hrun; simpl.
  { injection Hrun as <- <-. unfold observations, occurrences. simpl.
    destruct found, (observed _); simpl; auto. }
  rewrite loop_cons in Hrun.
  assert (∀ s w1, step x found w = (Ret s, w1) →
            observations xs w1 = observations xs w) as Hobs.
  { intros s w1 Hs. unfold observations.
    assert (loop [x] found w = (Ret s, w1)) as H1.
    { rewrite loop_cons, Hs. done. }
    by rewrite (loop_keep_node _ _ _ _ _ H1). }
  pose proof (step_cases x found w) as Hc.
  destruct (step x found w) as [[s| |] w1] eqn:Hs; simpl in Hc.
  - specialize (Hobs _ _ eq_refl). apply IH in Hrun. simpl in Hrun.
    rewrite Hobs in Hrun. unfold observations in *.
    destruct Hc as [[Hfs [(? & ? & ? & ?)|[(Hx & Hob & Hf & Ho)|[(Hx & Hob & Ho)|
      [(Hx & _ & Ho)|(_ & _ & e & ?)]]]]]|(Hx & _ & _ & Ho & _)]; try done;
      injection Ho as ->.
    + subst x found. rewrite Hob in *. rewrite occurrences_cons_eq.
      destruct o; [|destruct Hrun; split; [done|lia]|done].
      destruct Hrun as [[? ?]|[? ?]]; [lia|right; split; [lia|done]].
    + subst x. by rewrite Hob in *.
    + by rewrite occurrences_cons_ne.
    + by rewrite occurrences_cons_ne.
  - injection Hrun as <- <-.
    destruct Hc as [[Hfs [(Hx & Hob & Hf & Ho)|[(? & ? & ? & ?)|[(? & ? & ?)|
      [(? & _ & ?)|(_ & _ & e & ?)]]]]]|(Hx & _ & _ & ? & _)]; try done.
    injection Ho as ->. split; [done|]. subst x found.
    unfold observations. rewrite Hob, occurrences_cons_eq. lia.
  - by injection Hrun as <- <-.
Qed.

(** No deletion fails when the other entries are distinct and each of them
    can be deleted as the loop asks. *)
Lemma loop_no_raise xs found w o w' :
  NoDup (others keep xs) →
  (∀ x, x ∈ xs → x ≠ keep → act_ok act x (w_fs w !! (dir ++ [x]))) →
  loop xs found w = (o, w') → ∀ e, o ≠ Raise e.
Proof.
  revert found w. induction xs as [|x xs IH]; intros found w Hnd Hok Hrun e.
  { by injection Hrun as <- <-. }
  rewrite loop_cons in Hrun.
  assert (NoDup (others keep xs)) as Hnd'.
  { unfold others in *. destruct (decide (x = keep)).
    - by rewrite filter_cons_False in Hnd by tauto.
    - rewrite filter_cons_True in Hnd by done. by apply NoDup_cons in Hnd as [_ ?]. }
  assert (x ≠ keep → act_ok act x (w_fs w !! (dir ++ [x]))) as Hokx.
  { apply Hok. by left. }
  pose proof (step_cases x found w) as Hc.
  destruct (step x found w) as [[s| |] w1] eqn:Hs; simpl in Hc.
  - eapply IH; [done| |exact Hrun]. intros y Hy Hyk.
    destruct Hc as [[Hfs _]|(Hx & _ & _ & _ & _ & Heff)].
    { rewrite Hfs. apply Hok; [by right|done]. }
    assert (x ≠ y) as Hxy.
    { intros ->. unfold others in Hnd. rewrite filter_cons_True in Hnd by done.
      apply NoDup_cons in Hnd as [Hnin _]. apply Hnin.
      by apply list_elem_of_filter. }
    destruct (Heff (dir ++ [y])) as [->|[_ Hp]]; [apply Hok; [by right|done]|].
    destruct Hp as [r Hp]. rewrite <- app_assoc in Hp.
    apply app_inv_head in Hp. simpl in Hp. congruence.
  - by injection Hrun as <- <-.
  - exfalso.
    destruct Hc as [[Hfs [(? & ? & ? & ?)|[(? & ? & ? & ?)|[(? & ? & ?)|
      [(? & _ & ?)|(? & Hbad & _)]]]]]|(Hx & _ & _ & ? & _)]; try done.
    by apply Hbad, Hokx.
Qed.

(** No deletion fails either when every deletion the loop asks for fits the
    node it is asked on. *)
Lemma loop_no_raise_fit xs found w o w' :
  (∀ x v, act_ok act x v) →
  loop xs found w = (o, w') → ∀ e, o ≠ Raise e.
Proof.
  intros Hfit. revert found w. induction xs as [|x xs IH]; intros found w Hrun e.
  { by injection Hrun as <- <-. }
  rewrite loop_cons in Hrun.
  pose proof (step_cases x found w) as Hc.
  destruct (step x found w) as [[s| |] w1] eqn:Hs; simpl in Hc.
  - by eapply IH.
  - by injection Hrun as <- <-.
  - exfalso.
    destruct Hc as [[Hfs [(? & ? & ? & ?)|[(? & ? & ? & ?)|[(? & ? & ?)|
      [(? & _ & ?)|(? & Hbad & _)]]]]]|(Hx & _ & _ & ? & _)]; try done.
    by apply Hbad, Hfit.
Qed.

End Loop.

(** ** A dimension is a loop of the common shape *)

Lemma prune_shape d dir keep xs w :
  prune d dir keep xs w =
  entry_prune keep (counted d) (dimension_act d keep) dir (heading d) (not_found d) xs w.
Proof.
  destruct d; simpl.
  - apply prune_toolchains_shape.
  - apply prune_stl_shape.
  - apply prune_versions_shape.
  - apply prune_abi_shape.
  - apply prune_api_shape.
  - apply prune_arch_shape.
Qed.

Lemma spared_act d keep x v : spared d keep x v = true ↔ dimension_act d keep x v = Skip.
Proof.
  destruct d; simpl;
    unfold toolchain_act, stl_act, dirs_only_act, abi_act, arch_act;
    repeat (case_bool_decide; simpl); try destruct (is_dir v); simpl;
    split; congruence.
Qed.

Lemma entry_prune_inv keep observed act dir heading not_found xs w o w' :
  entry_prune keep observed act dir heading not_found xs w = (o, w') →
  ∃ o1, for_each (entry_step keep observed act dir) xs false (after_heading heading w)
        = (o1, w') ∧
        o = match o1 with
            | Ret true => Ret tt
            | Ret false => Exit (Msg not_found [])
            | Exit m => Exit m
            | Raise e => Raise e
            end.
Proof.
  unfold entry_prune, bind, print, emit, after_heading. simpl.
  destruct (for_each _ xs false _) as [[[|]| |] w1] eqn:Hl; simpl;
    intros [= <- <-]; eauto.
Qed.

Lemma prune_lookup d dir keep xs w o w' q :
  prune d dir keep xs w = (o, w') →
  w_fs w' !! q = w_fs w !! q ∨
  (w_fs w' !! q = None ∧
   ∃ x, x ∈ xs ∧ x ≠ keep ∧ dir ++ [x] `prefix_of` q ∧
        spared d keep x (w_fs w !! (dir ++ [x])) = false).
Proof.
  rewrite prune_shape. intros (o1 & Hl & _)%entry_prune_inv.
  destruct (loop_lookup _ _ _ _ _ _ _ _ _ q Hl) as [?|(Hn & x & ? & ? & ? & Ha & _)];
    [by left|right].
  split; [done|]. exists x. split_and!; try done.
  simpl in Ha. destruct (spared _ _ _ _) eqn:Hs; [|done].
  by apply spared_act in Hs.
Qed.

Lemma prune_removed d dir keep xs w w' x :
  prune d dir keep xs w = (Ret tt, w') → x ∈ xs → x ≠ keep →
  w_fs w' !! (dir ++ [x]) = None ∨ spared d keep x (w_fs w' !! (dir ++ [x])) = true.
Proof.
  rewrite prune_shape. intros (o1 & Hl & Ho)%entry_prune_inv Hx Hk.
  destruct o1 as [[|]| |]; try done.
  destruct (loop_removed _ _ _ _ _ _ _ _ _ x Hl Hx Hk) as [?|Hs]; [by left|right].
  by apply spared_act.
Qed.

Lemma prune_count d dir keep xs w o w' :
  prune d dir keep xs w = (o, w') →
  match o with
  | Ret _ => observations keep (counted d) dir xs w = 1%nat
  | Exit m =>
      (m = Msg (not_found d) [] ∧ observations keep (counted d) dir xs w = 0%nat) ∨
      (m = Msg "Already found" [] ∧ (2 ≤ observations keep (counted d) dir xs w)%nat)
  | Raise _ => True
  end.
Proof.
  rewrite prune_shape. intros (o1 & Hl & ->)%entry_prune_inv.
  apply loop_count in Hl. simpl in Hl.
  change (observations keep (counted d) dir xs (after_heading (heading d) w))
    with (observations keep (counted d) dir xs w) in Hl.
  rewrite Nat.add_0_r in Hl.
  destruct o1 as [[|]|m|e]; [| | |done].
  - by destruct Hl as [[? ?]|[? ?]].
  - left. by destruct Hl as [[? ?]|[? ?]].
  - right. done.
Qed.

Lemma deletions_fit_no_raise d dir keep xs w o w' :
  deletions_fit d dir keep xs (w_fs w) →
  prune d dir keep xs w = (o, w') → ∀ e, o ≠ Raise e.
Proof.
  intros Hfit. rewrite prune_shape. intros (o1 & Hl & ->)%entry_prune_inv e.
  assert (∀ e, o1 ≠ Raise e) as Hno;
    [|destruct o1 as [[|]| |e0]; try done; by destruct (Hno e0)].
  assert (∀ x v, act_ok dirs_only_act x v) as Hdirs.
  { intros x v. unfold act_ok, dirs_only_act, is_dir. by case_bool_decide. }
  destruct d; simpl in Hfit, Hl;
    try (by eapply loop_no_raise_fit; [exact Hdirs|exact Hl]);
    destruct Hfit as [Hnd Hok];
    (eapply loop_no_raise; [exact Hnd| |exact Hl]);
    intros x Hx Hk; specialize (Hok x Hx Hk); simpl; unfold act_ok.
  - unfold toolchain_act. destruct Hok as [->|?]; [done|]. by destruct (_ && _).
  - unfold stl_act. destruct Hok as [->|?]; [done|]. by destruct (_ && _).
  - unfold abi_act. by destruct Hok.
  - unfold arch_act, is_dir. case_bool_decide; [done|].
    destruct Hok as [[data|] Hv]; rewrite Hv in *; [eauto|done].
Qed.

Lemma occurrences_elem keep xs : (0 < occurrences keep xs)%nat ↔ keep ∈ xs.
Proof.
  unfold occurrences. split.
  - destruct (filter _ xs) as [|y l] eqn:Hf; simpl; [lia|]. intros _.
    assert (y ∈ filter (λ x, x = keep) xs) as Hy by (rewrite Hf; by left).
    apply list_elem_of_filter in Hy as [-> ?]. done.
  - intros Hin. assert (keep ∈ filter (λ x, x = keep) xs) as Hy.
    { by apply list_elem_of_filter. }
    destruct (filter _ xs); [by apply elem_of_nil in Hy|simpl; lia].
Qed.

(** ** Claims about the pruning loops *)

(** C1 (as amended).  For each of the six loops, when the prune over the
    listing of the parent succeeds, the parent lists exactly the kept entry
    and the entries that the loop spares: the driver directory [llvm] next to
    a clang toolchain, [llvm-libc++abi] next to [llvm-libc++], and, in the
    compiler-version and API-level loops, the siblings that are not
    directories.  In the ABI and architecture loops nothing is spared. *)
Theorem prune_leaves_kept_and_spared (d : dimension) (dir : path) (keep : string)
    (xs : list string) (w w' : world) :
  (∀ x, x ∈ xs ↔ x ∈ FS.names (w_fs w) dir) →
  prune d dir keep xs w = (Ret tt, w') →
  ∀ x, x ∈ FS.names (w_fs w') dir ↔
       x = keep ∨ (x ∈ xs ∧ spared d keep x (w_fs w !! (dir ++ [x])) = true).
Proof.
  intros Hxs Hrun x. rewrite elem_of_names.
  pose proof (prune_lookup _ _ _ _ _ _ _ (dir ++ [x]) Hrun) as Hl.
  split.
  - intros Hsome. destruct Hl as [Heq|[Hn _]]; [|rewrite Hn in Hsome; by destruct Hsome].
    destruct (decide (x = keep)) as [?|Hk]; [by left|right].
    assert (x ∈ xs) as Hx. { apply Hxs, elem_of_names. by rewrite <- Heq. }
    split; [done|].
    destruct (prune_removed _ _ _ _ _ _ _ Hrun Hx Hk) as [Hn|Hs].
    + rewrite Hn in Hsome. by destruct Hsome.
    + by rewrite <- Heq.
  - intros Hx.
    assert (is_Some (w_fs w !! (dir ++ [x]))) as Hsome.
    { apply elem_of_names, Hxs. destruct Hx as [->|[? _]]; [|done].
      apply occurrences_elem. apply prune_count in Hrun.
      unfold observations in Hrun. destruct (counted d _); lia. }
    destruct Hl as [->|(_ & y & _ & Hyk & Hp & Hsp)]; [done|].
    assert (y = x) as ->.
    { destruct Hp as [r Hp]. rewrite <- app_assoc in Hp.
      apply app_inv_head in Hp. simpl in Hp. congruence. }
    destruct Hx as [?|[_ ?]]; congruence.
Qed.

(** C2 (as amended).  When the deletions that a loop asks for can be done
    (the other entries are distinct and are directories where the loop calls
    [shutil.rmtree] without a test), the prune ends by the number of times it
    counts the kept entry: the exit of the final check for none, success for
    one, the exit ['Already found'] for more.  Every loop counts the
    occurrences of the kept entry in the listing, except the API-level loop,
    which counts them only when the kept entry is a directory. *)
Theorem prune_outcome (d : dimension) (dir : path) (keep : string)
    (xs : list string) (w : world) :
  deletions_fit d dir keep xs (w_fs w) →
  (prune d dir keep xs w).1 =
  match
    (if counted d (w_fs w !! (dir ++ [keep])) then occurrences keep xs else 0%nat)
  with
  | O => Exit (Msg (not_found d) [])
  | S O => Ret tt
  | S (S _) => Exit (Msg "Already found" [])
  end.
Proof.
  intros Hfit.
  destruct (prune d dir keep xs w) as [o w'] eqn:Hrun. simpl.
  pose proof (deletions_fit_no_raise _ _ _ _ _ _ _ Hfit Hrun) as Hno.
  apply prune_count in Hrun. unfold observations in Hrun.
  destruct o as [[]|m|e]; [| |by destruct (Hno e)].
  - by rewrite Hrun.
  - destruct Hrun as [[-> ->]|[-> Hn]]; [done|].
    destruct (if counted d _ then _ else _) as [|[|n]]; [lia|lia|done].
Qed.

(** C5.  The exempt entries are never deleted: whatever the outcome of the
    toolchain prune under [--compiler-version clang], everything at and below
    [llvm] is as before, and whatever the outcome of the prune of the
    standard libraries for [llvm-libc++], so is everything at and below
    [llvm-libc++abi]. *)
Theorem exempt_entries_survive (dir : path) (keep : string) (xs : list string)
    (w : world) (q : path) :
  (dir ++ ["llvm"] `prefix_of` q →
   w_fs (prune_toolchains (Some "clang") dir keep xs w).2 !! q = w_fs w !! q) ∧
  (dir ++ ["llvm-libc++abi"] `prefix_of` q →
   w_fs (prune_stl dir "llvm-libc++" xs w).2 !! q = w_fs w !! q).
Proof.
  split; intros Hq.
  - destruct (prune_toolchains _ dir keep xs w) as [o w'] eqn:Hrun. simpl.
    destruct (prune_lookup (Toolchains (Some "clang")) _ _ _ _ _ _ q Hrun)
      as [?|(_ & x & _ & _ & Hp & Hs)]; [done|].
    rewrite (prefix_snoc_inv _ _ _ _ Hp Hq) in Hs. done.
  - destruct (prune_stl dir _ xs w) as [o w'] eqn:Hrun. simpl.
    destruct (prune_lookup Stl _ _ _ _ _ _ q Hrun)
      as [?|(_ & x & _ & _ & Hp & Hs)]; [done|].
    rewrite (prefix_snoc_inv _ _ _ _ Hp Hq) in Hs. done.
Qed.

(** ** Selector resolution *)

(** C4.  [stl_suffix_by_name] is a function of its argument alone: on each of
    the ten names of its table it returns the directory name, and on every
    other string it exits with ['Unexpected --stl']. *)
Theorem stl_suffix_by_name_table :
  stl_suffix_by_name "system" = Ret "system" ∧
  stl_suffix_by_name "system_re" = Ret "system" ∧
  stl_suffix_by_name "gabi++_shared" = Ret "gabi++" ∧
  stl_suffix_by_name "gabi++_static" = Ret "gabi++" ∧
  stl_suffix_by_name "stlport_shared" = Ret "stlport" ∧
  stl_suffix_by_name "stlport_static" = Ret "stlport" ∧
  stl_suffix_by_name "gnustl_shared" = Ret "gnu-libstdc++" ∧
  stl_suffix_by_name "gnustl_static" = Ret "gnu-libstdc++" ∧
  stl_suffix_by_name "c++_static" = Ret "llvm-libc++" ∧
  stl_suffix_by_name "c++_shared" = Ret "llvm-libc++" ∧
  (∀ stl_name, stl_name ∈ stl_names → ∃ suffix, stl_suffix_by_name stl_name = Ret suffix) ∧
  (∀ stl_name, stl_name ∉ stl_names →
     stl_suffix_by_name stl_name = Exit (Msg "Unexpected --stl: {}" [FStr stl_name])).
Proof.
  split_and!; try reflexivity.
  - intros stl_name Hin. unfold stl_names in Hin.
    repeat (apply elem_of_cons in Hin as [->|Hin]; [by eexists|]).
    by apply elem_of_nil in Hin.
  - intros stl_name Hout. unfold stl_suffix_by_name.
    repeat (case_bool_decide;
            [exfalso; apply Hout; subst stl_name; unfold stl_names; set_solver|]).
    done.
Qed.

(** ** Sizes for display *)

Lemma round53_small (n : N) : n < 2 ^ 53 → round53 n = n.
Proof.
  intros Hn. unfold round53.
  destruct (N.leb_spec (N.size n) 53) as [?|Hgt]; [done|]. exfalso.
  pose proof (N.size_le n) as Hle. rewrite N.succ_double_spec in Hle.
  assert (2 ^ 54 ≤ 2 ^ N.size n) as Hp by (apply N.pow_le_mono_r; lia).
  change (2 ^ 54) with (2 * 2 ^ 53) in Hp. lia.
Qed.

Lemma two_digits_split (n : N) :
  n < 100 → two_digits n = Py.str_N (n / 10) +:+ Py.str_N (n mod 10) ∧ n / 10 < 10 ∧ n mod 10 < 10.
Proof.
  intros Hn. split; [done|]. split.
  - apply N.Div0.div_lt_upper_bound. lia.
  - apply N.mod_lt. lia.
Qed.

Lemma append_assoc (a b c : string) : (a +:+ b) +:+ c = a +:+ (b +:+ c).
Proof.
  induction a as [|x a IH]; [reflexivity|].
  change (String x ((a +:+ b) +:+ c) = String x (a +:+ b +:+ c)). by f_equal.
Qed.

(** C6.  Sizes are printed in units of 1024: below 1024 in ['B'], below
    1024^2 in ['KB'], below 1024^3 in ['MB'] and from there on in ['GB'];
    the number printed is the size divided by the unit, rounded to
    hundredths, as an integer part, a point and two decimal digits. *)
Theorem printable_size_units (size : N) :
  (size < 1024 →
     (human_readable_size size).2 = "B" ∧
     hundredths (human_readable_size size).1 = 100 * size) ∧
  (1024 ≤ size < 1024 ^ 2 →
     (human_readable_size size).2 = "KB" ∧
     hundredths (human_readable_size size).1 = div_half_even (100 * size) 1024) ∧
  (1024 ^ 2 ≤ size < 1024 ^ 3 →
     (human_readable_size size).2 = "MB" ∧
     hundredths (human_readable_size size).1 = div_half_even (100 * size) (1024 ^ 2)) ∧
  (1024 ^ 3 ≤ size →
     (human_readable_size size).2 = "GB" ∧
     (size < 2 ^ 53 →
      hundredths (human_readable_size size).1 = div_half_even (100 * size) (1024 ^ 3))) ∧
  (∃ whole tenths cents,
     tenths < 10 ∧ cents < 10 ∧
     100 * whole + 10 * tenths + cents = hundredths (human_readable_size size).1 ∧
     printable_size size =
       Py.str_N whole +:+ "." +:+ Py.str_N tenths +:+ Py.str_N cents +:+ " " +:+
       (human_readable_size size).2) ∧
  printable_size 500 = "500.00 B" ∧
  printable_size 2048 = "2.00 KB" ∧
  printable_size 1572864 = "1.50 MB".
Proof.
  assert (1024 ^ 2 = 1048576) as E2 by reflexivity.
  assert (1024 ^ 3 = 1073741824) as E3 by reflexivity.
  assert (2 ^ 53 = 9007199254740992) as E53 by reflexivity.
  split_and!; try reflexivity.
  - intros H. unfold human_readable_size.
    destruct (N.ltb_spec size 1024); [|lia]. simpl. split; [done|].
    rewrite round53_small; [done|lia].
  - intros H. unfold human_readable_size.
    destruct (N.ltb_spec size 1024); [lia|].
    destruct (N.ltb_spec size (1024 * 1024)); [|lia]. split; [done|].
    unfold truediv_pow2, hundredths. simpl fst.
    rewrite round53_small; [done|lia].
  - intros H. unfold human_readable_size.
    destruct (N.ltb_spec size 1024); [lia|].
    destruct (N.ltb_spec size (1024 * 1024)); [lia|].
    destruct (N.ltb_spec size (1024 * (1024 * 1024))); [|lia]. split; [done|].
    unfold truediv_pow2, hundredths. simpl fst.
    rewrite round53_small; [done|lia].
  - intros H. unfold human_readable_size.
    destruct (N.ltb_spec size 1024); [lia|].
    destruct (N.ltb_spec size (1024 * 1024)); [lia|].
    destruct (N.ltb_spec size (1024 * (1024 * 1024))); [lia|]. split; [done|].
    intros Hs. unfold truediv_pow2, hundredths. simpl fst.
    rewrite round53_small; [done|lia].
  - unfold printable_size. destruct (human_readable_size size) as [x suffix].
    simpl. unfold format_2f. set (h := hundredths x).
    exists (h / 100), ((h mod 100) / 10), ((h mod 100) mod 10).
    assert (h mod 100 < 100) as Hm by (apply N.mod_lt; lia).
    destruct (two_digits_split _ Hm) as (-> & ? & ?).
    split_and!; try done.
    + pose proof (N.div_mod h 100). pose proof (N.div_mod (h mod 100) 10). lia.
    + by rewrite !append_assoc.
Qed.

(** ** Computations *)

Lemma bind_Ret_inv {A B} (c : M A) (k : A → M B) (w : world) (b : B) (w' : world) :
  bind c k w = (Ret b, w') → ∃ a w1, c w = (Ret a, w1) ∧ k a w1 = (Ret b, w').
Proof. unfold bind. destruct (c w) as [[a| |] w1]; [eauto|done|done]. Qed.

Ltac bind_inv H :=
  repeat match type of H with
         | bind _ _ _ = (Ret _, _) =>
             let a := fresh "a" in
             let w1 := fresh "w" in
             let Hc := fresh "Hc" in
             apply bind_Ret_inv in H as (a & w1 & Hc & H)
         end.

(** ** The download *)

Section Download.

Variable sha1_hexdigest : string → string.
Variable http_get : string → nat → response.

Lemma hash_match_hit sha1 p w data :
  w_fs w !! p = Some (File data) → sha1_hexdigest data = sha1 →
  hash_match sha1_hexdigest sha1 p w =
  (Ret true,
   World (w_fs w) (w_cwd w)
     (w_trace w ++ [Print (Msg "Calculating hash of {}" [FPath p])])).
Proof.
  intros Hp Hs. unfold hash_match, read_bytes. run.
  rewrite Hp. rewrite bool_decide_true by eauto. simpl.
  rewrite Hp. by rewrite bool_decide_true.
Qed.

Lemma hash_match_true_inv sha1 p w w' :
  hash_match sha1_hexdigest sha1 p w = (Ret true, w') →
  w_fs w' = w_fs w ∧
  ∃ data, w_fs w !! p = Some (File data) ∧ sha1_hexdigest data = sha1.
Proof.
  unfold hash_match, read_bytes. run.
  case_bool_decide as He; simpl; [|done].
  destruct (w_fs w !! p) as [[data|]|] eqn:Hp; simpl; try done.
  case_bool_decide; simpl; [|done]. intros [= <-]. eauto.
Qed.

Lemma download_Ret_inv url sha1 p w w' :
  download sha1_hexdigest http_get url sha1 p w = (Ret tt, w') →
  ∃ data, w_fs w' !! p = Some (File data) ∧ sha1_hexdigest data = sha1.
Proof.
  unfold download. intros H. bind_inv H. destruct a.
  - apply hash_match_true_inv in Hc as (Hfs & data & Hp & Hs).
    revert H. run. intros [= <-]. simpl. rewrite Hfs. eauto.
  - bind_inv H. destruct a0; [|done].
    apply hash_match_true_inv in Hc1 as (Hfs & data & Hp & Hs).
    revert H. run. intros [= <-]. rewrite Hfs. eauto.
Qed.

(** C8.  The download is idempotent.  When the local file exists and its
    SHA-1 is the expected one, [download] returns after two lines of output:
    the file system is as before and no request is sent.  A second call
    after a successful first one is such a call. *)
Theorem download_idempotent (url sha1 : string) (p : path) (w : world) :
  (∀ data, w_fs w !! p = Some (File data) → sha1_hexdigest data = sha1 →
     download sha1_hexdigest http_get url sha1 p w =
     (Ret tt,
      World (w_fs w) (w_cwd w)
        (w_trace w ++
         [Print (Msg "Calculating hash of {}" [FPath p]);
          Print (Msg "File already downloaded: {}" [FPath p])]))) ∧
  (∀ w1, download sha1_hexdigest http_get url sha1 p w = (Ret tt, w1) →
     ∃ w2, download sha1_hexdigest http_get url sha1 p w1 = (Ret tt, w2) ∧
           w_fs w2 = w_fs w1 ∧
           requests_of (w_trace w2) = requests_of (w_trace w1)).
Proof.
  assert (∀ w data, w_fs w !! p = Some (File data) → sha1_hexdigest data = sha1 →
            download sha1_hexdigest http_get url sha1 p w =
            (Ret tt,
             World (w_fs w) (w_cwd w)
               (w_trace w ++
                [Print (Msg "Calculating hash of {}" [FPath p]);
                 Print (Msg "File already downloaded: {}" [FPath p])]))) as Hhit.
  { intros w0 data Hp Hs. unfold download, bind.
    rewrite (hash_match_hit _ _ _ _ Hp Hs). run. by rewrite <- app_assoc. }
  split; [apply Hhit|].
  intros w1 (data & Hp & Hs)%download_Ret_inv.
  eexists. split; [by eapply Hhit|]. simpl. split; [done|].
  unfold requests_of. rewrite omap_app. simpl. by rewrite app_nil_r.
Qed.

End Download.

(** ** The existence checks *)

Lemma not_in_names (fs : gmap path node) (dir : path) (x : string) :
  fs !! (dir ++ [x]) = None → x ∉ FS.names fs dir.
Proof. intros Hn Hin. apply elem_of_names in Hin. rewrite Hn in Hin. by destruct Hin. Qed.

(** C7 (as amended).  When the selected directory does not exist, the checks
    of the toolchain and of the standard library print a warning and go on
    to list the parent, and the run ends at the test of the listing; the
    checks of the compiler version, the ABI, the API level and the
    architecture end the run themselves, before any listing and without a
    warning. *)
Theorem missing_directory_checks (dir : path) (keep : string) (w : world) :
  w_fs w !! (dir ++ [keep]) = None →
  (w_fs w !! dir = Some Dir →
   check_toolchain dir keep w =
   (Exit (Msg "Toolchain `{}` is not in list: {}"
            [FStr keep; FList (FS.names (w_fs w) dir)]),
    World (w_fs w) (w_cwd w)
      (w_trace w ++
       [Print (Msg "Toolchain not exists: {} (set by --toolchain)"
                 [FPath (dir ++ [keep])])]))) ∧
  (w_fs w !! dir = Some Dir →
   check_stl dir keep w =
   (Exit (Msg "STL `{}` is not in list: {}"
            [FStr keep; FList (FS.names (w_fs w) dir)]),
    World (w_fs w) (w_cwd w)
      (w_trace w ++
       [Print (Msg "STL not exists: {} (set by --stl)" [FPath (dir ++ [keep])])]))) ∧
  check_version dir keep w =
    (Exit (Msg "Directory not exists: {} (--compiler-version)"
             [FPath (dir ++ [keep])]), w) ∧
  check_abi dir keep w =
    (Exit (Msg "Directory not exists: {} (--abi-name)" [FPath (dir ++ [keep])]), w) ∧
  check_api dir keep w =
    (Exit (Msg "Directory not found: {} (--api-level)" [FPath (dir ++ [keep])]), w) ∧
  check_arch dir keep w =
    (Exit (Msg "Directory not found: {} (--arch-name)" [FPath (dir ++ [keep])]), w).
Proof.
  intros Hmissing. pose proof (not_in_names _ _ _ Hmissing) as Hnot.
  assert (¬ is_Some (w_fs w !! (dir ++ [keep]))) as Hno.
  { rewrite Hmissing. by intros [? ?]. }
  split_and!.
  - intros Hdir. unfold check_toolchain. run.
    rewrite (bool_decide_false _ Hno). simpl. rewrite Hdir. simpl.
    by rewrite (bool_decide_false _ Hnot).
  - intros Hdir. unfold check_stl. run.
    rewrite (bool_decide_false _ Hno). simpl. rewrite Hdir. simpl.
    by rewrite (bool_decide_false _ Hnot).
  - unfold check_version. run. by rewrite (bool_decide_false _ Hno).
  - unfold check_abi. run. by rewrite (bool_decide_false _ Hno).
  - unfold check_api. run. by rewrite (bool_decide_false _ Hno).
  - unfold check_arch. run. by rewrite (bool_decide_false _ Hno).
Qed.

(** ** Computations that send no request *)

Lemma requests_of_app t1 t2 : requests_of (t1 ++ t2) = requests_of t1 ++ requests_of t2.
Proof. apply omap_app. Qed.

Lemma silent_ret {A} (a : A) : silent (ret a).
Proof. done. Qed.

Lemma silent_bind {A B} (c : M A) (k : A → M B) :
  silent c → (∀ a, silent (k a)) → silent (bind c k).
Proof.
  intros Hc Hk w. unfold bind. specialize (Hc w).
  destruct (c w) as [[a| |] w1]; simpl in *; [|done|done].
  by rewrite Hk.
Qed.

Lemma silent_print template args : silent (print template args).
Proof. intros w. simpl. rewrite requests_of_app. simpl. apply app_nil_r. Qed.

Lemma silent_sys_exit {A} template args : silent (@sys_exit A template args).
Proof. done. Qed.

Lemma silent_lift {A} (o : outcome A) : silent (lift o).
Proof. done. Qed.

Lemma silent_when b c : silent c → silent (when b c).
Proof. by destruct b. Qed.

Lemma silent_os_path_exists p : silent (os_path_exists p).
Proof. done. Qed.

Lemma silent_os_getcwd : silent os_getcwd.
Proof. done. Qed.

Lemma silent_os_mkdir p : silent (os_mkdir p).
Proof. intros w. unfold os_mkdir. run. by repeat case_match. Qed.

Lemma silent_shutil_rmtree p : silent (shutil_rmtree p).
Proof. intros w. run. by repeat case_match. Qed.

Lemma silent_parse_args a : silent (parse_args a).
Proof.
  unfold parse_args. destruct (ndk_version a); [|apply silent_ret].
  apply silent_when, silent_sys_exit.
Qed.

Lemma silent_check_required a : silent (check_required a).
Proof.
  unfold check_required.
  repeat (apply silent_bind; [|intros _]); apply silent_when, silent_sys_exit.
Qed.

Lemma silent_prepare_dirs L : silent (prepare_dirs L).
Proof.
  unfold prepare_dirs.
  repeat first
    [ apply silent_os_path_exists
    | apply silent_print
    | apply silent_os_mkdir
    | apply silent_shutil_rmtree
    | apply silent_when
    | apply silent_bind; [|intros ?] ].
Qed.

Lemma when_exit_Ret_inv b template args w u w' :
  when b (sys_exit template args) w = (Ret u, w') → b = false ∧ w' = w.
Proof. destruct b; [done|]. by intros [= <-]. Qed.

Lemma parse_args_Ret_inv a w w' :
  parse_args a w = (Ret tt, w') →
  w' = w ∧ ∀ v, ndk_version a = Some v → v ∈ ndk_choices.
Proof.
  unfold parse_args. destruct (ndk_version a) as [v|].
  - intros [Hb ->]%when_exit_Ret_inv. split; [done|]. intros ? [= <-].
    apply negb_false_iff, bool_decide_eq_true in Hb. done.
  - by intros [= <-].
Qed.

Lemma check_required_Ret_inv a w w' : check_required a w = (Ret tt, w') → w' = w.
Proof.
  unfold check_required. intros H. bind_inv H.
  apply when_exit_Ret_inv in Hc as [_ ->].
  apply when_exit_Ret_inv in Hc0 as [_ ->].
  apply when_exit_Ret_inv in Hc1 as [_ ->].
  by apply when_exit_Ret_inv in H as [_ ->].
Qed.

(** ** The run after the download *)

Lemma object_printable_size_total p w : ∃ s, object_printable_size p w = (Ret s, w).
Proof.
  unfold object_printable_size, get_object_size, os_path_isfile, os_path_getsize,
    get_directory_size. run.
  destruct (w_fs w !! p) as [[data|]|] eqn:Hp; simpl; rewrite ?Hp; simpl; eauto.
Qed.

Lemma sizes_info_total template p q w : ∃ m, sizes_info template p q w = (Ret m, w).
Proof.
  unfold sizes_info, bind.
  destruct (object_printable_size_total p w) as [s1 ->].
  destruct (object_printable_size_total q w) as [s2 ->]. eauto.
Qed.

Lemma lift_Ret_inv {A} (o : outcome A) w a w' :
  lift o w = (Ret a, w') → o = Ret a ∧ w' = w.
Proof. unfold lift. by intros [= -> ->]. Qed.

Lemma check_toolchain_Ret_inv dir keep w l w' :
  check_toolchain dir keep w = (Ret l, w') →
  w_fs w' = w_fs w ∧ l = FS.names (w_fs w) dir ∧ keep ∈ l.
Proof.
  unfold check_toolchain. run.
  destruct (bool_decide (is_Some _)); simpl;
    destruct (w_fs w !! dir) as [[|]|]; simpl; try done;
    case_bool_decide; simpl; try done; by intros [= <- <-].
Qed.

Lemma prune_gnu_Ret_inv a stl_dir name w name' w' :
  prune_gnu a stl_dir name w = (Ret name', w') →
  ∃ gcc_version abi,
    compiler_version a = Some gcc_version ∧ abi_name a = Some abi ∧
    name' = dash (dash name gcc_version) abi.
Proof.
  unfold prune_gnu. destruct (compiler_version a) as [[|c gcc]|]; try done.
  intros H. bind_inv H.
  destruct (abi_name a) as [[|c' abi]|]; try done.
  bind_inv H. injection H as <- <-. eauto.
Qed.

Lemma pruned_name_chain version toolchain stl_suffix api arch platform :
  dash (dash (dash (dash (dash (ndk_dir_name (Some version)) toolchain) stl_suffix)
                 ("android-" +:+ api)) ("arch-" +:+ arch)) platform +:+ ".tar.gz" =
  pruned_name_spec version toolchain stl_suffix [] api arch platform.
Proof.
  unfold dash, pruned_name_spec, ndk_dir_name. simpl Py.str_opt.
  cbv [String.concat app]. rewrite !append_assoc. reflexivity.
Qed.

Lemma pruned_name_chain_gnu version toolchain stl_suffix gcc abi api arch platform :
  dash (dash (dash (dash (dash (dash (dash (ndk_dir_name (Some version)) toolchain)
                                    stl_suffix) gcc) abi)
                 ("android-" +:+ api)) ("arch-" +:+ arch)) platform +:+ ".tar.gz" =
  pruned_name_spec version toolchain stl_suffix [gcc; abi] api arch platform.
Proof.
  unfold dash, pruned_name_spec, ndk_dir_name. simpl Py.str_opt.
  cbv [String.concat app]. rewrite !append_assoc. reflexivity.
Qed.

(** ** Replacing in a string *)

Lemma startswith_cons (a b : ascii) (p s : string) :
  Py.startswith (String b s) (String a p) = bool_decide (a = b) && Py.startswith s p.
Proof.
  unfold Py.startswith. simpl. destruct (decide (a = b)) as [Hab|Hab].
  - by rewrite (bool_decide_true _ Hab).
  - by rewrite (bool_decide_false _ Hab).
Qed.

Lemma startswith_nil_l (a : ascii) (p : string) :
  Py.startswith EmptyString (String a p) = false.
Proof. apply bool_decide_false. by intros [? ?]. Qed.

(** A prefix without dash of the result of the replacement is a prefix of
    the string: such characters are copied. *)
Lemma replace_go_prefix (p s : string) :
  Py.occurs "-" p = false →
  Py.startswith (Py.replace_go "-clang" "-4.9" 0 s) p = true →
  Py.startswith s p = true.
Proof.
  revert s. induction p as [|x p IH]; intros s Hp Hs; [done|].
  simpl in Hp. rewrite startswith_cons in Hp.
  apply orb_false_iff in Hp as [Hx Hp].
  change (Py.startswith p "") with true in Hx. rewrite andb_true_r in Hx.
  apply bool_decide_eq_false in Hx.
  destruct s as [|c s]; [done|]. simpl in Hs.
  destruct (Py.startswith (String c s) "-clang") eqn:Hc.
  - change ("-4.9" +:+ ?t) with (String "-" ("4.9" +:+ t)) in Hs.
    rewrite startswith_cons in Hs. apply andb_true_iff in Hs as [Hs _].
    apply bool_decide_eq_true in Hs. congruence.
  - rewrite startswith_cons in Hs |- *. apply andb_true_iff in Hs as [Hxc Hs].
    rewrite Hxc. simpl. by apply IH.
Qed.

Lemma occurs_cons (pat : string) (c : ascii) (s : string) :
  Py.occurs pat (String c s) = Py.startswith (String c s) pat || Py.occurs pat s.
Proof. reflexivity. Qed.

Lemma replace_go_no_occurrence (s : string) (skip : nat) :
  Py.occurs "-clang" (Py.replace_go "-clang" "-4.9" skip s) = false.
Proof.
  revert skip. induction s as [|c s IH]; intros skip; [done|].
  destruct skip as [|k]; [|apply IH]. simpl Py.replace_go.
  destruct (Py.startswith (String c s) "-clang") eqn:Hc.
  - change ("-4.9" +:+ ?t) with (String "-" (String "4" (String "." (String "9" t)))).
    rewrite !occurs_cons, !startswith_cons, IH.
    rewrite (bool_decide_false ("c" = "4")%char) by done.
    rewrite (bool_decide_false ("-" = "4")%char) by done.
    rewrite (bool_decide_false ("-" = ".")%char) by done.
    rewrite (bool_decide_false ("-" = "9")%char) by done.
    by destruct (bool_decide (_ = _)).
  - rewrite occurs_cons, IH, orb_false_r.
    destruct (Py.startswith (String c (Py.replace_go _ _ _ _)) "-clang") eqn:Hr;
      [|done].
    rewrite startswith_cons in Hc, Hr. apply andb_true_iff in Hr as [Hd Hr].
    rewrite Hd in Hc. simpl in Hc.
    apply replace_go_prefix in Hr; [congruence|done].
Qed.

Section Run.

Variable sha1_hexdigest : string → string.
Variable http_get : string → nat → response.
Variable run_tool : tool → path → gmap path node → option (gmap path node).
Variable tar_gz : string → gmap path node → string.
Variable platform_system : string.

(** What a successful run after the download returns. *)
Lemma prune_and_pack_Ret_inv a L version w name archive w' :
  ndk_version a = Some version →
  prune_and_pack tar_gz platform_system a L w = (Ret (name, archive), w') →
  selected_toolchain a ∈ FS.names (w_fs w) (android_toolchains_dir L) ∧
  archive = pruned_dir L ++ [name] ∧
  ∃ stl_suffix gnu,
    stl_suffix_by_name (stl a) = Ret stl_suffix ∧
    ((stl_suffix ≠ "gnu-libstdc++" ∧ gnu = []) ∨
     (stl_suffix = "gnu-libstdc++" ∧
      ∃ gcc_version abi,
        compiler_version a = Some gcc_version ∧ abi_name a = Some abi ∧
        gnu = [gcc_version; abi])) ∧
    name = pruned_name_spec version (selected_toolchain a) stl_suffix gnu
             (api_level a) (arch_name a) platform_system.
Proof.
  intros Hv. unfold prune_and_pack. rewrite Hv. intros H.
  apply bind_Ret_inv in H as (info & w1 & Hinfo & H).
  destruct (sizes_info_total "Original sizes: archive {}, unpacked {}"
              (android_archive_local L) (android_unpacked_ndk L) w) as [m Hm].
  rewrite Hm in Hinfo. injection Hinfo as <- <-.
  apply bind_Ret_inv in H as (toolchains_list & w2 & Htc & H).
  apply check_toolchain_Ret_inv in Htc as (_ & -> & Hin).
  split; [done|].
  apply bind_Ret_inv in H as (stl_suffix & w3 & Hstl & H).
  apply lift_Ret_inv in Hstl as [Hstl ->].
  apply bind_Ret_inv in H as (stl_list & w4 & _ & H).
  apply bind_Ret_inv in H as (? & w5 & _ & H).
  apply bind_Ret_inv in H as (? & w6 & _ & H).
  apply bind_Ret_inv in H as (name1 & w7 & Hgnu & H).
  bind_inv H. injection H as <- <-. split; [done|].
  exists stl_suffix.
  case_bool_decide as Hg.
  - apply prune_gnu_Ret_inv in Hgnu as (gcc & abi & Hcv & Habi & ->).
    exists [gcc; abi]. split; [done|].
    split; [right; split; [done|]; by exists gcc, abi|].
    apply pruned_name_chain_gnu.
  - injection Hgnu as <- <-. exists []. split; [done|]. split; [by left|].
    apply pruned_name_chain.
Qed.

Lemma fetch_Ret_inv a L w w' :
  fetch sha1_hexdigest http_get run_tool platform_system a L w = (Ret tt, w') →
  ∃ version, ndk_version a = Some version ∧ version ∈ ndk_choices.
Proof.
  unfold fetch, ndk_choices. intros H.
  case_bool_decide; [|case_bool_decide; [|done]];
    apply bind_Ret_inv in H as (? & ? & [Hi _]%lift_Ret_inv & _);
    revert Hi; unfold get_darwin_info, get_linux_info;
    repeat (case_bool_decide; [intros _; eexists; split; [eassumption|set_solver]|]);
    done.
Qed.

Lemma main_Ret_inv a w r w' :
  main sha1_hexdigest http_get run_tool tar_gz platform_system a w = (Ret r, w') →
  ∃ version w1,
    ndk_version a = Some version ∧ version ∈ ndk_choices ∧
    prune_and_pack tar_gz platform_system a (layout_of (w_cwd w) (ndk_version a)) w1
    = (Ret r, w').
Proof.
  unfold main. intros H.
  apply bind_Ret_inv in H as ([] & w1 & [-> _]%parse_args_Ret_inv & H).
  apply bind_Ret_inv in H as ([] & w2 & ->%check_required_Ret_inv & H).
  apply bind_Ret_inv in H as (top & w3 & [= <- <-] & H).
  apply bind_Ret_inv in H as ([] & w4 & _ & H).
  apply bind_Ret_inv in H as ([] & w5 & (version & Hv & Hin)%fetch_Ret_inv & H).
  eauto 10.
Qed.

(** C3.  On success the name of the archive is made of the kit version, the
    toolchain, the directory name of the standard library, the compiler
    version and the ABI when that library is the GNU one, the API level
    after ['android-'], the architecture after ['arch-'] and the host
    platform, in this order and joined by dashes after ['android-ndk'], with
    ['.tar.gz'] at the end; the archive is in [_pruned] under the working
    directory.  With [v1], [t1], [s1], [9] and [arm] this is
    ['android-ndk-v1-t1-s1-android-9-arch-arm-<platform>.tar.gz']. *)
Theorem archive_name_on_success (a : args) (w : world) (name : string)
    (archive : path) (w' : world) :
  (main sha1_hexdigest http_get run_tool tar_gz platform_system a w
   = (Ret (name, archive), w') →
   ∃ version stl_suffix gnu,
     ndk_version a = Some version ∧
     stl_suffix_by_name (stl a) = Ret stl_suffix ∧
     ((stl_suffix ≠ "gnu-libstdc++" ∧ gnu = []) ∨
      (stl_suffix = "gnu-libstdc++" ∧
       ∃ gcc_version abi,
         compiler_version a = Some gcc_version ∧ abi_name a = Some abi ∧
         gnu = [gcc_version; abi])) ∧
     name = pruned_name_spec version (selected_toolchain a) stl_suffix gnu
              (api_level a) (arch_name a) platform_system ∧
     archive = w_cwd w ++ ["_pruned"; name]) ∧
  pruned_name_spec "v1" "t1" "s1" [] "9" "arm" platform_system =
    "android-ndk-v1-t1-s1-android-9-arch-arm-" +:+ platform_system +:+ ".tar.gz".
Proof.
  split.
  - intros (version & w1 & Hv & _ & H)%main_Ret_inv.
    apply (prune_and_pack_Ret_inv _ _ _ _ _ _ _ Hv) in H
      as (_ & -> & stl_suffix & gnu & Hstl & Hgnu & Hname).
    exists version, stl_suffix, gnu. split_and!; try done.
    simpl. by rewrite <- app_assoc.
  - unfold pruned_name_spec. cbv [String.concat app].
    rewrite !append_assoc. reflexivity.
Qed.


Lemma check_toolchain_not_listed dir keep w :
  w_fs w !! dir = Some Dir → keep ∉ FS.names (w_fs w) dir →
  (check_toolchain dir keep w).1 =
  Exit (Msg "Toolchain `{}` is not in list: {}"
          [FStr keep; FList (FS.names (w_fs w) dir)]).
Proof.
  intros Hdir Hnot. unfold check_toolchain. run.
  destruct (bool_decide (is_Some _)); simpl; rewrite Hdir; simpl;
    by rewrite (bool_decide_false _ Hnot).
Qed.

(** C9.  Under [--compiler-version clang] the toolchain that is looked up and
    named is the value of [--toolchain] with ['-clang'] replaced by ['-4.9']
    everywhere, so that no ['-clang'] is left in it; under any other compiler
    version it is the value itself.  It is this string that must be in the
    listing of the toolchains, and this string that follows the kit version
    in the name of the archive. *)
Theorem clang_toolchain_rewritten (a : args) (L : layout) (w : world) :
  (compiler_version a = Some "clang" →
   selected_toolchain a = Py.replace (toolchain a) "-clang" "-4.9" ∧
   Py.occurs "-clang" (selected_toolchain a) = false) ∧
  (compiler_version a ≠ Some "clang" → selected_toolchain a = toolchain a) ∧
  (w_fs w !! android_toolchains_dir L = Some Dir →
   selected_toolchain a ∉ FS.names (w_fs w) (android_toolchains_dir L) →
   (prune_and_pack tar_gz platform_system a L w).1 =
   Exit (Msg "Toolchain `{}` is not in list: {}"
           [FStr (selected_toolchain a);
            FList (FS.names (w_fs w) (android_toolchains_dir L))])) ∧
  (∀ version name archive w',
     ndk_version a = Some version →
     prune_and_pack tar_gz platform_system a L w = (Ret (name, archive), w') →
     selected_toolchain a ∈ FS.names (w_fs w) (android_toolchains_dir L) ∧
     ∃ rest, name = "android-ndk-" +:+ version +:+ "-" +:+
                    selected_toolchain a +:+ "-" +:+ rest).
Proof.
  split_and!.
  - intros Hcv. unfold selected_toolchain. rewrite (bool_decide_true _ Hcv).
    split; [done|]. apply replace_go_no_occurrence.
  - intros Hcv. unfold selected_toolchain. by rewrite (bool_decide_false _ Hcv).
  - intros Hdir Hnot. unfold prune_and_pack, bind.
    destruct (sizes_info_total "Original sizes: archive {}, unpacked {}"
                (android_archive_local L) (android_unpacked_ndk L) w) as [m ->].
    pose proof (check_toolchain_not_listed _ _ _ Hdir Hnot) as Hexit.
    destruct (check_toolchain _ _ w) as [[l| |] w1]; simpl in Hexit; try done.
    by injection Hexit as ->.
  - intros version name archive w' Hv H.
    apply (prune_and_pack_Ret_inv _ _ _ _ _ _ _ Hv) in H
      as (Hin & _ & stl_suffix & gnu & _ & _ & ->).
    split; [done|]. unfold pruned_name_spec. cbv [String.concat app].
    destruct gnu as [|g gnu]; eexists; rewrite !append_assoc; reflexivity.
Qed.

(** ** The kit versions of a host *)

Lemma fetch_darwin_r16b a L w :
  ndk_version a = Some "r16b" →
  fetch sha1_hexdigest http_get run_tool "Darwin" a L w =
  (Exit (Msg "Unknown NDK version" []), w).
Proof. intros Hv. unfold fetch. rewrite Hv. reflexivity. Qed.

(** C10.  The command line accepts [r16b], and on Linux each of the four
    accepted versions has a download location and a checksum; on Darwin
    [r16b] has none: the run ends with ['Unknown NDK version'] once the
    directories are prepared, never succeeds and sends no request. *)
Theorem darwin_refuses_r16b (a : args) (w : world) :
  "r16b" ∈ ndk_choices ∧
  get_darwin_info (Some "r16b") = Exit (Msg "Unknown NDK version" []) ∧
  (∀ version, version ∈ ndk_choices →
     ∃ url sha1, get_linux_info (Some version) = Ret (url, sha1)) ∧
  (ndk_version a = Some "r16b" →
   parse_args a w = (Ret tt, w) ∧
   (∀ r, (main sha1_hexdigest http_get run_tool tar_gz "Darwin" a w).1 ≠ Ret r) ∧
   requests_of (w_trace (main sha1_hexdigest http_get run_tool tar_gz "Darwin" a w).2)
     = requests_of (w_trace w) ∧
   (∀ w1, check_required a w = (Ret tt, w) →
          prepare_dirs (layout_of (w_cwd w) (Some "r16b")) w = (Ret tt, w1) →
          main sha1_hexdigest http_get run_tool tar_gz "Darwin" a w =
          (Exit (Msg "Unknown NDK version" []), w1))).
Proof using sha1_hexdigest http_get run_tool tar_gz.
  clear platform_system.
  split_and!.
  - unfold ndk_choices. set_solver.
  - reflexivity.
  - intros version Hin. unfold ndk_choices in Hin.
    repeat (apply elem_of_cons in Hin as [->|Hin]; [by do 2 eexists|]).
    by apply elem_of_nil in Hin.
  - intros Hv. split_and!.
    + unfold parse_args. by rewrite Hv.
    + intros r Hr.
      destruct (main _ _ _ _ "Darwin" a w) as [o w'] eqn:Hm. simpl in Hr. subst o.
      unfold main in Hm.
      apply bind_Ret_inv in Hm as (? & ? & _ & Hm).
      apply bind_Ret_inv in Hm as (? & ? & _ & Hm).
      apply bind_Ret_inv in Hm as (? & ? & _ & Hm).
      apply bind_Ret_inv in Hm as (? & ? & _ & Hm).
      apply bind_Ret_inv in Hm as (? & ? & Hf & _).
      by rewrite (fetch_darwin_r16b _ _ _ Hv) in Hf.
    + unfold main.
      apply silent_bind; [apply silent_parse_args|intros _].
      apply silent_bind; [apply silent_check_required|intros _].
      apply silent_bind; [apply silent_os_getcwd|intros top].
      apply silent_bind; [apply silent_prepare_dirs|intros _].
      intros w0. unfold bind. by rewrite (fetch_darwin_r16b _ _ _ Hv).
    + intros w1 Hreq Hprep.
      assert (parse_args a w = (Ret tt, w)) as Hparse.
      { unfold parse_args. by rewrite Hv. }
      unfold main, bind. rewrite Hparse, Hreq.
      change (os_getcwd w) with (Ret (w_cwd w), w). cbv beta iota zeta.
      rewrite Hv, Hprep. by rewrite (fetch_darwin_r16b _ _ _ Hv).
Qed.

End Run.

(** ** The claims on the small kit *)

Ltac by_compute := apply (bool_decide_unpack _); vm_compute; exact I.

(** A run is its outcome and the world it leaves. *)
Lemma run_eta {A} (r : outcome A * world) (o : outcome A) : r.1 = o → r = (o, r.2).
Proof. destruct r as [o' w']. simpl. by intros ->. Qed.

(** C1, on the architectures of the small kit: only [arch-arm] is left. *)
Lemma prune_leaves_kept_and_spared_witness :
  (∀ x, x ∈ FS.names (w_fs Scenario.unpacked) Scenario.api_dir ↔
        x ∈ FS.names (w_fs Scenario.unpacked) Scenario.api_dir) ∧
  prune Arch Scenario.api_dir "arch-arm"
    (FS.names (w_fs Scenario.unpacked) Scenario.api_dir) Scenario.unpacked =
  (Ret tt,
   (prune Arch Scenario.api_dir "arch-arm"
      (FS.names (w_fs Scenario.unpacked) Scenario.api_dir) Scenario.unpacked).2) ∧
  ∀ x,
    x ∈ FS.names
          (w_fs (prune Arch Scenario.api_dir "arch-arm"
                   (FS.names (w_fs Scenario.unpacked) Scenario.api_dir)
                   Scenario.unpacked).2)
          Scenario.api_dir ↔
    x = "arch-arm" ∨
    (x ∈ FS.names (w_fs Scenario.unpacked) Scenario.api_dir ∧
     spared Arch "arch-arm" x (w_fs Scenario.unpacked !! (Scenario.api_dir ++ [x]))
     = true).
Proof.
  split; [done|].
  assert (prune Arch Scenario.api_dir "arch-arm"
            (FS.names (w_fs Scenario.unpacked) Scenario.api_dir) Scenario.unpacked =
          (Ret tt,
           (prune Arch Scenario.api_dir "arch-arm"
              (FS.names (w_fs Scenario.unpacked) Scenario.api_dir)
              Scenario.unpacked).2)) as Hrun.
  { apply run_eta. vm_compute. reflexivity. }
  split; [exact Hrun|].
  apply (prune_leaves_kept_and_spared Arch Scenario.api_dir "arch-arm"
           (FS.names (w_fs Scenario.unpacked) Scenario.api_dir) Scenario.unpacked
           _ (λ x, iff_refl _) Hrun).
Defined.

(** The compiler-version loop succeeds on the small kit and leaves the plain
    file [Android.mk] next to the kept [4.9]. *)
Lemma versions_prune_keeps_plain_file :
  (prune Versions Scenario.gnu_dir "4.9"
     (FS.names (w_fs Scenario.unpacked) Scenario.gnu_dir) Scenario.unpacked).1
  = Ret tt ∧
  ¬ (∀ x,
       x ∈ FS.names
             (w_fs (prune Versions Scenario.gnu_dir "4.9"
                      (FS.names (w_fs Scenario.unpacked) Scenario.gnu_dir)
                      Scenario.unpacked).2)
             Scenario.gnu_dir →
       x = "4.9").
Proof.
  split; [vm_compute; reflexivity|].
  intros Hall. specialize (Hall "Android.mk").
  assert ("Android.mk" = "4.9") as Heq; [|discriminate Heq].
  apply Hall. apply elem_of_names. vm_compute. eauto.
Qed.

(** C2, on the architectures of the small kit, and on a listing that names
    the kept entry twice. *)
Lemma prune_outcome_witness :
  deletions_fit Arch Scenario.api_dir "arch-arm"
    (FS.names (w_fs Scenario.unpacked) Scenario.api_dir) (w_fs Scenario.unpacked) ∧
  (prune Arch Scenario.api_dir "arch-arm"
     (FS.names (w_fs Scenario.unpacked) Scenario.api_dir) Scenario.unpacked).1
  = Ret tt ∧
  deletions_fit Arch Scenario.api_dir "arch-arm" ["arch-arm"; "arch-arm"]
    (w_fs Scenario.unpacked) ∧
  (prune Arch Scenario.api_dir "arch-arm" ["arch-arm"; "arch-arm"]
     Scenario.unpacked).1
  = Exit (Msg "Already found" []).
Proof.
  assert (deletions_fit Arch Scenario.api_dir "arch-arm"
            (FS.names (w_fs Scenario.unpacked) Scenario.api_dir)
            (w_fs Scenario.unpacked)) as Hfit.
  { split; [by_compute|]. intros x Hx _. by apply elem_of_names. }
  assert (deletions_fit Arch Scenario.api_dir "arch-arm" ["arch-arm"; "arch-arm"]
            (w_fs Scenario.unpacked)) as Hfit2.
  { split; [by_compute|]. intros x Hx Hk. exfalso. apply Hk.
    apply elem_of_cons in Hx as [?|Hx]; [done|].
    apply elem_of_cons in Hx as [?|Hx]; [done|]. by apply elem_of_nil in Hx. }
  split; [exact Hfit|]. split.
  - exact (prune_outcome Arch Scenario.api_dir "arch-arm" _ Scenario.unpacked Hfit).
  - split; [exact Hfit2|].
    exact (prune_outcome Arch Scenario.api_dir "arch-arm" _ Scenario.unpacked Hfit2).
Defined.

(** The kept entry is once in the listing, and the prune does not succeed:
    the API-level loop passes over a kept entry that is a plain file, and the
    toolchain loop fails on a plain file among the other entries. *)
Lemma prune_fails_on_single_occurrence :
  occurrences "android-21" (FS.names (w_fs Scenario.odd) ["ndk"; "platforms"])
  = 1%nat ∧
  (prune Api ["ndk"; "platforms"] "android-21"
     (FS.names (w_fs Scenario.odd) ["ndk"; "platforms"]) Scenario.odd).1
  = Exit (Msg "API not found" []) ∧
  occurrences "x86-4.9" (FS.names (w_fs Scenario.odd) ["ndk"; "toolchains"])
  = 1%nat ∧
  (prune (Toolchains None) ["ndk"; "toolchains"] "x86-4.9"
     (FS.names (w_fs Scenario.odd) ["ndk"; "toolchains"]) Scenario.odd).1
  = Raise (NotADirectoryError ["ndk"; "toolchains"; "NOTICE"]).
Proof. repeat split; vm_compute; reflexivity. Qed.

(** C5, on the small kit: what is below [llvm] and below [llvm-libc++abi]
    is still there after the prunes. *)
Lemma exempt_entries_survive_witness :
  Scenario.toolchains_dir ++ ["llvm"]
    `prefix_of` Scenario.toolchains_dir ++ ["llvm"; "prebuilt"] ∧
  (w_fs
     (prune_toolchains (Some "clang") Scenario.toolchains_dir
        "arm-linux-androideabi-4.9"
        (FS.names (w_fs Scenario.unpacked) Scenario.toolchains_dir)
        Scenario.unpacked).2
     !! (Scenario.toolchains_dir ++ ["llvm"; "prebuilt"])
   = w_fs Scenario.unpacked !! (Scenario.toolchains_dir ++ ["llvm"; "prebuilt"])) ∧
  Scenario.stl_dir ++ ["llvm-libc++abi"]
    `prefix_of` Scenario.stl_dir ++ ["llvm-libc++abi"; "include"] ∧
  (w_fs
     (prune_stl Scenario.stl_dir "llvm-libc++"
        (FS.names (w_fs Scenario.unpacked) Scenario.stl_dir) Scenario.unpacked).2
     !! (Scenario.stl_dir ++ ["llvm-libc++abi"; "include"])
   = w_fs Scenario.unpacked !! (Scenario.stl_dir ++ ["llvm-libc++abi"; "include"])).
Proof.
  assert (Scenario.toolchains_dir ++ ["llvm"]
            `prefix_of` Scenario.toolchains_dir ++ ["llvm"; "prebuilt"]) as Hp.
  { exists ["prebuilt"]. vm_compute. reflexivity. }
  assert (Scenario.stl_dir ++ ["llvm-libc++abi"]
            `prefix_of` Scenario.stl_dir ++ ["llvm-libc++abi"; "include"]) as Hq.
  { exists ["include"]. vm_compute. reflexivity. }
  split; [exact Hp|]. split.
  { exact (proj1 (exempt_entries_survive Scenario.toolchains_dir
                    "arm-linux-androideabi-4.9"
                    (FS.names (w_fs Scenario.unpacked) Scenario.toolchains_dir)
                    Scenario.unpacked
                    (Scenario.toolchains_dir ++ ["llvm"; "prebuilt"])) Hp). }
  split; [exact Hq|].
  exact (proj2 (exempt_entries_survive Scenario.stl_dir "llvm-libc++"
                  (FS.names (w_fs Scenario.unpacked) Scenario.stl_dir)
                  Scenario.unpacked
                  (Scenario.stl_dir ++ ["llvm-libc++abi"; "include"])) Hq).
Defined.

(** C4, on a name that is not in the table. *)
Lemma stl_suffix_by_name_table_witness :
  ("libc++" ∉ stl_names) ∧
  stl_suffix_by_name "libc++" = Exit (Msg "Unexpected --stl: {}" [FStr "libc++"]) ∧
  ("gnustl_static" ∈ stl_names) ∧
  ∃ suffix, stl_suffix_by_name "gnustl_static" = Ret suffix.
Proof.
  assert ("libc++" ∉ stl_names) as Hout by by_compute.
  assert ("gnustl_static" ∈ stl_names) as Hin by by_compute.
  pose proof stl_suffix_by_name_table as (_&_&_&_&_&_&_&_&_&_& Hdom & Hrest).
  split; [exact Hout|]. split; [exact (Hrest _ Hout)|].
  split; [exact Hin|]. exact (Hdom _ Hin).
Defined.

(** C6, on two kibibytes. *)
Lemma printable_size_units_witness :
  1024 ≤ 2048 < 1024 ^ 2 ∧
  (human_readable_size 2048).2 = "KB" ∧
  hundredths (human_readable_size 2048).1 = div_half_even (100 * 2048) 1024.
Proof.
  assert (1024 ≤ 2048 < 1024 ^ 2) as Hr.
  { split; [apply N.leb_le|apply N.ltb_lt]; reflexivity. }
  split; [exact Hr|].
  pose proof (printable_size_units 2048) as (_ & Hkb & _).
  exact (Hkb Hr).
Defined.

(** C7, on a toolchain and an API level that the small kit does not have. *)
Lemma missing_directory_checks_witness :
  w_fs Scenario.unpacked !! (Scenario.toolchains_dir ++ ["mips-4.9"]) = None ∧
  w_fs Scenario.unpacked !! Scenario.toolchains_dir = Some Dir ∧
  check_toolchain Scenario.toolchains_dir "mips-4.9" Scenario.unpacked =
  (Exit (Msg "Toolchain `{}` is not in list: {}"
           [FStr "mips-4.9";
            FList (FS.names (w_fs Scenario.unpacked) Scenario.toolchains_dir)]),
   World (w_fs Scenario.unpacked) (w_cwd Scenario.unpacked)
     (w_trace Scenario.unpacked ++
      [Print (Msg "Toolchain not exists: {} (set by --toolchain)"
                [FPath (Scenario.toolchains_dir ++ ["mips-4.9"])])])).
Proof.
  assert (w_fs Scenario.unpacked !! (Scenario.toolchains_dir ++ ["mips-4.9"]) = None)
    as Hmissing by (vm_compute; reflexivity).
  assert (w_fs Scenario.unpacked !! Scenario.toolchains_dir = Some Dir)
    as Hdir by (vm_compute; reflexivity).
  split; [exact Hmissing|]. split; [exact Hdir|].
  exact (proj1 (missing_directory_checks Scenario.toolchains_dir "mips-4.9"
                  Scenario.unpacked Hmissing) Hdir).
Defined.

(** The API level is not there: the existence check itself ends the run,
    and nothing is printed, no warning. *)
Lemma api_existence_check_exits :
  w_fs Scenario.unpacked !! (Scenario.platforms_dir ++ ["android-99"]) = None ∧
  (check_api Scenario.platforms_dir "android-99" Scenario.unpacked).1 =
  Exit (Msg "Directory not found: {} (--api-level)"
          [FPath (Scenario.platforms_dir ++ ["android-99"])]) ∧
  w_trace (check_api Scenario.platforms_dir "android-99" Scenario.unpacked).2
  = w_trace Scenario.unpacked ∧
  ¬ (∃ warning,
       w_trace (check_api Scenario.platforms_dir "android-99" Scenario.unpacked).2
       = w_trace Scenario.unpacked ++ [Print warning]).
Proof.
  split; [vm_compute; reflexivity|]. split; [vm_compute; reflexivity|].
  split; [vm_compute; reflexivity|].
  intros [warning H]. vm_compute in H. discriminate H.
Qed.

(** C8, on the small kit: the first call downloads the archive, the second
    finds it and sends nothing. *)
Lemma download_idempotent_witness :
  w_fs (download Scenario.sha1 Scenario.http Scenario.zip_url
          "42aa43aae89a50d1c66c3f9fdecd676936da6128" Scenario.zip Scenario.fresh).2
    !! Scenario.zip = Some (File "PKzip") ∧
  Scenario.sha1 "PKzip" = "42aa43aae89a50d1c66c3f9fdecd676936da6128" ∧
  download Scenario.sha1 Scenario.http Scenario.zip_url
    "42aa43aae89a50d1c66c3f9fdecd676936da6128" Scenario.zip Scenario.unpacked =
  (Ret tt,
   World (w_fs Scenario.unpacked) (w_cwd Scenario.unpacked)
     (w_trace Scenario.unpacked ++
      [Print (Msg "Calculating hash of {}" [FPath Scenario.zip]);
       Print (Msg "File already downloaded: {}" [FPath Scenario.zip])])) ∧
  download Scenario.sha1 Scenario.http Scenario.zip_url
    "42aa43aae89a50d1c66c3f9fdecd676936da6128" Scenario.zip Scenario.fresh =
  (Ret tt,
   (download Scenario.sha1 Scenario.http Scenario.zip_url
      "42aa43aae89a50d1c66c3f9fdecd676936da6128" Scenario.zip Scenario.fresh).2) ∧
  ∃ w2,
    download Scenario.sha1 Scenario.http Scenario.zip_url
      "42aa43aae89a50d1c66c3f9fdecd676936da6128" Scenario.zip
      (download Scenario.sha1 Scenario.http Scenario.zip_url
         "42aa43aae89a50d1c66c3f9fdecd676936da6128" Scenario.zip Scenario.fresh).2
    = (Ret tt, w2) ∧
    w_fs w2 =
    w_fs (download Scenario.sha1 Scenario.http Scenario.zip_url
            "42aa43aae89a50d1c66c3f9fdecd676936da6128" Scenario.zip
            Scenario.fresh).2 ∧
    requests_of (w_trace w2) =
    requests_of
      (w_trace (download Scenario.sha1 Scenario.http Scenario.zip_url
                  "42aa43aae89a50d1c66c3f9fdecd676936da6128" Scenario.zip
                  Scenario.fresh).2).
Proof.
  split; [vm_compute; reflexivity|]. split; [reflexivity|]. split.
  - apply (proj1 (download_idempotent Scenario.sha1 Scenario.http Scenario.zip_url
                    "42aa43aae89a50d1c66c3f9fdecd676936da6128" Scenario.zip
                    Scenario.unpacked) "PKzip");
      [vm_compute; reflexivity|reflexivity].
  - assert (download Scenario.sha1 Scenario.http Scenario.zip_url
              "42aa43aae89a50d1c66c3f9fdecd676936da6128" Scenario.zip Scenario.fresh =
            (Ret tt,
             (download Scenario.sha1 Scenario.http Scenario.zip_url
                "42aa43aae89a50d1c66c3f9fdecd676936da6128" Scenario.zip
                Scenario.fresh).2)) as Hfirst.
    { apply run_eta. vm_compute. reflexivity. }
    split; [exact Hfirst|].
    exact (proj2 (download_idempotent Scenario.sha1 Scenario.http Scenario.zip_url
                    "42aa43aae89a50d1c66c3f9fdecd676936da6128" Scenario.zip
                    Scenario.fresh) _ Hfirst).
Defined.

(** C3, on the GCC build of the small kit. *)
Lemma archive_name_on_success_witness :
  main Scenario.sha1 Scenario.http Scenario.tools Scenario.targz "Linux"
    Scenario.gcc_args Scenario.start =
  (Ret
     ("android-ndk-r16b-arm-linux-androideabi-4.9-gnu-libstdc++-4.9-armeabi-v7a-android-21-arch-arm-Linux.tar.gz",
      ["w"; "_pruned";
       "android-ndk-r16b-arm-linux-androideabi-4.9-gnu-libstdc++-4.9-armeabi-v7a-android-21-arch-arm-Linux.tar.gz"]),
   (main Scenario.sha1 Scenario.http Scenario.tools Scenario.targz "Linux"
      Scenario.gcc_args Scenario.start).2) ∧
  ∃ version stl_suffix gnu,
    ndk_version Scenario.gcc_args = Some version ∧
    stl_suffix_by_name (stl Scenario.gcc_args) = Ret stl_suffix ∧
    ((stl_suffix ≠ "gnu-libstdc++" ∧ gnu = []) ∨
     (stl_suffix = "gnu-libstdc++" ∧
      ∃ gcc_version abi,
        compiler_version Scenario.gcc_args = Some gcc_version ∧
        abi_name Scenario.gcc_args = Some abi ∧ gnu = [gcc_version; abi])) ∧
    "android-ndk-r16b-arm-linux-androideabi-4.9-gnu-libstdc++-4.9-armeabi-v7a-android-21-arch-arm-Linux.tar.gz"
    = pruned_name_spec version (selected_toolchain Scenario.gcc_args) stl_suffix gnu
        (api_level Scenario.gcc_args) (arch_name Scenario.gcc_args) "Linux" ∧
    ["w"; "_pruned";
     "android-ndk-r16b-arm-linux-androideabi-4.9-gnu-libstdc++-4.9-armeabi-v7a-android-21-arch-arm-Linux.tar.gz"]
    = w_cwd Scenario.start ++
      ["_pruned";
       "android-ndk-r16b-arm-linux-androideabi-4.9-gnu-libstdc++-4.9-armeabi-v7a-android-21-arch-arm-Linux.tar.gz"].
Proof.
  assert (main Scenario.sha1 Scenario.http Scenario.tools Scenario.targz "Linux"
            Scenario.gcc_args Scenario.start =
          (Ret
             ("android-ndk-r16b-arm-linux-androideabi-4.9-gnu-libstdc++-4.9-armeabi-v7a-android-21-arch-arm-Linux.tar.gz",
              ["w"; "_pruned";
               "android-ndk-r16b-arm-linux-androideabi-4.9-gnu-libstdc++-4.9-armeabi-v7a-android-21-arch-arm-Linux.tar.gz"]),
           (main Scenario.sha1 Scenario.http Scenario.tools Scenario.targz "Linux"
              Scenario.gcc_args Scenario.start).2)) as Hrun.
  { apply run_eta. vm_compute. reflexivity. }
  split; [exact Hrun|].
  exact (proj1 (archive_name_on_success Scenario.sha1 Scenario.http Scenario.tools
                  Scenario.targz "Linux" Scenario.gcc_args Scenario.start _ _ _) Hrun).
Defined.

(** C9, on the clang build of the small kit and on a toolchain that the kit
    does not have. *)
Lemma clang_toolchain_rewritten_witness :
  compiler_version Scenario.clang_args = Some "clang" ∧
  (selected_toolchain Scenario.clang_args =
     Py.replace (toolchain Scenario.clang_args) "-clang" "-4.9" ∧
   Py.occurs "-clang" (selected_toolchain Scenario.clang_args) = false) ∧
  compiler_version Scenario.gcc_args ≠ Some "clang" ∧
  selected_toolchain Scenario.gcc_args = toolchain Scenario.gcc_args ∧
  w_fs Scenario.unpacked !! android_toolchains_dir (layout_of ["w"] (Some "r16b"))
  = Some Dir ∧
  (selected_toolchain Scenario.mips_args ∉
   FS.names (w_fs Scenario.unpacked)
     (android_toolchains_dir (layout_of ["w"] (Some "r16b")))) ∧
  (prune_and_pack Scenario.targz "Linux" Scenario.mips_args
     (layout_of ["w"] (Some "r16b")) Scenario.unpacked).1 =
  Exit (Msg "Toolchain `{}` is not in list: {}"
          [FStr (selected_toolchain Scenario.mips_args);
           FList (FS.names (w_fs Scenario.unpacked)
                    (android_toolchains_dir (layout_of ["w"] (Some "r16b"))))]) ∧
  prune_and_pack Scenario.targz "Linux" Scenario.clang_args
    (layout_of ["w"] (Some "r16b")) Scenario.unpacked =
  (Ret
     ("android-ndk-r16b-arm-linux-androideabi-4.9-llvm-libc++-android-21-arch-arm-Linux.tar.gz",
      ["w"; "_pruned";
       "android-ndk-r16b-arm-linux-androideabi-4.9-llvm-libc++-android-21-arch-arm-Linux.tar.gz"]),
   (prune_and_pack Scenario.targz "Linux" Scenario.clang_args
      (layout_of ["w"] (Some "r16b")) Scenario.unpacked).2) ∧
  (selected_toolchain Scenario.clang_args ∈
   FS.names (w_fs Scenario.unpacked)
     (android_toolchains_dir (layout_of ["w"] (Some "r16b")))) ∧
  ∃ rest,
    "android-ndk-r16b-arm-linux-androideabi-4.9-llvm-libc++-android-21-arch-arm-Linux.tar.gz"
    = "android-ndk-" +:+ "r16b" +:+ "-" +:+
      selected_toolchain Scenario.clang_args +:+ "-" +:+ rest.
Proof.
  assert (compiler_version Scenario.clang_args = Some "clang") as H1 by reflexivity.
  assert (compiler_version Scenario.gcc_args ≠ Some "clang") as H2 by discriminate.
  assert (w_fs Scenario.unpacked
            !! android_toolchains_dir (layout_of ["w"] (Some "r16b")) = Some Dir)
    as H3 by (vm_compute; reflexivity).
  assert (selected_toolchain Scenario.mips_args ∉
          FS.names (w_fs Scenario.unpacked)
            (android_toolchains_dir (layout_of ["w"] (Some "r16b"))))
    as H4 by by_compute.
  assert (prune_and_pack Scenario.targz "Linux" Scenario.clang_args
            (layout_of ["w"] (Some "r16b")) Scenario.unpacked =
          (Ret
             ("android-ndk-r16b-arm-linux-androideabi-4.9-llvm-libc++-android-21-arch-arm-Linux.tar.gz",
              ["w"; "_pruned";
               "android-ndk-r16b-arm-linux-androideabi-4.9-llvm-libc++-android-21-arch-arm-Linux.tar.gz"]),
           (prune_and_pack Scenario.targz "Linux" Scenario.clang_args
              (layout_of ["w"] (Some "r16b")) Scenario.unpacked).2)) as H5.
  { apply run_eta. vm_compute. reflexivity. }
  split; [exact H1|]. split.
  { exact (proj1 (clang_toolchain_rewritten Scenario.targz "Linux"
                    Scenario.clang_args (layout_of ["w"] (Some "r16b"))
                    Scenario.unpacked) H1). }
  split; [exact H2|]. split.
  { exact (proj1 (proj2 (clang_toolchain_rewritten Scenario.targz "Linux"
                           Scenario.gcc_args (layout_of ["w"] (Some "r16b"))
                           Scenario.unpacked)) H2). }
  split; [exact H3|]. split; [exact H4|]. split.
  { exact (proj1 (proj2 (proj2 (clang_toolchain_rewritten Scenario.targz "Linux"
                                  Scenario.mips_args (layout_of ["w"] (Some "r16b"))
                                  Scenario.unpacked))) H3 H4). }
  split; [exact H5|].
  exact (proj2 (proj2 (proj2 (clang_toolchain_rewritten Scenario.targz "Linux"
                                Scenario.clang_args (layout_of ["w"] (Some "r16b"))
                                Scenario.unpacked))) "r16b" _ _ _ eq_refl H5).
Defined.

(** C10, on the small kit on a Darwin host. *)
Lemma darwin_refuses_r16b_witness :
  ndk_version Scenario.clang_args = Some "r16b" ∧
  check_required Scenario.clang_args Scenario.start = (Ret tt, Scenario.start) ∧
  prepare_dirs (layout_of (w_cwd Scenario.start) (Some "r16b")) Scenario.start =
  (Ret tt,
   (prepare_dirs (layout_of (w_cwd Scenario.start) (Some "r16b")) Scenario.start).2) ∧
  main Scenario.sha1 Scenario.http Scenario.tools Scenario.targz "Darwin"
    Scenario.clang_args Scenario.start =
  (Exit (Msg "Unknown NDK version" []),
   (prepare_dirs (layout_of (w_cwd Scenario.start) (Some "r16b")) Scenario.start).2) ∧
  requests_of
    (w_trace (main Scenario.sha1 Scenario.http Scenario.tools Scenario.targz "Darwin"
                Scenario.clang_args Scenario.start).2)
  = requests_of (w_trace Scenario.start).
Proof.
  assert (ndk_version Scenario.clang_args = Some "r16b") as Hv by reflexivity.
  assert (check_required Scenario.clang_args Scenario.start = (Ret tt, Scenario.start))
    as Hreq by reflexivity.
  assert (prepare_dirs (layout_of (w_cwd Scenario.start) (Some "r16b")) Scenario.start =
          (Ret tt,
           (prepare_dirs (layout_of (w_cwd Scenario.start) (Some "r16b"))
              Scenario.start).2)) as Hprep.
  { apply run_eta. vm_compute. reflexivity. }
  pose proof (proj2 (proj2 (proj2
    (darwin_refuses_r16b Scenario.sha1 Scenario.http Scenario.tools Scenario.targz
       Scenario.clang_args Scenario.start))) Hv) as (_ & _ & Hsilent & Hexit).
  split; [exact Hv|]. split; [exact Hreq|]. split; [exact Hprep|].
  split; [exact (Hexit _ Hreq Hprep)|exact Hsilent].
Defined.

(** * Further properties *)

(** ** Traces *)

Lemma tools_of_app t1 t2 : tools_of (t1 ++ t2) = tools_of t1 ++ tools_of t2.
Proof. apply omap_app. Qed.

Lemma sleeps_of_app t1 t2 : sleeps_of (t1 ++ t2) = sleeps_of t1 ++ sleeps_of t2.
Proof. apply omap_app. Qed.

Lemma emits_ret {A} P (a : A) : emits P (ret a).
Proof. intros w. exists []. by rewrite app_nil_r. Qed.

Lemma emits_bind {A B} P (c : M A) (k : A → M B) :
  emits P c → (∀ a, emits P (k a)) → emits P (bind c k).
Proof.
  intros Hc Hk w. unfold bind. destruct (Hc w) as (t & Ht & HP).
  destruct (c w) as [[a| |] w1]; simpl in *; [|by eauto|by eauto].
  destruct (Hk a w1) as (t' & Ht' & HP'). exists (t ++ t').
  rewrite Ht', Ht, app_assoc. split; [done|]. by apply Forall_app.
Qed.

Lemma emits_emit P e : P e → emits P (emit e).
Proof. intros He w. exists [e]. simpl. split; [done|]. by constructor. Qed.

Lemma emits_print P template args :
  P (Print (Msg template args)) → emits P (print template args).
Proof. apply emits_emit. Qed.

Lemma emits_still {A} P (c : M A) : (∀ w, w_trace (c w).2 = w_trace w) → emits P c.
Proof. intros H w. exists []. by rewrite app_nil_r. Qed.

Lemma emits_when P b c : emits P c → emits P (when b c).
Proof. destruct b; [done|]. intros _. apply emits_ret. Qed.

Lemma emits_for_each {A S} P (body : A → S → M S) xs s :
  (∀ x s, emits P (body x s)) → emits P (for_each body xs s).
Proof.
  intros Hb. revert s. induction xs as [|x xs IH]; intros s; simpl.
  - apply emits_ret.
  - apply emits_bind; [apply Hb|intros s'; apply IH].
Qed.

Lemma emits_try_except {A} P (c : M A) (h : exn → M A) :
  emits P c → (∀ e, emits P (h e)) → emits P (try_except c h).
Proof.
  intros Hc Hh w. unfold try_except. destruct (Hc w) as (t & Ht & HP).
  destruct (c w) as [[a| |e] w1]; simpl in *; [by eauto|by eauto|].
  destruct (Hh e w1) as (t' & Ht' & HP'). exists (t ++ t').
  rewrite Ht', Ht, app_assoc. split; [done|]. by apply Forall_app.
Qed.

Lemma emits_read_bytes P p : emits P (read_bytes p).
Proof. apply emits_still. intros w. unfold read_bytes. run. by repeat case_match. Qed.

Lemma emits_write_bytes P p data : emits P (write_bytes p data).
Proof. apply emits_still. intros w. unfold write_bytes. run. by repeat case_match. Qed.

Lemma emits_os_path_exists P p : emits P (os_path_exists p).
Proof. by apply emits_still. Qed.

Lemma emits_os_path_isdir P p : emits P (os_path_isdir p).
Proof. by apply emits_still. Qed.

Lemma emits_os_listdir P p : emits P (os_listdir p).
Proof. apply emits_still. intros w. run. by repeat case_match. Qed.

Lemma emits_shutil_rmtree P p : emits P (shutil_rmtree p).
Proof. apply emits_still. intros w. run. by repeat case_match. Qed.

Lemma emits_os_remove P p : emits P (os_remove p).
Proof. apply emits_still. intros w. run. by repeat case_match. Qed.

Lemma emits_sys_exit {A} P template args : emits P (@sys_exit A template args).
Proof. by apply emits_still. Qed.

Lemma emits_raise {A} P e : emits P (@raise A e).
Proof. by apply emits_still. Qed.

Lemma tools_of_no_tool t : Forall no_tool t → tools_of t = [].
Proof.
  induction 1 as [|e t He _ IH]; [done|]. unfold tools_of in *. simpl.
  destruct e; simpl in *; done.
Qed.

(** ** The download, attempt by attempt *)

Lemma append_nil_r (s : string) : s +:+ "" = s.
Proof.
  induction s as [|c s IH]; [done|]. change (String c (s +:+ "") = String c s).
  by f_equal.
Qed.

Section Attempts.

Variable sha1_hexdigest : string → string.
Variable http_get : string → nat → response.

(** The chunks of a body are appended to the file one after the other. *)
Lemma append_chunks p chunks w acc :
  w_fs w !! p = Some (File acc) → w_fs w !! FS.parent p = Some Dir →
  ∃ w', for_each (λ chunk _, when (nonempty chunk) (append_bytes p chunk)) chunks tt w
        = (Ret tt, w') ∧
        w_trace w' = w_trace w ∧
        w_fs w' !! p = Some (File (acc +:+ joined chunks)).
Proof.
  revert w acc. induction chunks as [|chunk chunks IH]; intros w acc Hp Hd.
  - exists w. simpl. by rewrite append_nil_r.
  - assert (p ≠ FS.parent p) as Hne by (intros Heq; rewrite <- Heq in Hd; congruence).
    simpl for_each. unfold bind at 1. destruct chunk as [|c chunk]; simpl when.
    + change (ret () w) with (Ret tt, w). cbv beta iota.
      destruct (IH w acc Hp Hd) as (w' & Hrun & Ht & Hf). exists w'.
      split; [exact Hrun|]. split; [done|]. exact Hf.
    + unfold append_bytes, read_bytes, write_bytes. run. rewrite Hp. simpl.
      rewrite Hp, Hd. simpl.
      destruct (IH (World (<[p:=File (acc +:+ String c chunk)]> (w_fs w)) (w_cwd w)
                      (w_trace w)) (acc +:+ String c chunk)) as (w' & Hrun & Ht & Hf).
      { simpl. apply lookup_insert_eq. }
      { simpl. by rewrite lookup_insert_ne. }
      exists w'. split; [exact Hrun|]. split; [done|].
      rewrite Hf. simpl joined. by rewrite append_assoc.
Qed.

(** One attempt sends one request and never calls [sys.exit]; when it
    returns, the whole body is in the file. *)
Lemma write_bytes_cases p data w :
  (write_bytes p data w =
     (Ret tt, World (<[p:=File data]> (w_fs w)) (w_cwd w) (w_trace w)) ∧
   w_fs w !! FS.parent p = Some Dir ∧ p ≠ FS.parent p) ∨
  (∃ e, write_bytes p data w = (Raise e, w)).
Proof.
  unfold write_bytes. run.
  destruct (w_fs w !! p) as [[d|]|] eqn:Hp; simpl;
    destruct (w_fs w !! FS.parent p) as [[pd|]|] eqn:Hd; simpl; eauto;
    left; split_and!; try done; intros Heq; rewrite <- Heq in Hd; congruence.
Qed.

(** One attempt sends one request and never calls [sys.exit]; when it
    returns, the whole body is in the file. *)
Lemma real_file_download_once_spec url p w :
  ∃ o w1 m,
    real_file_download_once http_get url p w = (o, w1) ∧
    w_trace w1 = w_trace w ++ [Print m; HttpGet url] ∧
    (∀ msg, o ≠ Exit msg) ∧
    (∀ u, o = Ret u →
       ∃ chunks,
         http_get url (length (requests_of (w_trace w))) = Body chunks false ∧
         w_fs w1 !! p = Some (File (joined chunks))).
Proof.
  unfold real_file_download_once, requests_get, bind at 1 2, print, emit.
  cbv beta iota zeta. simpl w_trace. simpl w_fs. simpl w_cwd.
  rewrite <- app_assoc. simpl app at 2.
  rewrite requests_of_app. simpl requests_of at 2. rewrite app_nil_r.
  destruct (http_get url _) as [| |chunks broken] eqn:Hget.
  - do 3 eexists. split_and!; try done.
  - do 3 eexists. split_and!; try done.
  - unfold bind.
    match goal with |- context [write_bytes p "" ?w0] =>
      destruct (write_bytes_cases p "" w0) as [(-> & Hd & Hne)|[e ->]]
    end.
    + match goal with |- context [for_each _ chunks tt ?w0] =>
        destruct (append_chunks p chunks w0 "") as (w' & -> & Ht & Hf)
      end.
      { simpl. apply lookup_insert_eq. }
      { simpl. by rewrite lookup_insert_ne. }
      destruct broken; simpl.
      * do 3 eexists. split_and!; try done.
      * do 3 eexists. split_and!; try done. intros _ _. eauto.
    + do 3 eexists. split_and!; try done.
Qed.

Lemma real_file_download_from_spec max_retry url p left i w :
  ∃ o w' k,
    real_file_download_from http_get max_retry i left url p w = (o, w') ∧
    (k ≤ left)%nat ∧
    requests_of (w_trace w') = requests_of (w_trace w) ++ replicate k url ∧
    tools_of (w_trace w') = tools_of (w_trace w) ∧
    ((o = Ret tt ∧ (1 ≤ k)%nat ∧
      sleeps_of (w_trace w') = sleeps_of (w_trace w) ++ replicate (k - 1) 60%nat ∧
      ∃ chunks,
        http_get url (length (requests_of (w_trace w)) + k - 1)%nat
        = Body chunks false ∧
        w_fs w' !! p = Some (File (joined chunks))) ∨
     (o = Exit (Msg "Download failed" []) ∧ k = left ∧
      sleeps_of (w_trace w') = sleeps_of (w_trace w) ++ replicate left 60%nat)).
Proof.
  revert i w. induction left as [|left IH]; intros i w.
  { exists (Exit (Msg "Download failed" [])), w, 0%nat. simpl.
    rewrite !app_nil_r. split_and!; try done. right. by split_and!. }
  simpl real_file_download_from. unfold try_except, bind at 1.
  destruct (real_file_download_once_spec url p w) as (o1 & w1 & m & Hrun & Ht & Hne & Hok).
  rewrite Hrun. destruct o1 as [u|msg|e].
  - destruct (Hok u eq_refl) as (chunks & Hget & Hf).
    exists (Ret tt), (World (w_fs w1) (w_cwd w1)
                        (w_trace w1 ++ [Print (Msg "Done" [])])), 1%nat.
    simpl. rewrite Ht. rewrite !requests_of_app, !tools_of_app, !sleeps_of_app.
    simpl. rewrite !app_nil_r. split_and!; try done; [lia|].
    left. split_and!; try done.
    exists chunks. split; [|done]. rewrite <- Hget. f_equal. lia.
  - by destruct (Hne msg).
  - unfold bind at 1 2, print, emit. cbv beta iota zeta. simpl w_fs. simpl w_cwd.
    simpl w_trace.
    match goal with |- context [real_file_download_from _ _ _ _ _ _ ?w0] =>
      destruct (IH (S i) w0) as (o & w' & k & -> & Hk & Hr & Htl & Hcases)
    end.
    simpl in Hr, Htl, Hcases. rewrite Ht in Hr, Htl, Hcases.
    rewrite !requests_of_app, !tools_of_app in *. rewrite !sleeps_of_app in Hcases.
    simpl in Hr, Htl, Hcases. rewrite !app_nil_r in *.
    exists o, w', (S k). split_and!; try done; [lia| |].
    { rewrite Hr, <- app_assoc. done. }
    destruct Hcases as [(-> & Hk1 & Hs & chunks & Hget & Hf)|(-> & -> & Hs)].
    + left. split_and!; try done; [lia| |].
      * rewrite Hs, <- !app_assoc. simpl. f_equal.
        destruct k as [|k]; [lia|]. simpl. by rewrite Nat.sub_0_r.
      * exists chunks. split; [|done]. rewrite <- Hget. f_equal.
        rewrite length_app. simpl. lia.
    + right. split_and!; try done. rewrite Hs, <- !app_assoc. done.
Qed.

(** X1.  The download makes at most three attempts and lets no exception
    out: it returns, or it exits with ['Download failed'] after exactly three
    requests.  It pauses for a minute after every failed attempt, the last
    one too.  No extraction is run. *)
Theorem real_file_download_bounded (url : string) (p : path) (w : world) :
  ∃ k,
    (k ≤ 3)%nat ∧
    requests_of (w_trace (real_file_download http_get url p w).2)
    = requests_of (w_trace w) ++ replicate k url ∧
    tools_of (w_trace (real_file_download http_get url p w).2) = tools_of (w_trace w) ∧
    (((real_file_download http_get url p w).1 = Ret tt ∧ (1 ≤ k)%nat ∧
      sleeps_of (w_trace (real_file_download http_get url p w).2)
      = sleeps_of (w_trace w) ++ replicate (k - 1) 60%nat) ∨
     ((real_file_download http_get url p w).1 = Exit (Msg "Download failed" []) ∧
      k = 3%nat ∧
      sleeps_of (w_trace (real_file_download http_get url p w).2)
      = sleeps_of (w_trace w) ++ [60; 60; 60]%nat)).
Proof.
  unfold real_file_download.
  destruct (real_file_download_from_spec 3 url p 3 0 w)
    as (o & w' & k & -> & Hk & Hr & Htl & Hc).
  exists k. simpl. split_and!; try done.
  destruct Hc as [(-> & ? & ? & _)|(-> & -> & ?)]; [left|right]; by split_and!.
Qed.

(** X2.  When the download returns, the file holds the body of the answer
    to the last request, all its chunks in order, and that answer was
    complete; the earlier answers are overwritten. *)
Theorem real_file_download_content (url : string) (p : path) (w w' : world) :
  real_file_download http_get url p w = (Ret tt, w') →
  ∃ k chunks,
    (1 ≤ k ≤ 3)%nat ∧
    requests_of (w_trace w') = requests_of (w_trace w) ++ replicate k url ∧
    http_get url (length (requests_of (w_trace w)) + k - 1)%nat = Body chunks false ∧
    w_fs w' !! p = Some (File (joined chunks)).
Proof.
  unfold real_file_download. intros Hrun.
  destruct (real_file_download_from_spec 3 url p 3 0 w)
    as (o & w1 & k & Hrun' & Hk & Hr & Htl & Hc).
  rewrite Hrun in Hrun'. injection Hrun' as <- <-.
  destruct Hc as [(_ & Hk1 & _ & chunks & Hget & Hf)|(? & _)]; [|done].
  exists k, chunks. split_and!; try done.
Qed.

(** How [download] can end. *)
Lemma download_outcomes url sha1 p w o w' :
  download sha1_hexdigest http_get url sha1 p w = (o, w') →
  o = Ret tt ∨ o = Exit (Msg "Download failed" []) ∨
  o = Raise AssertionError ∨ o = Raise (IsADirectoryError p).
Proof.
  assert (∀ w0, ∃ b w1,
            hash_match sha1_hexdigest sha1 p w0 = (Ret b, w1) ∨
            hash_match sha1_hexdigest sha1 p w0 = (Raise (IsADirectoryError p), w1))
    as Hhash.
  { intros w0. unfold hash_match, read_bytes. run.
    case_bool_decide as Hex; simpl; [|eauto].
    destruct (w_fs w0 !! p) as [[data|]|] eqn:Hp; simpl; rewrite ?Hp; simpl.
    - case_bool_decide; simpl; eauto.
    - exists true. eauto.
    - by destruct Hex. }
  unfold download, bind at 1.
  destruct (Hhash w) as (b & w1 & [->| ->]); [|intros [= <- <-]; by do 3 right].
  destruct b.
  { unfold print, emit. intros [= <- <-]. by left. }
  unfold bind at 1.
  destruct (real_file_download_from_spec 3 url p 3 0 w1)
    as (o2 & w2 & k & Hrun & _ & _ & _ & Hc).
  unfold real_file_download. rewrite Hrun.
  destruct Hc as [(-> & _)|(-> & _)]; [|intros [= <- <-]; by right; left].
  unfold bind. destruct (Hhash w2) as (b & w3 & [->| ->]);
    [|intros [= <- <-]; by do 3 right].
  destruct b; simpl; intros [= <- <-]; auto.
Qed.

(** X3.  [download] returns only with a local file whose SHA-1 is the
    expected one.  Otherwise it ends in one of three ways: the exit
    ['Download failed'], the failed assertion when the bytes received have
    another checksum (no further attempt is made), or the error of reading
    a directory that is in the place of the file. *)
Theorem download_verifies (url sha1 : string) (p : path) (w : world) :
  ((download sha1_hexdigest http_get url sha1 p w).1 = Ret tt ∧
   ∃ data,
     w_fs (download sha1_hexdigest http_get url sha1 p w).2 !! p = Some (File data) ∧
     sha1_hexdigest data = sha1) ∨
  (download sha1_hexdigest http_get url sha1 p w).1 = Exit (Msg "Download failed" []) ∨
  (download sha1_hexdigest http_get url sha1 p w).1 = Raise AssertionError ∨
  (download sha1_hexdigest http_get url sha1 p w).1 = Raise (IsADirectoryError p).
Proof.
  destruct (download sha1_hexdigest http_get url sha1 p w) as [o w'] eqn:Hrun.
  simpl.
  destruct (download_outcomes url sha1 p w o w' Hrun) as [->|Hfail]; [left|by right].
  split; [done|]. by eapply download_Ret_inv.
Qed.

Ltac emits_auto :=
  repeat first
    [ apply emits_ret
    | apply emits_print; exact I
    | apply emits_emit; exact I
    | apply emits_sys_exit
    | apply emits_raise
    | apply emits_os_path_exists
    | apply emits_os_path_isdir
    | apply emits_os_listdir
    | apply emits_read_bytes
    | apply emits_write_bytes
    | apply emits_shutil_rmtree
    | apply emits_os_remove
    | apply emits_when
    | apply emits_for_each; intros ? ?
    | apply emits_bind; [|intros ?]
    | match goal with
      | |- emits _ (if ?b then _ else _) => destruct b
      | |- emits _ (match ?x with _ => _ end) => destruct x
      end ].

Lemma emits_tools {A} P (c : M A) w :
  emits P c → (∀ e, P e → no_tool e) →
  tools_of (w_trace (c w).2) = tools_of (w_trace w).
Proof.
  intros Hc HP. destruct (Hc w) as (t & -> & Ht).
  rewrite tools_of_app. rewrite (tools_of_no_tool t); [apply app_nil_r|].
  eapply Forall_impl; [exact Ht|exact HP].
Qed.

Lemma emits_hash_match sha1 p : emits is_print (hash_match sha1_hexdigest sha1 p).
Proof. unfold hash_match. emits_auto. Qed.

Lemma download_no_tools url sha1 p w :
  tools_of (w_trace (download sha1_hexdigest http_get url sha1 p w).2)
  = tools_of (w_trace w).
Proof.
  assert (∀ w0, tools_of (w_trace (hash_match sha1_hexdigest sha1 p w0).2)
                = tools_of (w_trace w0)) as Hhash.
  { intros w0. eapply emits_tools; [apply emits_hash_match|by intros []]. }
  unfold download, bind at 1. specialize (Hhash w) as Hw.
  destruct (hash_match sha1_hexdigest sha1 p w) as [[[|]| |] w1]; simpl in Hw;
    try done.
  - simpl. rewrite tools_of_app, Hw. simpl. apply app_nil_r.
  - unfold bind at 1, real_file_download.
    destruct (real_file_download_from_spec 3 url p 3 0 w1)
      as (o2 & w2 & k & -> & _ & _ & Ht & _).
    destruct o2 as [[]| |]; simpl; try congruence.
    unfold bind. specialize (Hhash w2) as Hw2.
    destruct (hash_match sha1_hexdigest sha1 p w2) as [[[|]| |] w3]; simpl in *;
      congruence.
Qed.

End Attempts.

Section Fetch.

Variable sha1_hexdigest : string → string.
Variable http_get : string → nat → response.
Variable run_tool : tool → path → gmap path node → option (gmap path node).

(** X4.  Nothing is extracted from an archive that was not verified: when
    [FileToDownload] has run an extraction, whatever its outcome, the
    download had returned, and the local file had the expected SHA-1. *)
Theorem extraction_only_after_verification (url sha1 : string)
    (local_path unpack_dir android_archive_local : path) (w : world) :
  tools_of
    (w_trace (FileToDownload sha1_hexdigest http_get run_tool url sha1 local_path
                unpack_dir android_archive_local w).2)
  ≠ tools_of (w_trace w) →
  ∃ w1 data,
    download sha1_hexdigest http_get url sha1 local_path w = (Ret tt, w1) ∧
    w_fs w1 !! local_path = Some (File data) ∧
    sha1_hexdigest data = sha1.
Proof.
  unfold FileToDownload, bind.
  pose proof (download_no_tools sha1_hexdigest http_get url sha1 local_path w) as Hno.
  destruct (download sha1_hexdigest http_get url sha1 local_path w)
    as [[[]| |] w1] eqn:Hrun; simpl in Hno; intros Hran; try done.
  destruct (download_Ret_inv _ _ _ _ _ _ _ Hrun) as (data & Hp & Hs). eauto.
Qed.

(** The download locations of the two tables. *)
Lemma known_url ndk_version url sha1 :
  get_darwin_info ndk_version = Ret (url, sha1) ∨
  get_linux_info ndk_version = Ret (url, sha1) →
  Py.endswith url ".tar.gz" = false ∧
  Py.endswith url ("." +:+ archive_suffix ndk_version) = true.
Proof.
  unfold get_darwin_info, get_linux_info, archive_suffix.
  intros [H|H]; revert H;
    repeat (case_bool_decide; [subst ndk_version; intros [= <- <-]; by vm_compute|]);
    done.
Qed.

Lemma info_not_ret ndk_version (o : outcome (string * string)) :
  o = get_darwin_info ndk_version ∨ o = get_linux_info ndk_version →
  (∃ url sha1, o = Ret (url, sha1)) ∨ o = Exit (Msg "Unknown NDK version" []).
Proof.
  unfold get_darwin_info, get_linux_info.
  intros [->| ->]; repeat (case_bool_decide; [left; by do 2 eexists|]); by right.
Qed.

Lemma unpack_known_format url local_path unpack_dir android_archive_local w :
  Py.endswith url ".tar.gz" = true ∨ Py.endswith url ".zip" = true ∨
  Py.endswith url ".bin" = true →
  ∀ m, (unpack run_tool url local_path unpack_dir android_archive_local w).1 ≠ Exit m.
Proof.
  intros Hfmt m. unfold unpack, run, make_executable, os_chdir, os_getcwd. run.
  destruct (w_fs w !! unpack_dir) as [[|]|]; simpl; try done.
  destruct (Py.endswith url ".tar.gz"); simpl.
  { destruct (run_tool _ _ _); simpl; [|done]. by repeat case_match. }
  destruct (Py.endswith url ".zip"); simpl.
  { destruct (run_tool _ _ _); simpl; [|done]. by repeat case_match. }
  destruct (Py.endswith url ".bin"); simpl; [|by destruct Hfmt as [?|[?|?]]].
  case_bool_decide; simpl; [|done].
  destruct (run_tool _ _ _); simpl; [|done]. by repeat case_match.
Qed.

(** X5.  The archives of the two download tables are all of a format that
    [unpack] handles, and their extension is the one given to the local
    file: whatever the version and the platform, fetching never ends with
    ['Unknown archive format']. *)
Theorem fetch_known_format (platform_system : string) (a : args) (L : layout)
    (w : world) :
  (∀ url sha1,
     get_darwin_info (ndk_version a) = Ret (url, sha1) ∨
     get_linux_info (ndk_version a) = Ret (url, sha1) →
     Py.endswith url ("." +:+ archive_suffix (ndk_version a)) = true) ∧
  (fetch sha1_hexdigest http_get run_tool platform_system a L w).1
  ≠ Exit (Msg "Unknown archive format" []).
Proof.
  split; [intros url sha1 H; by apply known_url in H as [_ ?]|].
  assert (∀ url sha1,
            get_darwin_info (ndk_version a) = Ret (url, sha1) ∨
            get_linux_info (ndk_version a) = Ret (url, sha1) →
            (FileToDownload sha1_hexdigest http_get run_tool url sha1
               (android_archive_local L) (unpack_dir L) (android_archive_local L) w).1
            ≠ Exit (Msg "Unknown archive format" [])) as Hfile.
  { intros url sha1 Hinfo. unfold FileToDownload, bind.
    destruct (download _ _ url sha1 _ w) as [o w1] eqn:Hd.
    destruct (download_outcomes _ _ _ _ _ _ _ _ Hd) as [->|[->|[->| ->]]];
      simpl; try done.
    apply unpack_known_format.
    destruct (known_url _ _ _ Hinfo) as [_ Hext]. unfold archive_suffix in Hext.
    case_bool_decide; auto. }
  unfold fetch.
  case_bool_decide; [|case_bool_decide; [|done]]; unfold bind, lift.
  - destruct (info_not_ret (ndk_version a) (get_darwin_info (ndk_version a)))
      as [(url & sha1 & Hi)| Hi]; [by left| |]; rewrite Hi; simpl; [|done].
    apply Hfile. by left.
  - destruct (info_not_ret (ndk_version a) (get_linux_info (ndk_version a)))
      as [(url & sha1 & Hi)| Hi]; [by right| |]; rewrite Hi; simpl; [|done].
    apply Hfile. by right.
Qed.

End Fetch.

(** ** The command line and the start of the run *)

Section Start.

Variable sha1_hexdigest : string → string.
Variable http_get : string → nat → response.
Variable run_tool : tool → path → gmap path node → option (gmap path node).
Variable tar_gz : string → gmap path node → string.
Variable platform_system : string.

(** X6.  The arguments are checked before anything is done: a version
    outside the choices, or an empty required flag, ends the run with the
    world as it was, no directory created or wiped and nothing printed.
    The flags are reported in the order toolchain, stl, API level,
    architecture. *)
Theorem invalid_arguments_exit_first (a : args) (w : world) :
  (∀ v, ndk_version a = Some v → v ∉ ndk_choices →
     main sha1_hexdigest http_get run_tool tar_gz platform_system a w =
     (Exit (Msg "argument --ndk-version: invalid choice: {} (choose from {})"
              [FStr v; FList ndk_choices]), w)) ∧
  ((∀ v, ndk_version a = Some v → v ∈ ndk_choices) →
   (toolchain a = "" →
      main sha1_hexdigest http_get run_tool tar_gz platform_system a w =
      (Exit (Msg "--toolchain is required" []), w)) ∧
   (toolchain a ≠ "" → stl a = "" →
      main sha1_hexdigest http_get run_tool tar_gz platform_system a w =
      (Exit (Msg "--stl is required" []), w)) ∧
   (toolchain a ≠ "" → stl a ≠ "" → api_level a = "" →
      main sha1_hexdigest http_get run_tool tar_gz platform_system a w =
      (Exit (Msg "--api-level is required" []), w)) ∧
   (toolchain a ≠ "" → stl a ≠ "" → api_level a ≠ "" → arch_name a = "" →
      main sha1_hexdigest http_get run_tool tar_gz platform_system a w =
      (Exit (Msg "--arch-name is required" []), w))).
Proof.
  assert (∀ s, s ≠ "" → nonempty s = true) as Hne by (by intros []).
  split.
  - intros v Hv Hout. unfold main, bind, parse_args. rewrite Hv.
    by rewrite (bool_decide_false _ Hout).
  - intros Hin.
    assert (parse_args a w = (Ret tt, w)) as Hparse.
    { unfold parse_args. destruct (ndk_version a) as [v|]; [|done].
      by rewrite (bool_decide_true _ (Hin v eq_refl)). }
    assert (∀ m, check_required a w = (Exit m, w) →
                 main sha1_hexdigest http_get run_tool tar_gz platform_system a w
                 = (Exit m, w)) as Hmain.
    { intros m Hc. unfold main, bind. by rewrite Hparse, Hc. }
    split_and!.
    + intros H0. apply Hmain. unfold check_required, bind. by rewrite H0.
    + intros H1 H0. apply Hmain. unfold check_required, bind.
      by rewrite (Hne _ H1), H0.
    + intros H1 H2 H0. apply Hmain. unfold check_required, bind.
      by rewrite (Hne _ H1), (Hne _ H2), H0.
    + intros H1 H2 H3 H0. apply Hmain. unfold check_required, bind.
      by rewrite (Hne _ H1), (Hne _ H2), (Hne _ H3), H0.
Qed.

(** X7.  What a successful run presupposes: the four required flags are not
    empty, the version is one of the choices, the host is Darwin or Linux,
    and not Darwin with [r16b]. *)
Theorem success_presupposes (a : args) (w : world) (r : string * path)
    (w' : world) :
  main sha1_hexdigest http_get run_tool tar_gz platform_system a w = (Ret r, w') →
  toolchain a ≠ "" ∧ stl a ≠ "" ∧ api_level a ≠ "" ∧ arch_name a ≠ "" ∧
  (∃ version, ndk_version a = Some version ∧ version ∈ ndk_choices) ∧
  (platform_system = "Linux" ∨
   (platform_system = "Darwin" ∧ ndk_version a ≠ Some "r16b")).
Proof.
  unfold main. intros H.
  apply bind_Ret_inv in H as ([] & w1 & [-> _]%parse_args_Ret_inv & H).
  apply bind_Ret_inv in H as ([] & w2 & Hreq & H).
  apply bind_Ret_inv in H as (top & w3 & _ & H).
  apply bind_Ret_inv in H as ([] & w4 & _ & H).
  apply bind_Ret_inv in H as ([] & w5 & Hfetch & _).
  assert (∀ s, nonempty s = true → s ≠ "") as Hne by (by intros []).
  unfold check_required in Hreq. bind_inv Hreq.
  apply when_exit_Ret_inv in Hc as [?%negb_false_iff%Hne _].
  apply when_exit_Ret_inv in Hc0 as [?%negb_false_iff%Hne _].
  apply when_exit_Ret_inv in Hc1 as [?%negb_false_iff%Hne _].
  apply when_exit_Ret_inv in Hreq as [?%negb_false_iff%Hne _].
  split_and!; try done.
  - by eapply fetch_Ret_inv.
  - unfold fetch in Hfetch.
    case_bool_decide as Hd; [right|case_bool_decide; [by left|done]].
    split; [done|]. intros Hv. rewrite Hv in Hfetch.
    by apply bind_Ret_inv in Hfetch as (? & ? & [? _]%lift_Ret_inv & _).
Qed.

End Start.

(** ** The GNU sub-prune *)

(** X8.  A missing compiler version ends the GNU sub-prune before anything
    is touched.  A missing ABI is found only after the other compiler
    versions are deleted: the run ends with ['Expected --abi-name'] in the
    world that the prune of the versions has left. *)
Theorem prune_gnu_missing_selectors (a : args) (stl_dir : path) (name : string)
    (w : world) :
  (compiler_version a = None ∨ compiler_version a = Some "" →
   prune_gnu a stl_dir name w = (Exit (Msg "Expected --compiler-version" []), w)) ∧
  (∀ gcc_version versions_list w1 w2,
     compiler_version a = Some gcc_version → gcc_version ≠ "" →
     abi_name a = None ∨ abi_name a = Some "" →
     check_version stl_dir gcc_version w = (Ret versions_list, w1) →
     prune_versions stl_dir gcc_version versions_list w1 = (Ret tt, w2) →
     prune_gnu a stl_dir name w = (Exit (Msg "Expected --abi-name" []), w2)).
Proof.
  split.
  - unfold prune_gnu. by intros [->| ->].
  - intros gcc versions_list w1 w2 Hcv Hne Habi Hcheck Hprune.
    unfold prune_gnu. rewrite Hcv. destruct gcc as [|c gcc]; [done|].
    unfold bind. rewrite Hcheck, Hprune. by destruct Habi as [->| ->].
Qed.

(** ** Replacing where nothing is to replace *)

Lemma replace_go_absent (old new s : string) :
  Py.occurs old s = false → Py.replace_go old new 0 s = s.
Proof.
  induction s as [|c s IH]; [done|]. rewrite occurs_cons.
  intros [Hs Ho]%orb_false_iff. simpl. rewrite Hs. f_equal. by apply IH.
Qed.

(** X9.  [str.replace] leaves a string without the pattern as it is; so a
    toolchain name without ['-clang'] is used as given, also under
    [--compiler-version clang]. *)
Theorem toolchain_without_clang_kept (a : args) :
  (∀ s old new, Py.occurs old s = false → Py.replace s old new = s) ∧
  (Py.occurs "-clang" (toolchain a) = false → selected_toolchain a = toolchain a).
Proof.
  assert (∀ s old new, Py.occurs old s = false → Py.replace s old new = s) as Hid.
  { intros s old new Ho. unfold Py.replace. destruct old as [|c old].
    - destruct s; discriminate Ho.
    - by apply replace_go_absent. }
  split; [exact Hid|]. intros Ho. unfold selected_toolchain.
  case_bool_decide; [by apply Hid|done].
Qed.

(** ** Reporting sizes *)

(** X10.  Reporting a size never fails and changes nothing: a plain file is
    reported with its length, and a path that does not exist is reported as
    ['0.00 B'] instead of an error. *)
Theorem size_report_total (p : path) (w : world) :
  ∃ s,
    object_printable_size p w = (Ret s, w) ∧
    (w_fs w !! p = None → s = "0.00 B") ∧
    (∀ data, w_fs w !! p = Some (File data) →
       s = printable_size (N.of_nat (String.length data))).
Proof.
  unfold object_printable_size, get_object_size, os_path_isfile, os_path_getsize,
    get_directory_size. run.
  destruct (w_fs w !! p) as [[data|]|] eqn:Hp; simpl; rewrite ?Hp; simpl;
    eexists; split_and!; try done.
  by intros ? [= ->].
Qed.

Lemma div_half_even_bounds (a b : N) :
  b ≠ 0 →
  a / b ≤ div_half_even a b ≤ a / b + 1 ∧
  2 * (div_half_even a b * b - a) ≤ b ∧ 2 * (a - div_half_even a b * b) ≤ b.
Proof.
  intros Hb. unfold div_half_even.
  pose proof (N.div_mod a b Hb) as Hdm. pose proof (N.mod_lt a b Hb) as Hlt.
  set (q := a / b) in *. set (r := a mod b) in *.
  destruct (N.ltb_spec (2 * r) b); [nia|].
  destruct (N.ltb_spec b (2 * r)); [nia|].
  destruct (N.even q); nia.
Qed.

(** X11.  The number printed is the nearest hundredth of the size in its
    unit (below 2^53 bytes), and with the units ['KB'] and ['MB'] it lies
    between 1.00 and 1024.00, both included. *)
Theorem printed_number_bounds (size : N) :
  (1024 ≤ size < 1024 ^ 2 →
   100 ≤ hundredths (human_readable_size size).1 ≤ 102400 ∧
   2 * (hundredths (human_readable_size size).1 * 1024 - 100 * size) ≤ 1024 ∧
   2 * (100 * size - hundredths (human_readable_size size).1 * 1024) ≤ 1024) ∧
  (1024 ^ 2 ≤ size < 1024 ^ 3 →
   100 ≤ hundredths (human_readable_size size).1 ≤ 102400 ∧
   2 * (hundredths (human_readable_size size).1 * 1024 ^ 2 - 100 * size) ≤ 1024 ^ 2 ∧
   2 * (100 * size - hundredths (human_readable_size size).1 * 1024 ^ 2) ≤ 1024 ^ 2).
Proof.
  assert (1024 ^ 2 = 1048576) as E2 by reflexivity.
  assert (1024 ^ 3 = 1073741824) as E3 by reflexivity.
  assert (2 ^ 53 = 9007199254740992) as E53 by reflexivity.
  split; intros H; unfold human_readable_size.
  - destruct (N.ltb_spec size 1024); [lia|].
    destruct (N.ltb_spec size (1024 * 1024)); [|lia].
    unfold truediv_pow2, hundredths. simpl fst. rewrite round53_small by lia.
    change (2 ^ 10) with 1024.
    destruct (div_half_even_bounds (100 * size) 1024) as ([Hl Hu] & Hn1 & Hn2); [lia|].
    assert (100 ≤ 100 * size / 1024) by (apply N.div_le_lower_bound; lia).
    assert (100 * size / 1024 < 102400) by (apply N.Div0.div_lt_upper_bound; lia).
    split_and!; lia.
  - destruct (N.ltb_spec size 1024); [lia|].
    destruct (N.ltb_spec size (1024 * 1024)); [lia|].
    destruct (N.ltb_spec size (1024 * (1024 * 1024))); [|lia].
    unfold truediv_pow2, hundredths. simpl fst. rewrite round53_small by lia.
    change (2 ^ 20) with 1048576. rewrite E2.
    destruct (div_half_even_bounds (100 * size) 1048576) as ([Hl Hu] & Hn1 & Hn2);
      [lia|].
    assert (100 ≤ 100 * size / 1048576) by (apply N.div_le_lower_bound; lia).
    assert (100 * size / 1048576 < 102400)
      by (apply N.Div0.div_lt_upper_bound; lia).
    split_and!; lia.
Qed.

(** ** More on the pruning loops *)

Lemma names_NoDup (fs : gmap path node) (dir : path) : NoDup (FS.names fs dir).
Proof.
  unfold FS.names. pose proof (NoDup_fst_map_to_list fs) as Hnd.
  induction (map_to_list fs) as [|[q v] l IH]; simpl; [constructor|].
  simpl in Hnd. apply NoDup_cons in Hnd as [Hq Hnd].
  destruct (FS.child dir q) as [x|] eqn:Hc; simpl; [|by apply IH].
  apply NoDup_cons. split; [|by apply IH].
  intros ([q' v'] & Hin & Hc')%list_elem_of_omap. simpl in Hc'.
  apply child_Some in Hc, Hc'. subst q q'. apply Hq.
  apply list_elem_of_fmap. by exists (dir ++ [x], v').
Qed.

Lemma occurrences_NoDup keep xs : NoDup xs → (occurrences keep xs ≤ 1)%nat.
Proof.
  unfold occurrences. induction 1 as [|x xs Hx Hnd IH]; simpl; [lia|].
  destruct (decide (x = keep)) as [->|Hne].
  - rewrite filter_cons_True by done. simpl.
    assert (filter (λ y, y = keep) xs = []) as ->; [|simpl; lia].
    apply elem_of_nil_inv. intros y [-> ?]%list_elem_of_filter. done.
  - by rewrite filter_cons_False.
Qed.

Lemma others_NoDup keep xs : NoDup xs → NoDup (others keep xs).
Proof. apply NoDup_filter. Qed.

(** X12.  A prune changes nothing but what lies at or below the entries of
    its listing other than the kept one: the kept entry with all it holds,
    the parent itself, what the listing does not name and everything
    outside the parent are as before, whatever the outcome. *)
Theorem prune_touches_only_other_entries (d : dimension) (dir : path)
    (keep : string) (xs : list string) (w : world) (q : path) :
  (∀ x, x ∈ xs → x ≠ keep → ¬ dir ++ [x] `prefix_of` q) →
  w_fs (prune d dir keep xs w).2 !! q = w_fs w !! q.
Proof.
  intros Hout. destruct (prune d dir keep xs w) as [o w'] eqn:Hrun. simpl.
  destruct (prune_lookup _ _ _ _ _ _ _ q Hrun) as [?|(_ & x & Hx & Hk & Hp & _)];
    [done|].
  by destruct (Hout x Hx Hk).
Qed.

(** X13.  On the listing of a directory a prune never ends with
    ['Already found']: a directory lists a name once. *)
Theorem listing_never_ambiguous (d : dimension) (dir : path) (keep : string)
    (w : world) :
  (prune d dir keep (FS.names (w_fs w) dir) w).1 ≠ Exit (Msg "Already found" []).
Proof.
  destruct (prune d dir keep _ w) as [o w'] eqn:Hrun. simpl. intros ->.
  apply prune_count in Hrun. unfold observations in Hrun.
  pose proof (occurrences_NoDup keep _ (names_NoDup (w_fs w) dir)) as Hle.
  destruct Hrun as [[Hm _]|[_ Hn]].
  - by destruct d.
  - destruct (counted d _); lia.
Qed.

Lemma prune_counted_once d dir keep xs w :
  deletions_fit d dir keep xs (w_fs w) →
  observations keep (counted d) dir xs w = 1%nat →
  (prune d dir keep xs w).1 = Ret tt.
Proof.
  intros Hfit Hone. destruct (prune d dir keep xs w) as [o w'] eqn:Hrun. simpl.
  pose proof (deletions_fit_no_raise _ _ _ _ _ _ _ Hfit Hrun) as Hno.
  apply prune_count in Hrun. destruct o as [[]|m|e]; [done| |by destruct (Hno e)].
  destruct Hrun as [[_ ?]|[_ ?]]; lia.
Qed.

(** X14.  Once the kept entry is known to be in the listing of the
    directory, the prunes of the compiler versions and of the architectures
    always succeed, and the prune of the API levels succeeds exactly when
    the kept entry is a directory; if it is not, the run ends with ['API not
    found']. *)
Theorem prune_on_listing (dir : path) (keep : string) (w : world) :
  keep ∈ FS.names (w_fs w) dir →
  (prune Versions dir keep (FS.names (w_fs w) dir) w).1 = Ret tt ∧
  (prune Arch dir keep (FS.names (w_fs w) dir) w).1 = Ret tt ∧
  (w_fs w !! (dir ++ [keep]) = Some Dir →
   (prune Api dir keep (FS.names (w_fs w) dir) w).1 = Ret tt) ∧
  (w_fs w !! (dir ++ [keep]) ≠ Some Dir →
   (prune Api dir keep (FS.names (w_fs w) dir) w).1 = Exit (Msg "API not found" [])).
Proof.
  intros Hin.
  assert (occurrences keep (FS.names (w_fs w) dir) = 1%nat) as Hone.
  { pose proof (occurrences_NoDup keep _ (names_NoDup (w_fs w) dir)).
    apply occurrences_elem in Hin. lia. }
  split_and!.
  - by apply prune_counted_once.
  - apply prune_counted_once; [|done]. split; [apply others_NoDup, names_NoDup|].
    intros x Hx _. by apply elem_of_names.
  - intros Hdir. apply prune_counted_once; [done|].
    unfold observations. simpl. unfold is_dir. by rewrite (bool_decide_true _ Hdir).
  - intros Hdir.
    destruct (prune Api dir keep _ w) as [o w'] eqn:Hrun. simpl.
    assert (deletions_fit Api dir keep (FS.names (w_fs w) dir) (w_fs w)) as Hfit
      by done.
    pose proof (deletions_fit_no_raise _ _ _ _ _ _ _ Hfit Hrun) as Hno.
    apply prune_count in Hrun. unfold observations in Hrun. simpl in Hrun.
    unfold is_dir in Hrun. rewrite (bool_decide_false _ Hdir) in Hrun.
    destruct o as [[]|m|e]; [done| |by destruct (Hno e)].
    destruct Hrun as [[-> _]|[_ ?]]; [done|lia].
Qed.

(** Deleting a whole directory, or a plain file, leaves a tree a tree. *)
Lemma tree_without fs p : tree fs → tree (FS.without fs p).
Proof.
  intros Ht q x. rewrite !lookup_without.
  case_decide as Hp; [by intros [? ?]|]. intros Hsome.
  rewrite decide_False; [by apply (Ht q x)|].
  intros Hq. apply Hp. by apply prefix_app_r.
Qed.

Lemma tree_delete_file fs p data :
  tree fs → fs !! p = Some (File data) → tree (delete p fs).
Proof.
  intros Ht Hp q x Hsome.
  destruct (decide (q ++ [x] = p)) as [<-|Hne].
  { rewrite lookup_delete_eq in Hsome. by destruct Hsome. }
  rewrite lookup_delete_ne in Hsome by done.
  apply Ht in Hsome. rewrite lookup_delete_ne; [done|]. congruence.
Qed.

Lemma entry_step_tree keep observed act dir x found w :
  tree (w_fs w) → tree (w_fs (entry_step keep observed act dir x found w).2).
Proof.
  intros Ht. run. case_bool_decide.
  - by repeat case_match.
  - destruct (act x _); simpl; [done| |].
    + destruct (w_fs w !! (dir ++ [x])) as [[data|]|] eqn:Hp; simpl; try done.
      by apply tree_without.
    + destruct (w_fs w !! (dir ++ [x])) as [[data|]|] eqn:Hp; simpl; try done.
      by eapply tree_delete_file.
Qed.

Lemma for_each_tree {A S} (body : A → S → M S) xs s w :
  (∀ x s w, tree (w_fs w) → tree (w_fs (body x s w).2)) →
  tree (w_fs w) → tree (w_fs (for_each body xs s w).2).
Proof.
  intros Hb. revert s w. induction xs as [|x xs IH]; intros s w Ht; simpl; [done|].
  unfold bind. specialize (Hb x s w Ht).
  destruct (body x s w) as [[s'| |] w1]; simpl in *; [by apply IH|done|done].
Qed.

(** X15.  Pruning leaves a tree a tree: whatever the outcome, every entry
    that is left still lies in a directory that is left. *)
Theorem prune_keeps_tree (d : dimension) (dir : path) (keep : string)
    (xs : list string) (w : world) :
  tree (w_fs w) → tree (w_fs (prune d dir keep xs w).2).
Proof.
  intros Ht. rewrite prune_shape. unfold entry_prune, bind at 1, print, emit.
  cbv beta iota. unfold bind.
  match goal with |- context [for_each ?b xs false ?w0] =>
    pose proof (for_each_tree b xs false w0
                  (λ x s w1, entry_step_tree keep _ _ dir x s w1) Ht) as Hloop;
    destruct (for_each b xs false w0) as [[[|]| |] w1]
  end; done.
Qed.

(** ** Sizes before and after *)

Lemma total_size_submseteq (l1 l2 : list (path * node)) :
  l1 ⊆+ l2 →
  foldr (λ kv acc, FS.file_size kv.2 + acc) 0 l1 ≤
  foldr (λ kv acc, FS.file_size kv.2 + acc) 0 l2.
Proof. induction 1; simpl in *; lia. Qed.

Lemma total_size_mono (m1 m2 : gmap path node) :
  m1 ⊆ m2 → FS.total_size m1 ≤ FS.total_size m2.
Proof.
  intros Hsub. unfold FS.total_size.
  by apply total_size_submseteq, map_to_list_submseteq.
Qed.

Lemma get_object_size_value p w :
  get_object_size p w =
  (Ret match w_fs w !! p with
       | Some (File data) => N.of_nat (String.length data)
       | Some Dir => FS.total_size (FS.below (w_fs w) p)
       | None => 0
       end, w).
Proof.
  unfold get_object_size, os_path_isfile, os_path_getsize, get_directory_size. run.
  destruct (w_fs w !! p) as [[data|]|] eqn:Hp; simpl; by rewrite ?Hp.
Qed.

(** X16.  Pruning never makes anything bigger: the size that the script
    measures for any path after a prune, whatever its outcome, is at most
    the size it measures before. *)
Theorem prune_never_grows (d : dimension) (dir : path) (keep : string)
    (xs : list string) (w : world) (p : path) :
  ∃ before after,
    get_object_size p w = (Ret before, w) ∧
    get_object_size p (prune d dir keep xs w).2
    = (Ret after, (prune d dir keep xs w).2) ∧
    after ≤ before.
Proof.
  destruct (prune d dir keep xs w) as [o w'] eqn:Hrun. simpl.
  assert (w_fs w' ⊆ w_fs w) as Hsub.
  { apply map_subseteq_spec. intros q v Hq.
    destruct (prune_lookup _ _ _ _ _ _ _ q Hrun) as [<-|[Hn _]]; congruence. }
  do 2 eexists. split; [apply get_object_size_value|].
  split; [apply get_object_size_value|].
  destruct (prune_lookup _ _ _ _ _ _ _ p Hrun) as [->|[-> _]].
  - destruct (w_fs w !! p) as [[data|]|]; [lia| |lia].
    apply total_size_mono. unfold FS.below. by apply map_filter_subseteq_mono.
  - lia.
Qed.

(** ** What the run after the download does and leaves alone *)

Lemma emits_get_fs P : emits P get_fs.
Proof. by apply emits_still. Qed.

Lemma emits_lift {A} P (o : outcome A) : emits P (lift o).
Proof. by apply emits_still. Qed.

Lemma emits_sizes_info P template p q : emits P (sizes_info template p q).
Proof.
  apply emits_still. intros w. by destruct (sizes_info_total template p q w) as [m ->].
Qed.

Lemma emits_prune P d dir keep xs :
  (∀ m, P (Print m)) → emits P (prune d dir keep xs).
Proof.
  intros HP.
  assert (∀ template args, emits P (print template args)) as Hprint.
  { intros. by apply emits_emit. }
  destruct d; simpl;
    unfold prune_toolchains, prune_stl, prune_versions, prune_abi, prune_api,
      prune_arch, toolchain_step, stl_step, version_step, abi_step, api_step,
      arch_step;
    repeat first
      [ apply Hprint
      | apply emits_ret
      | apply emits_sys_exit
      | apply emits_os_path_isdir
      | apply emits_shutil_rmtree
      | apply emits_os_remove
      | apply emits_when
      | apply emits_for_each; intros ? ?
      | apply emits_bind; [|intros ?]
      | match goal with
        | |- emits _ (if ?b then _ else _) => destruct b
        end ].
Qed.

Lemma emits_check P (check : path → string → M (list string)) dir keep :
  (∀ m, P (Print m)) →
  check = check_toolchain ∨ check = check_stl ∨ check = check_version ∨
  check = check_abi ∨ check = check_api ∨ check = check_arch →
  emits P (check dir keep).
Proof.
  intros HP.
  assert (∀ template args, emits P (print template args)) as Hprint.
  { intros. by apply emits_emit. }
  intros [->|[->|[->|[->|[->| ->]]]]];
    unfold check_toolchain, check_stl, check_version, check_abi, check_api,
      check_arch;
    repeat first
      [ apply Hprint
      | apply emits_ret
      | apply emits_sys_exit
      | apply emits_os_path_exists
      | apply emits_os_listdir
      | apply emits_when
      | apply emits_bind; [|intros ?] ].
Qed.

Section Quiet.

Variable tar_gz : string → gmap path node → string.
Variable platform_system : string.

Lemma emits_pack P archive src arcname : emits P (pack tar_gz archive src arcname).
Proof.
  unfold pack.
  repeat first
    [ apply emits_write_bytes | apply emits_get_fs | apply emits_raise
    | apply emits_bind; [|intros ?]
    | match goal with |- emits _ (match ?x with _ => _ end) => destruct x end ].
Qed.

(** X17.  Once the kit is unpacked, the script sends no request, runs no
    program and does not pause: whatever the outcome, all that the pruning
    and the packing add to the trace is printed lines. *)
Theorem pruning_only_prints (a : args) (L : layout) (w : world) :
  ∃ t,
    w_trace (prune_and_pack tar_gz platform_system a L w).2 = w_trace w ++ t ∧
    Forall is_print t.
Proof.
  assert (∀ d dir keep xs, emits is_print (prune d dir keep xs)) as Hprune.
  { intros. by apply emits_prune. }
  assert (∀ template args, emits is_print (print template args)) as Hprint.
  { intros. by apply emits_emit. }
  revert w. change (emits is_print (prune_and_pack tar_gz platform_system a L)).
  unfold prune_and_pack, prune_gnu.
  repeat first
    [ apply Hprint
    | apply (Hprune (Toolchains _))
    | apply (Hprune Stl)
    | apply (Hprune Versions)
    | apply (Hprune Abi)
    | apply (Hprune Api)
    | apply (Hprune Arch)
    | apply emits_check; [done|tauto]
    | apply emits_sizes_info
    | apply emits_lift
    | apply emits_pack
    | apply emits_ret
    | apply emits_sys_exit
    | apply emits_emit; exact I
    | apply emits_bind; [|intros ?]
    | match goal with
      | |- emits _ (if ?b then _ else _) => destruct b
      | |- emits _ (match ?x with _ => _ end) => destruct x
      end ].
Qed.

End Quiet.

Lemma keeps_still {A} P (c : M A) : (∀ w, w_fs (c w).2 = w_fs w) → keeps_outside P c.
Proof. intros H w q _. by rewrite H. Qed.

Lemma keeps_bind {A B} P (c : M A) (k : A → M B) :
  keeps_outside P c → (∀ a, keeps_outside P (k a)) → keeps_outside P (bind c k).
Proof.
  intros Hc Hk w q Hq. unfold bind. specialize (Hc w q Hq).
  destruct (c w) as [[a| |] w1]; simpl in *; [|done|done].
  by rewrite Hk.
Qed.

Lemma keeps_weaken {A} (P Q : path → Prop) (c : M A) :
  (∀ q, P q → Q q) → keeps_outside P c → keeps_outside Q c.
Proof. intros HPQ Hc w q Hq. apply Hc. intros HP. by apply Hq, HPQ. Qed.

Lemma keeps_prune d dir keep xs :
  keeps_outside (λ q, dir `prefix_of` q) (prune d dir keep xs).
Proof.
  intros w q Hq. destruct (prune d dir keep xs w) as [o w'] eqn:Hrun. simpl.
  destruct (prune_lookup _ _ _ _ _ _ _ q Hrun) as [?|(_ & x & _ & _ & Hp & _)];
    [done|].
  destruct Hq. by apply prefix_app_l in Hp.
Qed.

Lemma keeps_ret {A} P (a : A) : keeps_outside P (ret a).
Proof. by apply keeps_still. Qed.

Lemma keeps_emit P e : keeps_outside P (emit e).
Proof. by apply keeps_still. Qed.

Lemma keeps_sys_exit {A} P template args :
  keeps_outside P (sys_exit (A:=A) template args).
Proof. by apply keeps_still. Qed.

Lemma keeps_raise {A} P e : keeps_outside P (raise (A:=A) e).
Proof. by apply keeps_still. Qed.

Lemma keeps_lift {A} P (o : outcome A) : keeps_outside P (lift o).
Proof. by apply keeps_still. Qed.

Lemma keeps_get_fs P : keeps_outside P get_fs.
Proof. by apply keeps_still. Qed.

Lemma keeps_when P b c : keeps_outside P c → keeps_outside P (when b c).
Proof. destruct b; [done|]. intros _. apply keeps_ret. Qed.

Lemma keeps_os_path_exists P p : keeps_outside P (os_path_exists p).
Proof. by apply keeps_still. Qed.

Lemma keeps_os_listdir P p : keeps_outside P (os_listdir p).
Proof.
  apply keeps_still. intros w. unfold os_listdir, bind, get_fs. simpl.
  by repeat case_match.
Qed.

Lemma keeps_sizes_info P template p1 p2 :
  keeps_outside P (sizes_info template p1 p2).
Proof.
  apply keeps_still. intros w.
  by destruct (sizes_info_total template p1 p2 w) as [m ->].
Qed.

Lemma keeps_check P (check : path → string → M (list string)) dir keep :
  check = check_toolchain ∨ check = check_stl ∨ check = check_version ∨
  check = check_abi ∨ check = check_api ∨ check = check_arch →
  keeps_outside P (check dir keep).
Proof.
  intros [->|[->|[->|[->|[->| ->]]]]];
    unfold check_toolchain, check_stl, check_version, check_abi, check_api,
      check_arch, print;
    repeat first
      [ apply keeps_emit
      | apply keeps_ret
      | apply keeps_sys_exit
      | apply keeps_os_path_exists
      | apply keeps_os_listdir
      | apply keeps_when
      | apply keeps_bind; [|intros ?] ].
Qed.

Ltac under := repeat first [reflexivity | apply prefix_app_r].

Section Inside.

Variable tar_gz : string → gmap path node → string.
Variable platform_system : string.

Lemma keeps_write_bytes p data : keeps_outside (λ q, q = p) (write_bytes p data).
Proof.
  intros w q Hq. unfold write_bytes, bind, get_fs, put_fs, raise. simpl.
  repeat (case_match; simpl; try done);
    by rewrite lookup_insert_ne by congruence.
Qed.

Lemma keeps_pack archive src arcname :
  keeps_outside (λ q, q = archive) (pack tar_gz archive src arcname).
Proof.
  unfold pack.
  repeat first
    [ apply keeps_write_bytes | apply keeps_get_fs | apply keeps_raise
    | apply keeps_bind; [|intros ?]
    | match goal with
      | |- keeps_outside _ (match ?x with _ => _ end) => destruct x
      end ].
Qed.

(** X18.  The pruning and the packing stay inside the unpack directory and
    the output directory: whatever the outcome, every other path, the
    download cache among them, is as before. *)
Theorem pruning_stays_inside (a : args) (top : path) (v : option string)
    (w : world) (q : path) :
  ¬ top ++ ["_unpacked"] `prefix_of` q →
  ¬ top ++ ["_pruned"] `prefix_of` q →
  w_fs (prune_and_pack tar_gz platform_system a (layout_of top v) w).2 !! q
  = w_fs w !! q.
Proof.
  intros Hu Hp.
  set (P := λ q : path,
         top ++ ["_unpacked"] `prefix_of` q ∨ top ++ ["_pruned"] `prefix_of` q).
  assert (keeps_outside P (prune_and_pack tar_gz platform_system a (layout_of top v)))
    as Hkeeps; [|apply Hkeeps; unfold P; tauto].
  assert (∀ d dir keep xs,
            top ++ ["_unpacked"] `prefix_of` dir →
            keeps_outside P (prune d dir keep xs)) as Hprune.
  { intros d dir keep xs Hdir.
    apply (keeps_weaken (λ q, dir `prefix_of` q)); [|apply keeps_prune].
    intros q' Hq'. left. by etrans. }
  assert (∀ name src arcname,
            keeps_outside P (pack tar_gz (pruned_dir (layout_of top v) ++ [name])
                               src arcname)) as Hpack.
  { intros name src arcname.
    apply (keeps_weaken (λ q, q = pruned_dir (layout_of top v) ++ [name]));
      [|apply keeps_pack].
    intros q' ->. right. simpl. by apply prefix_app_r. }
  unfold prune_and_pack, prune_gnu, print.
  repeat first
    [ apply keeps_emit
    | apply keeps_ret
    | apply keeps_sys_exit
    | apply keeps_lift
    | apply keeps_sizes_info
    | apply keeps_check; tauto
    | apply (Hprune (Toolchains _)); simpl; under
    | apply (Hprune Stl); simpl; under
    | apply (Hprune Versions); simpl; under
    | apply (Hprune Abi); simpl; under
    | apply (Hprune Api); simpl; under
    | apply (Hprune Arch); simpl; under
    | apply Hpack
    | apply keeps_bind; [|intros ?]
    | match goal with
      | |- keeps_outside _ (if ?b then _ else _) => destruct b
      | |- keeps_outside _ (match ?x with _ => _ end) => destruct x
      end ].
Qed.

End Inside.

(** ** The working directories and the archive *)

Lemma os_mkdir_Ret_inv p w u w' :
  os_mkdir p w = (Ret u, w') →
  w_fs w !! p = None ∧ w_fs w' = <[p := Dir]> (w_fs w).
Proof.
  unfold os_mkdir, bind, get_fs, put_fs, raise. simpl.
  destruct (w_fs w !! p); [done|].
  destruct (w_fs w !! FS.parent p) as [[]|]; [done| |done].
  intros ?. by simplify_eq.
Qed.

Lemma shutil_rmtree_Ret_inv p w u w' :
  shutil_rmtree p w = (Ret u, w') → w_fs w' = FS.without (w_fs w) p.
Proof.
  unfold shutil_rmtree, bind, get_fs, put_fs, raise. simpl.
  destruct (w_fs w !! p) as [[]|]; [done| |done]. intros ?. by simplify_eq.
Qed.

Lemma os_path_exists_inv p w e w' :
  os_path_exists p w = (Ret e, w') → w' = w ∧ e = bool_decide (is_Some (w_fs w !! p)).
Proof. unfold os_path_exists, bind, get_fs, ret. simpl. intros ?. by simplify_eq. Qed.

Lemma print_Ret_inv template args w u w' :
  print template args w = (Ret u, w') → w_fs w' = w_fs w.
Proof. unfold print, emit. intros ?. by simplify_eq. Qed.

(** In a tree, whatever has an entry below it is a directory. *)
Lemma tree_above (fs : gmap path node) (p q : path) :
  tree fs → p `prefix_of` q → q ≠ p → is_Some (fs !! q) → fs !! p = Some Dir.
Proof.
  intros Ht [r ->]. induction r as [|x r IH] using rev_ind.
  - rewrite app_nil_r. done.
  - intros _ Hs. rewrite app_assoc in Hs. apply Ht in Hs.
    destruct (decide (r = [])) as [->|Hr].
    + by rewrite app_nil_r in Hs.
    + apply IH; [|by rewrite Hs].
      intros Heq. apply Hr. apply (app_inv_head p). by rewrite app_nil_r.
Qed.

Lemma snoc_prefix_snoc (p : path) (x y : string) :
  p ++ [x] `prefix_of` p ++ [y] → x = y.
Proof. intros [r H]. rewrite <- app_assoc in H. apply app_inv_head in H. by injection H. Qed.

(** X19.  When the working directories are prepared without an error, the
    unpack directory is an empty directory, the download cache and the
    output directory exist, and whatever existed outside the unpack
    directory is as before. *)
Theorem unpack_dir_starts_empty (top : path) (v : option string) (w w' : world) :
  tree (w_fs w) →
  prepare_dirs (layout_of top v) w = (Ret tt, w') →
  w_fs w' !! (top ++ ["_unpacked"]) = Some Dir ∧
  (∀ q, top ++ ["_unpacked"] `prefix_of` q → q ≠ top ++ ["_unpacked"] →
        w_fs w' !! q = None) ∧
  is_Some (w_fs w' !! (top ++ ["_downloads"])) ∧
  is_Some (w_fs w' !! (top ++ ["_pruned"])) ∧
  (∀ q, ¬ top ++ ["_unpacked"] `prefix_of` q → is_Some (w_fs w !! q) →
        w_fs w' !! q = w_fs w !! q).
Proof.
  intros Ht. unfold prepare_dirs. simpl.
  set (D := top ++ ["_downloads"]). set (U := top ++ ["_unpacked"]).
  set (R := top ++ ["_pruned"]).
  assert (¬ U `prefix_of` D) as HUD by (by intros ?%snoc_prefix_snoc).
  assert (¬ U `prefix_of` R) as HUR by (by intros ?%snoc_prefix_snoc).
  assert (D ≠ U) as HDU by (by intros ?%app_inv_head).
  assert (R ≠ U) as HRU by (by intros ?%app_inv_head).
  assert (D ≠ R) as HDR by (by intros ?%app_inv_head).
  intros H.
  (* the download cache *)
  apply bind_Ret_inv in H as (e1 & w1 & [-> ->]%os_path_exists_inv & H).
  apply bind_Ret_inv in H as ([] & w1 & H1 & H).
  assert (is_Some (w_fs w1 !! D) ∧
          (∀ q, is_Some (w_fs w !! q) → w_fs w1 !! q = w_fs w !! q) ∧
          (∀ q, q ≠ D → w_fs w1 !! q = w_fs w !! q)) as (HD1 & Hold1 & Hne1).
  { case_bool_decide as HD; simpl in H1.
    - injection H1 as <-. done.
    - apply bind_Ret_inv in H1 as ([] & w0 & Hp%print_Ret_inv & Hm).
      apply os_mkdir_Ret_inv in Hm as [_ ->]. rewrite Hp.
      split; [by rewrite lookup_insert_eq|].
      split; intros q Hq; rewrite lookup_insert_ne; try done.
      by intros <-. }
  (* the unpack directory *)
  apply bind_Ret_inv in H as (e2 & w2 & [-> ->]%os_path_exists_inv & H).
  apply bind_Ret_inv in H as ([] & w2 & H2 & H).
  apply bind_Ret_inv in H as ([] & w3 & [HU3 H3]%os_mkdir_Ret_inv & H).
  assert (∀ q, U `prefix_of` q → w_fs w2 !! q = None) as Hbelow2.
  { intros q Hq. case_bool_decide as HU; simpl in H2.
    - apply bind_Ret_inv in H2 as ([] & w0 & Hp%print_Ret_inv & Hr).
      apply shutil_rmtree_Ret_inv in Hr. rewrite Hr, lookup_without.
      by rewrite decide_True.
    - injection H2 as <-.
      destruct (decide (q = U)) as [->|Hne].
      + by apply eq_None_not_Some.
      + apply eq_None_not_Some. intros Hs. apply HU.
        rewrite Hne1 in Hs by (by intros ->).
        rewrite Hne1 by done.
        rewrite (tree_above _ U q Ht Hq Hne Hs). done. }
  assert (∀ q, ¬ U `prefix_of` q → w_fs w2 !! q = w_fs w1 !! q) as Hout2.
  { intros q Hq. case_bool_decide as HU; simpl in H2.
    - apply bind_Ret_inv in H2 as ([] & w0 & Hp%print_Ret_inv & Hr).
      apply shutil_rmtree_Ret_inv in Hr. rewrite Hr, lookup_without.
      by rewrite decide_False, Hp.
    - by injection H2 as <-. }
  (* the output directory *)
  apply bind_Ret_inv in H as (e4 & w4 & [-> ->]%os_path_exists_inv & H).
  assert (is_Some (w_fs w' !! R) ∧
          (∀ q, is_Some (w_fs w3 !! q) → w_fs w' !! q = w_fs w3 !! q) ∧
          (∀ q, q ≠ R → w_fs w' !! q = w_fs w3 !! q)) as (HR4 & Hold4 & Hne4).
  { case_bool_decide as HR; simpl in H.
    - injection H as <-. done.
    - apply os_mkdir_Ret_inv in H as [_ ->].
      split; [by rewrite lookup_insert_eq|].
      split; intros q Hq; rewrite lookup_insert_ne; try done.
      by intros <-. }
  split_and!.
  - rewrite Hne4 by done. by rewrite H3, lookup_insert_eq.
  - intros q Hq Hne. rewrite Hne4 by (by intros ->).
    rewrite H3, lookup_insert_ne by done. by apply Hbelow2.
  - rewrite Hne4 by done.
    rewrite H3, lookup_insert_ne by done. by rewrite Hout2.
  - done.
  - intros q Hq Hs.
    assert (q ≠ U) as HqU by (by intros ->).
    assert (w_fs w3 !! q = w_fs w !! q) as H3q.
    { rewrite H3, lookup_insert_ne by done. rewrite Hout2 by done. by apply Hold1. }
    rewrite Hold4 by (by rewrite H3q). done.
Qed.

Section Archive.

Variable tar_gz : string → gmap path node → string.
Variable platform_system : string.

Lemma write_bytes_Ret_inv p data w u w' :
  write_bytes p data w = (Ret u, w') → w_fs w' = <[p := File data]> (w_fs w).
Proof.
  unfold write_bytes, bind, get_fs, put_fs, raise. simpl.
  destruct (w_fs w !! p) as [[]|];
    destruct (w_fs w !! FS.parent p) as [[]|]; try done; intros ?; by simplify_eq.
Qed.

Lemma filter_insert_outside (P : path → Prop) `{!∀ q, Decision (P q)}
    (fs : gmap path node) (p : path) (n : node) :
  ¬ P p →
  filter (λ kv : path * node, P kv.1) (<[p := n]> fs) = filter (λ kv, P kv.1) fs.
Proof.
  intros Hp. apply map_eq. intros q. apply option_eq. intros m.
  rewrite !map_lookup_filter_Some. simpl.
  destruct (decide (q = p)) as [->|Hq].
  - tauto.
  - by rewrite lookup_insert_ne.
Qed.

Lemma pack_Ret_inv archive src arcname w u w' :
  ¬ src `prefix_of` archive →
  pack tar_gz archive src arcname w = (Ret u, w') →
  w_fs w' !! archive =
    Some (File (tar_gz arcname (filter (λ kv, src `prefix_of` kv.1) (w_fs w')))) ∧
  filter (λ kv, src `prefix_of` kv.1) (w_fs w') =
  filter (λ kv, src `prefix_of` kv.1) (w_fs w).
Proof.
  intros Hout. unfold pack. intros H.
  apply bind_Ret_inv in H as ([] & w1 & H1%write_bytes_Ret_inv & H).
  apply bind_Ret_inv in H as (fs & w2 & [= <- <-] & H).
  destruct (w_fs w1 !! src); [|done].
  apply write_bytes_Ret_inv in H.
  assert (filter (λ kv : path * node, src `prefix_of` kv.1) (w_fs w') =
          filter (λ kv, src `prefix_of` kv.1) (w_fs w1)) as Hsame.
  { rewrite H. by apply (filter_insert_outside (λ q, src `prefix_of` q)). }
  split.
  - rewrite Hsame. by rewrite H, lookup_insert_eq.
  - rewrite Hsame, H1. by apply (filter_insert_outside (λ q, src `prefix_of` q)).
Qed.

(** X20.  After a successful run the output archive is a file whose content
    is the archive, rooted at [android-ndk-<version>], of exactly the
    entries that the pruning left under the unpacked kit. *)
Theorem archive_holds_pruned_kit (a : args) (top : path) (v : option string)
    (w w' : world) (name : string) (archive : path) :
  prune_and_pack tar_gz platform_system a (layout_of top v) w
  = (Ret (name, archive), w') →
  w_fs w' !! archive =
  Some (File (tar_gz (ndk_dir_name (ndk_version a))
                (filter
                   (λ kv, android_unpacked_ndk (layout_of top v) `prefix_of` kv.1)
                   (w_fs w')))).
Proof.
  unfold prune_and_pack. intros H. bind_inv H. injection H as <- <-.
  repeat match goal with
         | Hs : sizes_info ?t ?p1 ?p2 ?w0 = (Ret _, _) |- _ =>
             let m := fresh "m" in
             let Hm := fresh "Hm" in
             destruct (sizes_info_total t p1 p2 w0) as [m Hm];
             rewrite Hm in Hs; injection Hs as <- <-
         | He : emit _ _ = (Ret _, _) |- _ =>
             unfold emit in He; injection He as <-
         | He : print _ _ _ = (Ret _, _) |- _ =>
             unfold print, emit in He; injection He as <-
         end.
  subst. simpl.
  match goal with
  | Hp : pack _ _ _ _ _ = (Ret _, _) |- _ =>
      apply pack_Ret_inv in Hp as [Hpacked _]
  end.
  - exact Hpacked.
  - simpl. intros [r Hr]. rewrite <- !app_assoc in Hr.
    apply app_inv_head in Hr. done.
Qed.

End Archive.

(** ** The properties on the small kit *)

Lemma tree_check (fs : gmap path node) :
  map_Forall (λ q _, q = [] ∨ fs !! FS.parent q = Some Dir) fs → tree fs.
Proof.
  intros Hall q x [n Hn]. destruct (Hall _ _ Hn) as [Hnil|Hpar].
  - by destruct q.
  - unfold FS.parent in Hpar. by rewrite removelast_last in Hpar.
Qed.

(** X2, on the answer of the small server: one request, three chunks. *)
Lemma real_file_download_content_witness :
  real_file_download Scenario.http Scenario.zip_url Scenario.zip Scenario.fresh =
  (Ret tt,
   (real_file_download Scenario.http Scenario.zip_url Scenario.zip Scenario.fresh).2) ∧
  ∃ k chunks,
    (1 ≤ k ≤ 3)%nat ∧
    requests_of
      (w_trace
         (real_file_download Scenario.http Scenario.zip_url Scenario.zip
            Scenario.fresh).2)
    = requests_of (w_trace Scenario.fresh) ++ replicate k Scenario.zip_url ∧
    Scenario.http Scenario.zip_url
      (length (requests_of (w_trace Scenario.fresh)) + k - 1)%nat
    = Body chunks false ∧
    w_fs
      (real_file_download Scenario.http Scenario.zip_url Scenario.zip
         Scenario.fresh).2
      !! Scenario.zip = Some (File (joined chunks)).
Proof.
  assert (real_file_download Scenario.http Scenario.zip_url Scenario.zip Scenario.fresh =
          (Ret tt,
           (real_file_download Scenario.http Scenario.zip_url Scenario.zip
              Scenario.fresh).2)) as H.
  { apply run_eta. vm_compute. reflexivity. }
  split; [exact H|].
  exact (real_file_download_content Scenario.http _ _ _ _ H).
Defined.

(** X4, on the unpacked kit, whose cached archive is extracted again. *)
Lemma extraction_only_after_verification_witness :
  tools_of
    (w_trace
       (FileToDownload Scenario.sha1 Scenario.http Scenario.tools Scenario.zip_url
          "42aa43aae89a50d1c66c3f9fdecd676936da6128" Scenario.zip
          ["w"; "_unpacked"] Scenario.zip Scenario.unpacked).2)
  ≠ tools_of (w_trace Scenario.unpacked) ∧
  ∃ w1 data,
    download Scenario.sha1 Scenario.http Scenario.zip_url
      "42aa43aae89a50d1c66c3f9fdecd676936da6128" Scenario.zip Scenario.unpacked
    = (Ret tt, w1) ∧
    w_fs w1 !! Scenario.zip = Some (File data) ∧
    Scenario.sha1 data = "42aa43aae89a50d1c66c3f9fdecd676936da6128".
Proof.
  assert (tools_of
            (w_trace
               (FileToDownload Scenario.sha1 Scenario.http Scenario.tools
                  Scenario.zip_url "42aa43aae89a50d1c66c3f9fdecd676936da6128"
                  Scenario.zip ["w"; "_unpacked"] Scenario.zip Scenario.unpacked).2)
          ≠ tools_of (w_trace Scenario.unpacked)) as H.
  { intros H. vm_compute in H. discriminate H. }
  split; [exact H|].
  exact (extraction_only_after_verification Scenario.sha1 Scenario.http
           Scenario.tools _ _ _ _ _ _ H).
Defined.

(** X5, on the Linux archive of [r16b]. *)
Lemma fetch_known_format_witness :
  get_linux_info (ndk_version Scenario.gcc_args) =
  Ret (Scenario.zip_url, "42aa43aae89a50d1c66c3f9fdecd676936da6128") ∧
  Py.endswith Scenario.zip_url ("." +:+ archive_suffix (ndk_version Scenario.gcc_args))
  = true ∧
  (fetch Scenario.sha1 Scenario.http Scenario.tools "Linux" Scenario.gcc_args
     (layout_of ["w"] (Some "r16b")) Scenario.fresh).1
  ≠ Exit (Msg "Unknown archive format" []).
Proof.
  assert (get_linux_info (ndk_version Scenario.gcc_args) =
          Ret (Scenario.zip_url, "42aa43aae89a50d1c66c3f9fdecd676936da6128")) as H.
  { vm_compute. reflexivity. }
  destruct (fetch_known_format Scenario.sha1 Scenario.http Scenario.tools "Linux"
              Scenario.gcc_args (layout_of ["w"] (Some "r16b")) Scenario.fresh)
    as [Hsuffix Hfetch].
  split; [exact H|]. split; [|exact Hfetch].
  apply (Hsuffix _ "42aa43aae89a50d1c66c3f9fdecd676936da6128"). right. exact H.
Defined.

(** X6, on a run without [--stl] and on a run with a version that is not
    among the choices. *)
Lemma invalid_arguments_exit_first_witness :
  (ndk_version (Args "x86-4.9" "" None None "21" "x86" (Some "r16b")) = Some "r16b" ∧
   "r16b" ∈ ndk_choices ∧
   toolchain (Args "x86-4.9" "" None None "21" "x86" (Some "r16b")) ≠ "" ∧
   stl (Args "x86-4.9" "" None None "21" "x86" (Some "r16b")) = "" ∧
   main Scenario.sha1 Scenario.http Scenario.tools Scenario.targz "Linux"
     (Args "x86-4.9" "" None None "21" "x86" (Some "r16b")) Scenario.start =
   (Exit (Msg "--stl is required" []), Scenario.start)) ∧
  (ndk_version (Args "x86-4.9" "" None None "21" "x86" (Some "r9")) = Some "r9" ∧
   ("r9" ∉ ndk_choices) ∧
   main Scenario.sha1 Scenario.http Scenario.tools Scenario.targz "Linux"
     (Args "x86-4.9" "" None None "21" "x86" (Some "r9")) Scenario.start =
   (Exit (Msg "argument --ndk-version: invalid choice: {} (choose from {})"
            [FStr "r9"; FList ndk_choices]), Scenario.start)).
Proof.
  assert ("r16b" ∈ ndk_choices) as Hin by by_compute.
  assert ("r9" ∉ ndk_choices) as Hout by by_compute.
  assert ("x86-4.9" ≠ "") as Hne by by_compute.
  split.
  - split; [reflexivity|]. split; [exact Hin|]. split; [exact Hne|].
    split; [reflexivity|].
    refine (proj1 (proj2 (proj2 (invalid_arguments_exit_first Scenario.sha1
                            Scenario.http Scenario.tools Scenario.targz "Linux"
                            (Args "x86-4.9" "" None None "21" "x86" (Some "r16b"))
                            Scenario.start) _)) Hne eq_refl).
    intros v Hv. injection Hv as <-. exact Hin.
  - split; [reflexivity|]. split; [exact Hout|].
    exact (proj1 (invalid_arguments_exit_first Scenario.sha1 Scenario.http
                    Scenario.tools Scenario.targz "Linux"
                    (Args "x86-4.9" "" None None "21" "x86" (Some "r9"))
                    Scenario.start) "r9" eq_refl Hout).
Defined.

(** X7, on the GCC build of the small kit. *)
Lemma success_presupposes_witness :
  main Scenario.sha1 Scenario.http Scenario.tools Scenario.targz "Linux"
    Scenario.gcc_args Scenario.start =
  (Ret
     ("android-ndk-r16b-arm-linux-androideabi-4.9-gnu-libstdc++-4.9-armeabi-v7a-android-21-arch-arm-Linux.tar.gz",
      ["w"; "_pruned";
       "android-ndk-r16b-arm-linux-androideabi-4.9-gnu-libstdc++-4.9-armeabi-v7a-android-21-arch-arm-Linux.tar.gz"]),
   (main Scenario.sha1 Scenario.http Scenario.tools Scenario.targz "Linux"
      Scenario.gcc_args Scenario.start).2) ∧
  toolchain Scenario.gcc_args ≠ "" ∧ stl Scenario.gcc_args ≠ "" ∧
  api_level Scenario.gcc_args ≠ "" ∧ arch_name Scenario.gcc_args ≠ "" ∧
  (∃ version, ndk_version Scenario.gcc_args = Some version ∧ version ∈ ndk_choices) ∧
  ("Linux" = "Linux" ∨
   ("Linux" = "Darwin" ∧ ndk_version Scenario.gcc_args ≠ Some "r16b")).
Proof.
  assert (main Scenario.sha1 Scenario.http Scenario.tools Scenario.targz "Linux"
            Scenario.gcc_args Scenario.start =
          (Ret
             ("android-ndk-r16b-arm-linux-androideabi-4.9-gnu-libstdc++-4.9-armeabi-v7a-android-21-arch-arm-Linux.tar.gz",
              ["w"; "_pruned";
               "android-ndk-r16b-arm-linux-androideabi-4.9-gnu-libstdc++-4.9-armeabi-v7a-android-21-arch-arm-Linux.tar.gz"]),
           (main Scenario.sha1 Scenario.http Scenario.tools Scenario.targz "Linux"
              Scenario.gcc_args Scenario.start).2)) as H.
  { apply run_eta. vm_compute. reflexivity. }
  split; [exact H|].
  exact (success_presupposes Scenario.sha1 Scenario.http Scenario.tools
           Scenario.targz "Linux" _ _ _ _ H).
Defined.

(** X8, on the GNU library of the small kit, without a compiler version and
    with version 4.9 and no ABI. *)
Lemma prune_gnu_missing_selectors_witness :
  (compiler_version
     (Args "x86-4.9" "gnustl_static" None None "21" "x86" (Some "r16b")) = None ∧
   prune_gnu (Args "x86-4.9" "gnustl_static" None None "21" "x86" (Some "r16b"))
     Scenario.gnu_dir "android-ndk-r16b" Scenario.unpacked =
   (Exit (Msg "Expected --compiler-version" []), Scenario.unpacked)) ∧
  (compiler_version
     (Args "x86-4.9" "gnustl_static" (Some "4.9") None "21" "x86" (Some "r16b"))
   = Some "4.9" ∧
   "4.9" ≠ "" ∧
   abi_name
     (Args "x86-4.9" "gnustl_static" (Some "4.9") None "21" "x86" (Some "r16b"))
   = None ∧
   check_version Scenario.gnu_dir "4.9" Scenario.unpacked =
   (Ret (FS.names (w_fs Scenario.unpacked) Scenario.gnu_dir),
    (check_version Scenario.gnu_dir "4.9" Scenario.unpacked).2) ∧
   prune_versions Scenario.gnu_dir "4.9"
     (FS.names (w_fs Scenario.unpacked) Scenario.gnu_dir)
     (check_version Scenario.gnu_dir "4.9" Scenario.unpacked).2 =
   (Ret tt,
    (prune_versions Scenario.gnu_dir "4.9"
       (FS.names (w_fs Scenario.unpacked) Scenario.gnu_dir)
       (check_version Scenario.gnu_dir "4.9" Scenario.unpacked).2).2) ∧
   prune_gnu
     (Args "x86-4.9" "gnustl_static" (Some "4.9") None "21" "x86" (Some "r16b"))
     Scenario.gnu_dir "android-ndk-r16b" Scenario.unpacked =
   (Exit (Msg "Expected --abi-name" []),
    (prune_versions Scenario.gnu_dir "4.9"
       (FS.names (w_fs Scenario.unpacked) Scenario.gnu_dir)
       (check_version Scenario.gnu_dir "4.9" Scenario.unpacked).2).2)).
Proof.
  assert ("4.9" ≠ "") as Hne by by_compute.
  assert (check_version Scenario.gnu_dir "4.9" Scenario.unpacked =
          (Ret (FS.names (w_fs Scenario.unpacked) Scenario.gnu_dir),
           (check_version Scenario.gnu_dir "4.9" Scenario.unpacked).2)) as Hcheck.
  { apply run_eta. vm_compute. reflexivity. }
  assert (prune_versions Scenario.gnu_dir "4.9"
            (FS.names (w_fs Scenario.unpacked) Scenario.gnu_dir)
            (check_version Scenario.gnu_dir "4.9" Scenario.unpacked).2 =
          (Ret tt,
           (prune_versions Scenario.gnu_dir "4.9"
              (FS.names (w_fs Scenario.unpacked) Scenario.gnu_dir)
              (check_version Scenario.gnu_dir "4.9" Scenario.unpacked).2).2))
    as Hprune.
  { apply run_eta. vm_compute. reflexivity. }
  split.
  - split; [reflexivity|].
    exact (proj1 (prune_gnu_missing_selectors
                    (Args "x86-4.9" "gnustl_static" None None "21" "x86" (Some "r16b"))
                    Scenario.gnu_dir "android-ndk-r16b" Scenario.unpacked)
             (or_introl eq_refl)).
  - split; [reflexivity|]. split; [exact Hne|]. split; [reflexivity|].
    split; [exact Hcheck|]. split; [exact Hprune|].
    exact (proj2 (prune_gnu_missing_selectors
                    (Args "x86-4.9" "gnustl_static" (Some "4.9") None "21" "x86"
                       (Some "r16b"))
                    Scenario.gnu_dir "android-ndk-r16b" Scenario.unpacked)
             "4.9" _ _ _ eq_refl Hne (or_introl eq_refl) Hcheck Hprune).
Defined.

(** X9, on a GCC toolchain asked for under [--compiler-version clang]. *)
Lemma toolchain_without_clang_kept_witness :
  (Py.occurs "-clang" "x86-4.9" = false ∧
   Py.replace "x86-4.9" "-clang" "-4.9" = "x86-4.9") ∧
  (Py.occurs "-clang"
     (toolchain (Args "x86-4.9" "c++_static" (Some "clang") None "21" "x86"
                   (Some "r16b"))) = false ∧
   selected_toolchain
     (Args "x86-4.9" "c++_static" (Some "clang") None "21" "x86" (Some "r16b"))
   = toolchain
       (Args "x86-4.9" "c++_static" (Some "clang") None "21" "x86" (Some "r16b"))).
Proof.
  assert (Py.occurs "-clang" "x86-4.9" = false) as H by (vm_compute; reflexivity).
  split.
  - split; [exact H|].
    exact (proj1 (toolchain_without_clang_kept Scenario.gcc_args) _ _ _ H).
  - split; [exact H|].
    exact (proj2 (toolchain_without_clang_kept
                    (Args "x86-4.9" "c++_static" (Some "clang") None "21" "x86"
                       (Some "r16b"))) H).
Defined.

(** X10, on a path that is not there and on the cached archive. *)
Lemma size_report_total_witness :
  (w_fs Scenario.unpacked !! ["nowhere"] = None ∧
   object_printable_size ["nowhere"] Scenario.unpacked =
   (Ret "0.00 B", Scenario.unpacked)) ∧
  (w_fs Scenario.unpacked !! Scenario.zip = Some (File "PKzip") ∧
   object_printable_size Scenario.zip Scenario.unpacked =
   (Ret (printable_size 5), Scenario.unpacked)).
Proof.
  assert (w_fs Scenario.unpacked !! ["nowhere"] = None) as Hnone.
  { vm_compute. reflexivity. }
  assert (w_fs Scenario.unpacked !! Scenario.zip = Some (File "PKzip")) as Hfile.
  { vm_compute. reflexivity. }
  split.
  - split; [exact Hnone|].
    destruct (size_report_total ["nowhere"] Scenario.unpacked) as (s & Hs & Hs0 & _).
    rewrite Hs. f_equal. f_equal. exact (Hs0 Hnone).
  - split; [exact Hfile|].
    destruct (size_report_total Scenario.zip Scenario.unpacked) as (s & Hs & _ & Hs1).
    rewrite Hs. f_equal. f_equal. exact (Hs1 _ Hfile).
Defined.

(** X11, on two kilobytes and on a megabyte and a half. *)
Lemma printed_number_bounds_witness :
  (1024 ≤ 2048 < 1024 ^ 2 ∧
   100 ≤ hundredths (human_readable_size 2048).1 ≤ 102400 ∧
   2 * (hundredths (human_readable_size 2048).1 * 1024 - 100 * 2048) ≤ 1024 ∧
   2 * (100 * 2048 - hundredths (human_readable_size 2048).1 * 1024) ≤ 1024) ∧
  (1024 ^ 2 ≤ 1572864 < 1024 ^ 3 ∧
   100 ≤ hundredths (human_readable_size 1572864).1 ≤ 102400 ∧
   2 * (hundredths (human_readable_size 1572864).1 * 1024 ^ 2 - 100 * 1572864)
   ≤ 1024 ^ 2 ∧
   2 * (100 * 1572864 - hundredths (human_readable_size 1572864).1 * 1024 ^ 2)
   ≤ 1024 ^ 2).
Proof.
  assert (1024 ≤ 2048 < 1024 ^ 2) as Hk by (vm_compute; split; [discriminate|reflexivity]).
  assert (1024 ^ 2 ≤ 1572864 < 1024 ^ 3) as Hm
    by (vm_compute; split; [discriminate|reflexivity]).
  split.
  - split; [exact Hk|]. exact (proj1 (printed_number_bounds 2048) Hk).
  - split; [exact Hm|]. exact (proj2 (printed_number_bounds 1572864) Hm).
Defined.

(** X12, on the architectures of the small kit: the library of the kept
    architecture is as before. *)
Lemma prune_touches_only_other_entries_witness :
  (∀ x, x ∈ FS.names (w_fs Scenario.unpacked) Scenario.api_dir → x ≠ "arch-arm" →
        ¬ Scenario.api_dir ++ [x]
            `prefix_of` Scenario.api_dir ++ ["arch-arm"; "libc.so"]) ∧
  w_fs
    (prune Arch Scenario.api_dir "arch-arm"
       (FS.names (w_fs Scenario.unpacked) Scenario.api_dir) Scenario.unpacked).2
    !! (Scenario.api_dir ++ ["arch-arm"; "libc.so"])
  = w_fs Scenario.unpacked !! (Scenario.api_dir ++ ["arch-arm"; "libc.so"]).
Proof.
  assert (∀ x, x ∈ FS.names (w_fs Scenario.unpacked) Scenario.api_dir →
               x ≠ "arch-arm" →
               ¬ Scenario.api_dir ++ [x]
                   `prefix_of` Scenario.api_dir ++ ["arch-arm"; "libc.so"]) as H.
  { intros x _ Hne [r Hr]. apply Hne.
    rewrite <- app_assoc in Hr. apply app_inv_head in Hr.
    injection Hr as Hx _. symmetry. exact Hx. }
  split; [exact H|].
  exact (prune_touches_only_other_entries Arch _ _ _ _ _ H).
Defined.

(** X14, on the architectures of the small kit. *)
Lemma prune_on_listing_witness :
  "arch-arm" ∈ FS.names (w_fs Scenario.unpacked) Scenario.api_dir ∧
  (prune Versions Scenario.api_dir "arch-arm"
     (FS.names (w_fs Scenario.unpacked) Scenario.api_dir) Scenario.unpacked).1
  = Ret tt ∧
  (prune Arch Scenario.api_dir "arch-arm"
     (FS.names (w_fs Scenario.unpacked) Scenario.api_dir) Scenario.unpacked).1
  = Ret tt ∧
  (w_fs Scenario.unpacked !! (Scenario.api_dir ++ ["arch-arm"]) = Some Dir →
   (prune Api Scenario.api_dir "arch-arm"
      (FS.names (w_fs Scenario.unpacked) Scenario.api_dir) Scenario.unpacked).1
   = Ret tt) ∧
  (w_fs Scenario.unpacked !! (Scenario.api_dir ++ ["arch-arm"]) ≠ Some Dir →
   (prune Api Scenario.api_dir "arch-arm"
      (FS.names (w_fs Scenario.unpacked) Scenario.api_dir) Scenario.unpacked).1
   = Exit (Msg "API not found" [])).
Proof.
  assert ("arch-arm" ∈ FS.names (w_fs Scenario.unpacked) Scenario.api_dir) as H
    by by_compute.
  split; [exact H|].
  exact (prune_on_listing _ _ _ H).
Defined.

(** X15, on the small kit in a file system with its root. *)
Lemma prune_keeps_tree_witness :
  tree (w_fs (rooted Scenario.unpacked)) ∧
  tree
    (w_fs
       (prune Stl Scenario.stl_dir "llvm-libc++"
          (FS.names (w_fs (rooted Scenario.unpacked)) Scenario.stl_dir)
          (rooted Scenario.unpacked)).2).
Proof.
  assert (tree (w_fs (rooted Scenario.unpacked))) as H.
  { apply tree_check. by_compute. }
  split; [exact H|].
  exact (prune_keeps_tree Stl _ _ _ _ H).
Defined.

(** X18, on the GCC build of the small kit: the cached archive is as
    before. *)
Lemma pruning_stays_inside_witness :
  ¬ ["w"] ++ ["_unpacked"] `prefix_of` Scenario.zip ∧
  ¬ ["w"] ++ ["_pruned"] `prefix_of` Scenario.zip ∧
  w_fs
    (prune_and_pack Scenario.targz "Linux" Scenario.gcc_args
       (layout_of ["w"] (Some "r16b")) Scenario.unpacked).2
    !! Scenario.zip
  = w_fs Scenario.unpacked !! Scenario.zip.
Proof.
  assert (¬ ["w"] ++ ["_unpacked"] `prefix_of` Scenario.zip) as Hu by by_compute.
  assert (¬ ["w"] ++ ["_pruned"] `prefix_of` Scenario.zip) as Hp by by_compute.
  split; [exact Hu|]. split; [exact Hp|].
  exact (pruning_stays_inside Scenario.targz "Linux" _ _ _ _ _ Hu Hp).
Defined.

(** X19, on a second run: the kit of the first run is wiped. *)
Lemma unpack_dir_starts_empty_witness :
  tree (w_fs (rooted Scenario.unpacked)) ∧
  prepare_dirs (layout_of ["w"] (Some "r16b")) (rooted Scenario.unpacked) =
  (Ret tt,
   (prepare_dirs (layout_of ["w"] (Some "r16b")) (rooted Scenario.unpacked)).2) ∧
  w_fs (prepare_dirs (layout_of ["w"] (Some "r16b")) (rooted Scenario.unpacked)).2
    !! (["w"] ++ ["_unpacked"]) = Some Dir ∧
  w_fs (prepare_dirs (layout_of ["w"] (Some "r16b")) (rooted Scenario.unpacked)).2
    !! Scenario.root = None ∧
  w_fs (prepare_dirs (layout_of ["w"] (Some "r16b")) (rooted Scenario.unpacked)).2
    !! Scenario.zip = w_fs (rooted Scenario.unpacked) !! Scenario.zip.
Proof.
  assert (tree (w_fs (rooted Scenario.unpacked))) as Ht.
  { apply tree_check. by_compute. }
  assert (prepare_dirs (layout_of ["w"] (Some "r16b")) (rooted Scenario.unpacked) =
          (Ret tt,
           (prepare_dirs (layout_of ["w"] (Some "r16b"))
              (rooted Scenario.unpacked)).2)) as H.
  { apply run_eta. vm_compute. reflexivity. }
  destruct (unpack_dir_starts_empty ["w"] (Some "r16b") _ _ Ht H)
    as (Hdir & Hbelow & _ & _ & Hout).
  split; [exact Ht|]. split; [exact H|]. split; [exact Hdir|]. split.
  - apply Hbelow; by_compute.
  - apply Hout; by_compute.
Defined.

(** X20, on the GCC build of the small kit. *)
Lemma archive_holds_pruned_kit_witness :
  prune_and_pack Scenario.targz "Linux" Scenario.gcc_args
    (layout_of ["w"] (Some "r16b")) Scenario.unpacked =
  (Ret
     ("android-ndk-r16b-arm-linux-androideabi-4.9-gnu-libstdc++-4.9-armeabi-v7a-android-21-arch-arm-Linux.tar.gz",
      ["w"; "_pruned";
       "android-ndk-r16b-arm-linux-androideabi-4.9-gnu-libstdc++-4.9-armeabi-v7a-android-21-arch-arm-Linux.tar.gz"]),
   (prune_and_pack Scenario.targz "Linux" Scenario.gcc_args
      (layout_of ["w"] (Some "r16b")) Scenario.unpacked).2) ∧
  w_fs
    (prune_and_pack Scenario.targz "Linux" Scenario.gcc_args
       (layout_of ["w"] (Some "r16b")) Scenario.unpacked).2
    !! ["w"; "_pruned";
        "android-ndk-r16b-arm-linux-androideabi-4.9-gnu-libstdc++-4.9-armeabi-v7a-android-21-arch-arm-Linux.tar.gz"]
  = Some
      (File
         (Scenario.targz (ndk_dir_name (ndk_version Scenario.gcc_args))
            (filter
               (λ kv, android_unpacked_ndk (layout_of ["w"] (Some "r16b"))
                        `prefix_of` kv.1)
               (w_fs
                  (prune_and_pack Scenario.targz "Linux" Scenario.gcc_args
                     (layout_of ["w"] (Some "r16b")) Scenario.unpacked).2)))).
Proof.
  assert (prune_and_pack Scenario.targz "Linux" Scenario.gcc_args
            (layout_of ["w"] (Some "r16b")) Scenario.unpacked =
          (Ret
             ("android-ndk-r16b-arm-linux-androideabi-4.9-gnu-libstdc++-4.9-armeabi-v7a-android-21-arch-arm-Linux.tar.gz",
              ["w"; "_pruned";
               "android-ndk-r16b-arm-linux-androideabi-4.9-gnu-libstdc++-4.9-armeabi-v7a-android-21-arch-arm-Linux.tar.gz"]),
           (prune_and_pack Scenario.targz "Linux" Scenario.gcc_args
              (layout_of ["w"] (Some "r16b")) Scenario.unpacked).2)) as H.
  { apply run_eta. vm_compute. reflexivity. }
  split; [exact H|].
  exact (archive_holds_pruned_kit Scenario.targz "Linux" _ _ _ _ _ _ _ H).
Defined.
